(** * The ConoHa v3 provider for libdns: model and verification

    The development follows the Go package [conohav3]:
    - the provider: [Provider], its four libdns operations and the two
      record translators;
    - the record-service client, [dnsClient];
    - the token issuer, [identifier] (identity.go);
    - the wire structs and the two sentinel errors.

    Packages the provider imports (time, net/netip, net/url, net/http,
    encoding/json, github.com/libdns/libdns) are not part of the package.
    Each has a module of its name here, which holds what the provider
    uses of it: an interface (a type class) where the provider only
    relies on the package to compute something, a definition where the
    behaviour of the provider depends on what is computed. *)

From Stdlib Require Import ZArith List String Ascii Bool Lia QArith.
Import ListNotations.
Local Open Scope string_scope.
Local Open Scope Z_scope.

(** ** Go values *)

(** Go's [int] and [int64] are 64-bit two's complement on the platforms the
    package is built for; [wrap64] is the wrap-around of their arithmetic. *)
Definition wrap64 (z : Z) : Z := (z + 2 ^ 63) mod 2 ^ 64 - 2 ^ 63.

Definition int64_range (z : Z) : Prop := - 2 ^ 63 <= z < 2 ^ 63.

(** An operand of a [fmt.Errorf] call. *)
Inductive fmtArg : Type :=
| ArgInt (n : Z)
| ArgString (s : string).

(** The packages whose errors reach the provider unchanged. *)
Inductive pkg : Type :=
| pkg_http | pkg_io | pkg_json | pkg_url | pkg_netip | pkg_libdns.

(** Values of Go's [error] interface that this package can hold.
    The package makes the two sentinels with [errors.New]; every other
    error is built by a [fmt.Errorf] call of the package (kept with its
    format string and operands) or comes from another package. *)
Inductive error : Type :=
| errRecordNotFound
| errRecordNotSupported
| Errorf (format : string) (args : list fmtArg)
| ErrorfWrap (format : string) (cause : error)
| foreign (origin : pkg) (msg : string).

(** [err == target] on interface values holding pointers is identity. The
    program only compares with its two sentinels, and no other error value
    is identical to one of them. *)
Definition error_eq (err target : error) : bool :=
  match err, target with
  | errRecordNotFound, errRecordNotFound => true
  | errRecordNotSupported, errRecordNotSupported => true
  | _, _ => false
  end.

(** [errors.Is(err, target)]: identity along the chain of [%w] causes. *)
Fixpoint errors_Is (err target : error) : bool :=
  error_eq err target ||
  match err with
  | ErrorfWrap _ cause => errors_Is cause target
  | _ => false
  end.

(** A Go result pair [(value, error)] with exactly one side set. *)
Inductive Result (A : Type) : Type :=
| Ok (a : A)
| Err (e : error).
Arguments Ok {A} a.
Arguments Err {A} e.

Definition isOk {A} (r : Result A) : bool :=
  match r with Ok _ => true | Err _ => false end.

(** ** package time *)

Module time.

(** [time.Duration] is an [int64] count of nanoseconds. *)
Definition Duration : Type := Z.

Definition Second : Duration := 1000000000.

(** [Duration.Seconds]: [float64(d / Second) + float64(d % Second) / 1e9],
    with Go's truncating division. The [float64] is modelled by the
    rational it stands for; on a whole number of seconds (the second
    summand is zero and the first is below 2^53) the two agree exactly. *)
Definition Seconds (d : Duration) : Q :=
  Qplus (inject_Z (Z.quot d Second)) (Qmake (Z.rem d Second) 1000000000).

(** The conversion [int(f)] of a [float64]: the fraction is dropped. A
    duration has fewer than 2^34 seconds, so the value always fits. *)
Definition int_of_float64 (f : Q) : Z := Z.quot (Qnum f) (Z.pos (Qden f)).

(** [time.Duration(n) * time.Second] on an [int]. *)
Definition of_seconds (n : Z) : Duration := wrap64 (wrap64 n * Second).

End time.

(** ** package net/netip *)

Module netip.

(** What the provider and libdns use of [netip.Addr]. [ParseAddr] returns
    the address or the message of its [parseAddrError]. *)
Class API : Type := {
  Addr : Type;
  ParseAddr : string -> Addr + string;
  String : Addr -> string;
  Is6 : Addr -> bool
}.

End netip.

(** ** packages strings and strconv *)

Module strings.

(** The ASCII members of [unicode.IsSpace]. *)
Definition isSpace (c : ascii) : bool :=
  let n := nat_of_ascii c in
  ((9 <=? n) && (n <=? 13))%nat || (n =? 32)%nat.

(** [strings.Fields]: the maximal runs of non-space bytes. [cur] is the
    field being read, reversed. *)
Fixpoint fields_from (cur : list ascii) (s : string) : list string :=
  let close :=
    match cur with
    | [] => []
    | _ => [string_of_list_ascii (rev cur)]
    end in
  match s with
  | EmptyString => close
  | String c rest =>
      if isSpace c then close ++ fields_from [] rest
      else fields_from (c :: cur) rest
  end.

Definition Fields (s : string) : list string := fields_from [] s.

End strings.

Module strconv.

Definition digit_of (c : ascii) : option Z :=
  let n := nat_of_ascii c in
  if ((48 <=? n) && (n <=? 57))%nat then Some (Z.of_nat n - 48) else None.

Fixpoint parse_digits (acc : Z) (s : string) : option Z :=
  match s with
  | EmptyString => Some acc
  | String c rest =>
      match digit_of c with
      | Some d => parse_digits (10 * acc + d) rest
      | None => None
      end
  end.

(** [strconv.ParseUint(s, 10, bits)]: decimal digits only, at least one,
    and a value below [2 ^ bits]. *)
Definition ParseUint (s : string) (bits : Z) : option Z :=
  match s with
  | EmptyString => None
  | _ =>
      match parse_digits 0 s with
      | Some n => if n <? 2 ^ bits then Some n else None
      | None => None
      end
  end.

Definition digit_char (d : Z) : ascii := ascii_of_nat (Z.to_nat (48 + d)).

Fixpoint format_digits (fuel : nat) (n : Z) (acc : string) : string :=
  match fuel with
  | O => acc
  | S fuel' =>
      let acc' := String (digit_char (n mod 10)) acc in
      if n / 10 =? 0 then acc' else format_digits fuel' (n / 10) acc'
  end.

(** The decimal form of a natural number (the verb [%d]). *)
Definition FormatUint (n : Z) : string :=
  format_digits (S (Z.to_nat (Z.log2 n))) n EmptyString.

(** The decimal form of an integer. *)
Definition Itoa (n : Z) : string :=
  if n <? 0 then "-" ++ FormatUint (- n) else FormatUint n.

End strconv.

(** ** package libdns

    The record types of libdns v1, their [RR] methods and [RR.Parse], as
    the provider calls them. The text of the library's error messages is
    shortened. *)

Module libdns.

(** [libdns.RR]: a resource record in its general form. *)
Record RR : Type := {
  RR_Name : string;
  RR_TTL : time.Duration;
  RR_Type : string;
  RR_Data : string
}.

Record CNAME : Type := {
  CNAME_Name : string;
  CNAME_TTL : time.Duration;
  CNAME_Target : string
}.

Record TXT : Type := {
  TXT_Name : string;
  TXT_TTL : time.Duration;
  TXT_Text : string
}.

(** [Preference] is a [uint16]. *)
Record MX : Type := {
  MX_Name : string;
  MX_TTL : time.Duration;
  MX_Preference : Z;
  MX_Target : string
}.

Record NS : Type := {
  NS_Name : string;
  NS_TTL : time.Duration;
  NS_Target : string
}.

(** The variants whose text form is intricate (CAA, SRV and
    ServiceBinding): their types, their [RR] methods and the parsers
    [RR.Parse] calls for them. *)
Class Structured : Type := {
  CAA : Type;
  SRV : Type;
  ServiceBinding : Type;
  CAA_RR : CAA -> RR;
  SRV_RR : SRV -> RR;
  ServiceBinding_RR : ServiceBinding -> RR;
  toCAA : RR -> CAA + string;
  toSRV : RR -> SRV + string;
  toServiceBinding : RR -> ServiceBinding + string
}.

Section Records.
Context {ip : netip.API} {st : Structured}.

Record Address : Type := {
  Address_Name : string;
  Address_TTL : time.Duration;
  Address_IP : netip.Addr
}.

(** The implementations of the [libdns.Record] interface. A type of the
    caller's own is seen by the provider through its [RR] method only,
    and so behaves as the [RR] value that method returns. *)
Inductive Record : Type :=
| RecRR (r : RR)
| RecAddress (a : Address)
| RecCAA (c : CAA)
| RecCNAME (c : CNAME)
| RecMX (m : MX)
| RecNS (n : NS)
| RecSRV (s : SRV)
| RecServiceBinding (s : ServiceBinding)
| RecTXT (t : TXT).

(** The method [RR()] of each implementation. *)
Definition RR_of (rec : Record) : RR :=
  match rec with
  | RecRR r => r
  | RecAddress a =>
      {| RR_Name := Address_Name a;
         RR_TTL := Address_TTL a;
         RR_Type := if netip.Is6 (Address_IP a) then "AAAA" else "A";
         RR_Data := netip.String (Address_IP a) |}
  | RecCAA c => CAA_RR c
  | RecCNAME c =>
      {| RR_Name := CNAME_Name c;
         RR_TTL := CNAME_TTL c;
         RR_Type := "CNAME";
         RR_Data := CNAME_Target c |}
  | RecMX m =>
      {| RR_Name := MX_Name m;
         RR_TTL := MX_TTL m;
         RR_Type := "MX";
         RR_Data := strconv.FormatUint (MX_Preference m) ++ " " ++ MX_Target m |}
  | RecNS n =>
      {| RR_Name := NS_Name n;
         RR_TTL := NS_TTL n;
         RR_Type := "NS";
         RR_Data := NS_Target n |}
  | RecSRV s => SRV_RR s
  | RecServiceBinding s => ServiceBinding_RR s
  | RecTXT t =>
      {| RR_Name := TXT_Name t;
         RR_TTL := TXT_TTL t;
         RR_Type := "TXT";
         RR_Data := TXT_Text t |}
  end.

Definition parse_error {A} (msg : string) : Result A :=
  Err (foreign pkg_libdns msg).

Definition toAddress (r : RR) : Result Address :=
  match netip.ParseAddr (RR_Data r) with
  | inr msg => parse_error ("invalid IP address: " ++ msg)
  | inl addr =>
      Ok {| Address_Name := RR_Name r;
            Address_IP := addr;
            Address_TTL := RR_TTL r |}
  end.

Definition toCNAME (r : RR) : Result CNAME :=
  Ok {| CNAME_Name := RR_Name r;
        CNAME_TTL := RR_TTL r;
        CNAME_Target := RR_Data r |}.

Definition toMX (r : RR) : Result MX :=
  match strings.Fields (RR_Data r) with
  | [preference; target] =>
      match strconv.ParseUint preference 16 with
      | None => parse_error ("invalid priority " ++ preference)
      | Some priority =>
          Ok {| MX_Name := RR_Name r;
                MX_TTL := RR_TTL r;
                MX_Preference := priority;
                MX_Target := target |}
      end
  | _ => parse_error "malformed MX value"
  end.

Definition toNS (r : RR) : Result NS :=
  Ok {| NS_Name := RR_Name r;
        NS_TTL := RR_TTL r;
        NS_Target := RR_Data r |}.

Definition toTXT (r : RR) : Result TXT :=
  Ok {| TXT_Name := RR_Name r;
        TXT_TTL := RR_TTL r;
        TXT_Text := RR_Data r |}.

Definition lift {A} (f : A -> Record) (r : Result A) : Result Record :=
  match r with
  | Ok a => Ok (f a)
  | Err e => Err e
  end.

Definition lift_sum {A} (f : A -> Record) (r : A + string) : Result Record :=
  match r with
  | inl a => Ok (f a)
  | inr msg => parse_error msg
  end.

(** [RR.Parse]: the typed variant of a record, by its type string; a
    type the library does not know stays an [RR]. *)
Definition Parse (r : RR) : Result Record :=
  let ty := RR_Type r in
  if String.eqb ty "A" || String.eqb ty "AAAA" then
    lift RecAddress (toAddress r)
  else if String.eqb ty "CAA" then lift_sum RecCAA (toCAA r)
  else if String.eqb ty "CNAME" then lift RecCNAME (toCNAME r)
  else if String.eqb ty "HTTPS" || String.eqb ty "SVCB" then
    lift_sum RecServiceBinding (toServiceBinding r)
  else if String.eqb ty "MX" then lift RecMX (toMX r)
  else if String.eqb ty "NS" then lift RecNS (toNS r)
  else if String.eqb ty "SRV" then lift_sum RecSRV (toSRV r)
  else if String.eqb ty "TXT" then lift RecTXT (toTXT r)
  else Ok (RecRR r).

End Records.

End libdns.

(** ** The wire structs *)

(** [conohaDNSRecord]: a DNS record as the record service sends and
    receives it. *)
Record conohaDNSRecord : Type := {
  UUID : string;
  Name : string;
  Type_ : string;
  Data : string;
  TTL : Z
}.

Record domain : Type := {
  domain_UUID : string;
  domain_Name : string
}.

Record domainListResponse : Type := { Domains : list domain }.

Record recordListResponse : Type := { Records : list conohaDNSRecord }.

(** ** The record translators *)

Section Translator.
Context {ip : netip.API} {st : libdns.Structured}.

(** [convertToLibdnsRecord] converts a raw API record to a libdns record. *)
Definition convertToLibdnsRecord (rec : conohaDNSRecord) : Result libdns.Record :=
  let ttl := time.of_seconds (TTL rec) in
  let ty := Type_ rec in
  if String.eqb ty "A" || String.eqb ty "AAAA" then
    match netip.ParseAddr (Data rec) with
    | inr msg => Err (foreign pkg_netip msg)
    | inl addr =>
        Ok (libdns.RecAddress
              {| libdns.Address_Name := Name rec;
                 libdns.Address_TTL := ttl;
                 libdns.Address_IP := addr |})
    end
  else if String.eqb ty "CNAME" then
    Ok (libdns.RecCNAME
          {| libdns.CNAME_Name := Name rec;
             libdns.CNAME_TTL := ttl;
             libdns.CNAME_Target := Data rec |})
  else if String.eqb ty "TXT" then
    Ok (libdns.RecTXT
          {| libdns.TXT_Name := Name rec;
             libdns.TXT_TTL := ttl;
             libdns.TXT_Text := Data rec |})
  else Err errRecordNotSupported.

(** [int(r.TTL.Seconds())]. *)
Definition ttl_seconds (d : time.Duration) : Z :=
  time.int_of_float64 (time.Seconds d).

(** [convertToConohaDNSRecord] converts a libdns record into a raw record.
    The second guard of the source ([parsed == nil]) cannot fire:
    [RR.Parse] returns a record whenever it returns no error. *)
Definition convertToConohaDNSRecord (rec : libdns.Record) : Result conohaDNSRecord :=
  let rr := libdns.RR_of rec in
  match libdns.Parse rr with
  | Err err => Err (ErrorfWrap "failed to parse record: %w" err)
  | Ok parsed =>
      match parsed with
      | libdns.RecAddress r =>
          Ok {| UUID := EmptyString;
                Name := libdns.Address_Name r;
                Type_ := libdns.RR_Type rr;
                Data := netip.String (libdns.Address_IP r);
                TTL := ttl_seconds (libdns.Address_TTL r) |}
      | libdns.RecCNAME r =>
          Ok {| UUID := EmptyString;
                Name := libdns.CNAME_Name r;
                Type_ := libdns.RR_Type rr;
                Data := libdns.CNAME_Target r;
                TTL := ttl_seconds (libdns.CNAME_TTL r) |}
      | libdns.RecTXT r =>
          Ok {| UUID := EmptyString;
                Name := libdns.TXT_Name r;
                Type_ := libdns.RR_Type rr;
                Data := libdns.TXT_Text r;
                TTL := ttl_seconds (libdns.TXT_TTL r) |}
      | _ => Err errRecordNotSupported
      end
  end.

End Translator.

(** ** package net/url *)

Module url.

(** A parsed URL: the text [Parse] was given, and the path segments
    joined to it since. *)
Record URL : Type := {
  origin : string;
  path : list string
}.

(** [rejects s] is the message of the error [url.Parse] returns on [s],
    if it returns one. *)
Class API : Type := { rejects : string -> option string }.

Definition Parse {u : API} (rawURL : string) : Result URL :=
  match rejects rawURL with
  | Some msg => Err (foreign pkg_url msg)
  | None => Ok {| origin := rawURL; path := [] |}
  end.

Definition nonempty (s : string) : bool :=
  match s with EmptyString => false | _ => true end.

(** [URL.JoinPath]: empty elements are dropped, as [path.Join] does;
    elements that hold a slash or a dot segment, which it would rewrite,
    are kept as they are. *)
Definition JoinPath (u : URL) (elem : list string) : URL :=
  {| origin := origin u; path := path u ++ filter nonempty elem |}.

End url.

(** ** package encoding/json, the encoding side *)

Module json.

(** A JSON document. An object keeps its members in the order the
    encoder writes them. *)
#[local] Unset Elimination Schemes.
Inductive value : Type :=
| JString (s : string)
| JNumber (n : Z)
| JArray (elements : list value)
| JObject (members : list (string * value)).
#[local] Set Elimination Schemes.

Fixpoint find (key : string) (members : list (string * value)) : option value :=
  match members with
  | [] => None
  | (k, v) :: rest => if String.eqb k key then Some v else find key rest
  end.

(** The member [key] of an object. *)
Definition member (key : string) (doc : value) : option value :=
  match doc with
  | JObject members => find key members
  | _ => None
  end.

(** A struct field tagged [omitempty] is left out when it holds its
    zero value. *)
Definition omitempty_string (key s : string) : list (string * value) :=
  match s with
  | EmptyString => []
  | _ => [(key, JString s)]
  end.

Definition omitempty_int (key : string) (n : Z) : list (string * value) :=
  if n =? 0 then [] else [(key, JNumber n)].

(** What the provider asks of [json.Unmarshal]: the decoding of a
    response body into each of the three structs it is given, or the
    message of the error. *)
Class Decoder : Type := {
  Unmarshal_domainListResponse : string -> domainListResponse + string;
  Unmarshal_recordListResponse : string -> recordListResponse + string;
  Unmarshal_conohaDNSRecord : string -> conohaDNSRecord + string
}.

End json.

(** ** The request structs and their JSON encoding *)

Record user : Type := { user_ID : string; user_Password : string }.
Record password : Type := { User : user }.
Record identity : Type := { Methods : list string; Password : password }.
Record project : Type := { project_ID : string }.
Record scope : Type := { Project : project }.
Record auth : Type := { Identity : identity; Scope : scope }.
Record identityRequest : Type := { Auth : auth }.

(** The two kinds of value the package passes to [newJSONRequest] as a
    payload. *)
Inductive payload : Type :=
| payload_record (record : conohaDNSRecord)
| payload_identity (request : identityRequest).

(** The encoding follows the [json] tags of [conohaDNSRecord]: [uuid] and
    [ttl] are [omitempty]. *)
Definition encode_conohaDNSRecord (r : conohaDNSRecord) : json.value :=
  json.JObject
    (json.omitempty_string "uuid" (UUID r)
     ++ [("name", json.JString (Name r));
         ("type", json.JString (Type_ r));
         ("data", json.JString (Data r))]
     ++ json.omitempty_int "ttl" (TTL r)).

Definition encode_identityRequest (r : identityRequest) : json.value :=
  let a := Auth r in
  let u := User (Password (Identity a)) in
  json.JObject
    [("auth",
      json.JObject
        [("identity",
          json.JObject
            [("methods", json.JArray (map json.JString (Methods (Identity a))));
             ("password",
              json.JObject
                [("user",
                  json.JObject
                    [("id", json.JString (user_ID u));
                     ("password", json.JString (user_Password u))])])]);
         ("scope",
          json.JObject
            [("project",
              json.JObject
                [("id", json.JString (project_ID (Project (Scope a))))])])])].

Definition encode (p : payload) : json.value :=
  match p with
  | payload_record r => encode_conohaDNSRecord r
  | payload_identity r => encode_identityRequest r
  end.

(** ** package net/http *)

Module http.

(** A header map: canonical key to values. *)
Definition Header : Type := list (string * list string).

Definition is_upper (n : nat) : bool := ((65 <=? n) && (n <=? 90))%nat.
Definition is_lower (n : nat) : bool := ((97 <=? n) && (n <=? 122))%nat.
Definition is_digit (n : nat) : bool := ((48 <=? n) && (n <=? 57))%nat.

(** The bytes of an HTTP token: letters, digits and
    [! # $ % & ' * + - . ^ _ ` | ~]. *)
Definition validHeaderFieldByte (c : ascii) : bool :=
  let n := nat_of_ascii c in
  is_upper n || is_lower n || is_digit n
  || existsb (Nat.eqb n) [33; 35; 36; 37; 38; 39; 42; 43; 45; 46; 94; 95; 96; 124; 126]%nat.

Definition toUpper (c : ascii) : ascii :=
  let n := nat_of_ascii c in
  if is_lower n then ascii_of_nat (n - 32) else c.

Definition toLower (c : ascii) : ascii :=
  let n := nat_of_ascii c in
  if is_upper n then ascii_of_nat (n + 32) else c.

Fixpoint all_valid (s : string) : bool :=
  match s with
  | EmptyString => true
  | String c rest => validHeaderFieldByte c && all_valid rest
  end.

Fixpoint canonical (upper : bool) (s : string) : string :=
  match s with
  | EmptyString => EmptyString
  | String c rest =>
      String (if upper then toUpper c else toLower c)
             (canonical (Nat.eqb (nat_of_ascii c) 45) rest)
  end.

(** [textproto.CanonicalMIMEHeaderKey]: the first letter and every letter
    after a hyphen in upper case, the others in lower case; a key that is
    not a token is returned as it is. *)
Definition CanonicalMIMEHeaderKey (s : string) : string :=
  if all_valid s then canonical true s else s.

Fixpoint lookup (key : string) (h : Header) : option (list string) :=
  match h with
  | [] => None
  | (k, v) :: rest => if String.eqb k key then Some v else lookup key rest
  end.

(** [Header.Get]: the first value under the canonical form of [key], or
    the empty string. *)
Definition Get (h : Header) (key : string) : string :=
  match lookup (CanonicalMIMEHeaderKey key) h with
  | Some (v :: _) => v
  | _ => EmptyString
  end.

Definition remove (key : string) (h : Header) : Header :=
  filter (fun kv => negb (String.eqb (fst kv) key)) h.

(** [Header.Set]: the values under the canonical form of [key] are
    replaced by the single value [v]. *)
Definition Set_ (h : Header) (key v : string) : Header :=
  let k := CanonicalMIMEHeaderKey key in
  (k, [v]) :: remove k h.

(** An outgoing request. [Body] is the JSON document written to the
    request buffer, [None] when nothing was written. *)
Record Request : Type := {
  Method : string;
  URL : url.URL;
  Request_Header : Header;
  Request_Body : option json.value
}.

(** A response body as [io.ReadAll] sees it: the bytes read and, when the
    read broke off, the message of its error. *)
Record Body : Type := {
  content : string;
  read_error : option string
}.

Record Response : Type := {
  StatusCode : Z;
  Response_Header : Header;
  Response_Body : Body
}.

Definition StatusOK : Z := 200.
Definition StatusCreated : Z := 201.
Definition StatusNoContent : Z := 204.

(** The network and the remote service behind [http.Client.Do]: a request
    is answered by a response or by a transport error (which includes the
    five-second timeout both clients set), and the remote state moves. *)
Class Transport : Type := {
  World : Type;
  RoundTrip : Request -> World -> (Response + string) * World
}.

End http.

(** ** Calls on the network *)

(** The state an operation runs in: the remote world, and the requests sent
    so far, oldest first. *)
Record Net {tr : http.Transport} : Type := {
  remote : http.World;
  sent : list http.Request
}.

(** A Go function that performs requests and returns [(value, error)]. *)
Definition M {tr : http.Transport} (A : Type) : Type := Net -> Result A * Net.

Definition ret {tr : http.Transport} {A} (a : A) : M A := fun s => (Ok a, s).

Definition fail {tr : http.Transport} {A} (e : error) : M A := fun s => (Err e, s).

Definition bind {tr : http.Transport} {A B} (m : M A) (k : A -> M B) : M B :=
  fun s =>
    match m s with
    | (Ok a, s') => k a s'
    | (Err e, s') => (Err e, s')
    end.

Definition liftR {tr : http.Transport} {A} (r : Result A) : M A := fun s => (r, s).

Notation "x <- m ;; k" := (bind m (fun x => k))
  (at level 61, m at next level, right associativity).

(** [c.HTTPClient.Do(req)]. *)
Definition HTTPClient_Do {tr : http.Transport} (req : http.Request) : M http.Response :=
  fun s =>
    let (answer, w) := http.RoundTrip req (remote s) in
    let s' := {| remote := w; sent := sent s ++ [req] |} in
    match answer with
    | inl resp => (Ok resp, s')
    | inr msg => (Err (foreign pkg_http msg), s')
    end.

(** ** The token issuer and the record-service client *)

Section Clients.
Context {tr : http.Transport} {dec : json.Decoder} {u : url.API}.

(** [newJSONRequest] creates a request with a JSON-encoded payload. Its
    two error returns cannot fire here: the payloads are structs of
    strings and integers, which always encode, and the method and URL it
    passes on are a constant and a URL that was parsed before. *)
Definition newJSONRequest (method : string) (endpoint : url.URL)
    (p : option payload) : Result http.Request :=
  let buf := option_map encode p in
  let header := http.Set_ [] "Accept" "application/json" in
  let header :=
    match p with
    | Some _ => http.Set_ header "Content-Type" "application/json"
    | None => header
    end in
  Ok {| http.Method := method;
        http.URL := endpoint;
        http.Request_Header := header;
        http.Request_Body := buf |}.

Definition default_region (region : string) : string :=
  match region with
  | EmptyString => "c3j1"
  | _ => region
  end.

(** *** The token issuer *)

Record identifier : Type := { identifier_baseURL : url.URL }.

Definition identityBaseURL (region : string) : string :=
  "https://identity." ++ region ++ ".conoha.io".

Definition newIdentifier (region : string) : Result identifier :=
  let region := default_region region in
  match url.Parse (identityBaseURL region) with
  | Err err => Err err
  | Ok baseURL => Ok {| identifier_baseURL := baseURL |}
  end.

(** [identifier.do] sends a request and returns the token of the
    [x-subject-token] header. *)
Definition identifier_do (c : identifier) (req : http.Request) : M string :=
  resp <- HTTPClient_Do req ;;
  if negb (http.StatusCode resp =? http.StatusCreated) then
    fail (Errorf "got invalid status: HTTP %d" [ArgInt (http.StatusCode resp)])
  else
    let token := http.Get (http.Response_Header resp) "x-subject-token" in
    match token with
    | EmptyString =>
        fail (Errorf "x-subject-token header is missing in response" [])
    | _ => ret token
    end.

Definition token_request (c : identifier)
    (APITenantID APIUserID APIPassword : string) : Result http.Request :=
  let a :=
    {| Identity :=
         {| Methods := ["password"];
            Password :=
              {| User := {| user_ID := APIUserID;
                            user_Password := APIPassword |} |} |};
       Scope := {| Project := {| project_ID := APITenantID |} |} |} in
  let endpoint := url.JoinPath (identifier_baseURL c) ["v3"; "auth"; "tokens"] in
  newJSONRequest "POST" endpoint (Some (payload_identity {| Auth := a |})).

(** [getToken] returns an x-subject-token from the identity API. *)
Definition getToken (c : identifier)
    (APITenantID APIUserID APIPassword : string) : M string :=
  req <- liftR (token_request c APITenantID APIUserID APIPassword) ;;
  identifier_do c req.

(** *** The record-service client *)

Record dnsClient : Type := {
  token : string;
  baseURL : url.URL
}.

Definition dnsServiceBaseURL (region : string) : string :=
  "https://dns-service." ++ region ++ ".conoha.io".

Definition newDnsClient (region token : string) : Result dnsClient :=
  let region := default_region region in
  match url.Parse (dnsServiceBaseURL region) with
  | Err err => Err err
  | Ok baseURL => Ok {| token := token; baseURL := baseURL |}
  end.

(** The request [dnsClient.do] hands to the HTTP client: the token is
    attached when the client holds one. *)
Definition with_token (c : dnsClient) (req : http.Request) : http.Request :=
  match token c with
  | EmptyString => req
  | _ =>
      {| http.Method := http.Method req;
         http.URL := http.URL req;
         http.Request_Header :=
           http.Set_ (http.Request_Header req) "X-Auth-Token" (token c);
         http.Request_Body := http.Request_Body req |}
  end.

Definition accepted (status : Z) : bool :=
  (status =? http.StatusOK) || (status =? http.StatusNoContent).

(** [dnsClient.do] sends a request and, when [result] is given, decodes
    the JSON response into it. [result] is the decoder for the struct the
    caller points at; the value returned is what was written there. *)
Definition dnsClient_do {A : Type} (c : dnsClient) (req : http.Request)
    (result : option (string -> A + string)) : M (option A) :=
  resp <- HTTPClient_Do (with_token c req) ;;
  let body := http.Response_Body resp in
  if negb (accepted (http.StatusCode resp)) then
    fail (Errorf "got error status: HTTP %d\nResponse body: %s"
            [ArgInt (http.StatusCode resp); ArgString (http.content body)])
  else
    match result with
    | None => ret None
    | Some unmarshal =>
        match http.read_error body with
        | Some msg => fail (foreign pkg_io msg)
        | None =>
            match unmarshal (http.content body) with
            | inr msg => fail (foreign pkg_json msg)
            | inl v => ret (Some v)
            end
        end
    end.

(** The struct a caller allocated, after [do] returned without error. *)
Definition written {A : Type} (zero : A) (out : option A) : A :=
  match out with
  | Some v => v
  | None => zero
  end.

(** [getDomains] returns the domains registered in DNS. *)
Definition getDomains (c : dnsClient) : M domainListResponse :=
  let endpoint := url.JoinPath (baseURL c) ["v1"; "domains"] in
  req <- liftR (newJSONRequest "GET" endpoint None) ;;
  out <- dnsClient_do c req (Some json.Unmarshal_domainListResponse) ;;
  ret (written {| Domains := [] |} out).

Fixpoint find_domain (domains : list domain) (domainName : string) : Result string :=
  match domains with
  | [] => Err (Errorf "no such domain: %s" [ArgString domainName])
  | d :: rest =>
      if String.eqb (domain_Name d) domainName then Ok (domain_UUID d)
      else find_domain rest domainName
  end.

(** [getDomainID] returns the ID of the named domain. *)
Definition getDomainID (c : dnsClient) (domainName : string) : M string :=
  domainList <- getDomains c ;;
  liftR (find_domain (Domains domainList) domainName).

(** [getRecords] returns the records registered for the domain. *)
Definition getRecords (c : dnsClient) (domainID : string) : M recordListResponse :=
  let endpoint := url.JoinPath (baseURL c) ["v1"; "domains"; domainID; "records"] in
  req <- liftR (newJSONRequest "GET" endpoint None) ;;
  out <- dnsClient_do c req (Some json.Unmarshal_recordListResponse) ;;
  ret (written {| Records := [] |} out).

(** The loop of [getRecordID] over the listing. *)
Fixpoint find_record (records : list conohaDNSRecord)
    (recordName recordType : string) : Result string :=
  match records with
  | [] => Err errRecordNotFound
  | record :: rest =>
      if String.eqb (Name record) recordName && String.eqb (Type_ record) recordType
      then Ok (UUID record)
      else find_record rest recordName recordType
  end.

(** [getRecordID] returns the ID of the record with this name and type. *)
Definition getRecordID (c : dnsClient) (domainID recordName recordType : string)
    : M string :=
  recordList <- getRecords c domainID ;;
  liftR (find_record (Records recordList) recordName recordType).

Definition zero_record : conohaDNSRecord :=
  {| UUID := EmptyString; Name := EmptyString; Type_ := EmptyString;
     Data := EmptyString; TTL := 0 |}.

(** [createRecord] adds a new record. *)
Definition createRecord (c : dnsClient) (domainID : string)
    (record : conohaDNSRecord) : M conohaDNSRecord :=
  let endpoint := url.JoinPath (baseURL c) ["v1"; "domains"; domainID; "records"] in
  req <- liftR (newJSONRequest "POST" endpoint (Some (payload_record record))) ;;
  out <- dnsClient_do c req (Some json.Unmarshal_conohaDNSRecord) ;;
  ret (written zero_record out).

Definition set_TTL (record : conohaDNSRecord) (ttl : Z) : conohaDNSRecord :=
  {| UUID := UUID record; Name := Name record; Type_ := Type_ record;
     Data := Data record; TTL := ttl |}.

(** [updateRecord] updates the record [recordID]. The record service
    answers a PUT that carries [ttl] with HTTP 400, so the TTL is zeroed
    and [omitempty] drops the field. *)
Definition updateRecord (c : dnsClient) (domainID recordID : string)
    (record : conohaDNSRecord) : M conohaDNSRecord :=
  let endpoint :=
    url.JoinPath (baseURL c) ["v1"; "domains"; domainID; "records"; recordID] in
  let record := set_TTL record 0 in
  req <- liftR (newJSONRequest "PUT" endpoint (Some (payload_record record))) ;;
  out <- dnsClient_do c req (Some json.Unmarshal_conohaDNSRecord) ;;
  ret (written zero_record out).

(** [deleteRecord] removes the record [recordID]. *)
Definition deleteRecord (c : dnsClient) (domainID recordID : string) : M unit :=
  let endpoint :=
    url.JoinPath (baseURL c) ["v1"; "domains"; domainID; "records"; recordID] in
  req <- liftR (newJSONRequest "DELETE" endpoint None) ;;
  _ <- dnsClient_do (A := unit) c req None ;;
  ret tt.

End Clients.

(** ** The provider: the four operations *)

(** [Provider]: the credentials. Its mutex serialises the four operations;
    here an operation is a function on the network state, so two of them
    never interleave. *)
Record Provider : Type := {
  APITenantID : string;
  APIUserID : string;
  APIPassword : string;
  Region : string
}.

Section Operations.
Context {ip : netip.API} {st : libdns.Structured}
        {tr : http.Transport} {dec : json.Decoder} {u : url.API}.

(** [initClient] initialises a DNS client with a fresh token. *)
Definition initClient (p : Provider) : M dnsClient :=
  identifier <- liftR (newIdentifier (Region p)) ;;
  token <- getToken identifier (APITenantID p) (APIUserID p) (APIPassword p) ;;
  liftR (newDnsClient (Region p) token).

(** The loop of [GetRecords]; [libRecords] is the slice built so far. *)
Fixpoint GetRecords_loop (libRecords : list libdns.Record)
    (records : list conohaDNSRecord) : Result (list libdns.Record) :=
  match records with
  | [] => Ok libRecords
  | record :: rest =>
      match convertToLibdnsRecord record with
      | Err err =>
          if error_eq err errRecordNotSupported
          then GetRecords_loop libRecords rest
          else Err err
      | Ok libRecord => GetRecords_loop (libRecords ++ [libRecord]) rest
      end
  end.

(** [GetRecords] lists all the records in the zone. *)
Definition GetRecords (p : Provider) (zone : string) : M (list libdns.Record) :=
  dnsClient <- initClient p ;;
  domainID <- getDomainID dnsClient zone ;;
  rawRecordList <- getRecords dnsClient domainID ;;
  liftR (GetRecords_loop [] (Records rawRecordList)).

(** The loop of [AppendRecords]. *)
Fixpoint AppendRecords_loop (c : dnsClient) (domainID : string)
    (records : list libdns.Record) : M unit :=
  match records with
  | [] => ret tt
  | rec :: rest =>
      rawRecord <- liftR (convertToConohaDNSRecord rec) ;;
      _ <- createRecord c domainID rawRecord ;;
      AppendRecords_loop c domainID rest
  end.

(** [AppendRecords] adds the records to the zone. *)
Definition AppendRecords (p : Provider) (zone : string)
    (records : list libdns.Record) : M (list libdns.Record) :=
  dnsClient <- initClient p ;;
  domainID <- getDomainID dnsClient zone ;;
  _ <- AppendRecords_loop dnsClient domainID records ;;
  ret records.

(** One turn of the loop of [SetRecords], after the conversion. *)
Definition SetRecords_step (c : dnsClient) (domainID : string)
    (converted : conohaDNSRecord) : M unit :=
  fun s =>
    match getRecordID c domainID (Name converted) (Type_ converted) s with
    | (Err err, s1) =>
        if errors_Is err errRecordNotFound then
          (_ <- createRecord c domainID converted ;; ret tt) s1
        else (Err err, s1)
    | (Ok recordID, s1) =>
        (_ <- updateRecord c domainID recordID converted ;; ret tt) s1
    end.

Fixpoint SetRecords_loop (c : dnsClient) (domainID : string)
    (records : list libdns.Record) : M unit :=
  match records with
  | [] => ret tt
  | rec :: rest =>
      converted <- liftR (convertToConohaDNSRecord rec) ;;
      _ <- SetRecords_step c domainID converted ;;
      SetRecords_loop c domainID rest
  end.

(** [SetRecords] sets the records in the zone, updating existing ones or
    creating new ones. *)
Definition SetRecords (p : Provider) (zone : string)
    (records : list libdns.Record) : M (list libdns.Record) :=
  dnsClient <- initClient p ;;
  domainID <- getDomainID dnsClient zone ;;
  _ <- SetRecords_loop dnsClient domainID records ;;
  ret records.

(** The loop of [DeleteRecords]. *)
Fixpoint DeleteRecords_loop (c : dnsClient) (domainID : string)
    (records : list libdns.Record) : M unit :=
  match records with
  | [] => ret tt
  | rec :: rest =>
      converted <- liftR (convertToConohaDNSRecord rec) ;;
      recordID <- getRecordID c domainID (Name converted) (Type_ converted) ;;
      _ <- deleteRecord c domainID recordID ;;
      DeleteRecords_loop c domainID rest
  end.

(** [DeleteRecords] deletes the records from the zone. *)
Definition DeleteRecords (p : Provider) (zone : string)
    (records : list libdns.Record) : M (list libdns.Record) :=
  dnsClient <- initClient p ;;
  domainID <- getDomainID dnsClient zone ;;
  _ <- DeleteRecords_loop dnsClient domainID records ;;
  ret records.

End Operations.

(** ** Concrete libraries and a test server

    The theorems below hold for every implementation of the interfaces
    above. To run the provider on concrete inputs, this part supplies one
    of each: the IPv4 part of net/netip, a JSON reader and an in-memory
    record service. *)

Module netip_v4.

(** The zero [Addr] and the IPv4 addresses. *)
Inductive Addr : Type :=
| zero
| v4 (a b c d : ascii).

Definition octet (c : ascii) : string :=
  strconv.FormatUint (Z.of_nat (nat_of_ascii c)).

(** [Addr.String]. *)
Definition String_ (addr : Addr) : string :=
  match addr with
  | zero => "invalid IP"
  | v4 a b c d => octet a ++ "." ++ octet b ++ "." ++ octet c ++ "." ++ octet d
  end.

Definition dot : nat := 46.
Definition colon : nat := 58.
Definition percent : nat := 37.

(** The loop of [parseIPv4Fields]: [val] and [digLen] describe the octet
    being read, [fields] holds the octets closed so far, [first] says
    that no byte was read yet and [after_dot] that the last one was a
    dot. *)
Fixpoint parseIPv4Fields (s : string) (first after_dot : bool)
    (val digLen : Z) (fields : list Z) : list Z + string :=
  match s with
  | EmptyString =>
      if Z.of_nat (List.length fields) <? 3 then inr "IPv4 address too short"
      else inl (fields ++ [val])%list
  | String c rest =>
      match strconv.digit_of c with
      | Some d =>
          if (digLen =? 1) && (val =? 0)
          then inr "IPv4 field has octet with leading zero"
          else
            let val' := val * 10 + d in
            if val' >? 255 then inr "IPv4 field has value >255"
            else parseIPv4Fields rest false false val' (digLen + 1) fields
      | None =>
          if Nat.eqb (nat_of_ascii c) dot then
            if first || after_dot
               || match rest with EmptyString => true | _ => false end
            then inr "IPv4 field must have at least one digit"
            else if Z.of_nat (List.length fields) =? 3
            then inr "IPv4 address too long"
            else parseIPv4Fields rest false true 0 0 (fields ++ [val])%list
          else inr "unexpected character"
      end
  end.

Definition byte (n : Z) : ascii := ascii_of_nat (Z.to_nat n).

Definition parseIPv4 (s : string) : Addr + string :=
  match parseIPv4Fields s true false 0 0 [] with
  | inl [a; b; c; d] => inl (v4 (byte a) (byte b) (byte c) (byte d))
  | inl _ => inr "IPv4 address too short"
  | inr msg => inr msg
  end.

(** [ParseAddr] looks for the first dot, colon or percent sign. Text with
    a colon first is an IPv6 address, which this part of the library
    does not hold. *)
Fixpoint dispatch (whole s : string) : Addr + string :=
  match s with
  | EmptyString => inr "unable to parse IP"
  | String c rest =>
      let n := nat_of_ascii c in
      if Nat.eqb n dot then parseIPv4 whole
      else if Nat.eqb n colon then inr "IPv6 addresses are not held here"
      else if Nat.eqb n percent then inr "missing IPv6 address"
      else dispatch whole rest
  end.

Definition ParseAddr (s : string) : Addr + string := dispatch s s.

#[export] Instance api : netip.API := {|
  netip.Addr := Addr;
  netip.ParseAddr := ParseAddr;
  netip.String := String_;
  netip.Is6 := fun _ => false
|}.

End netip_v4.

Module libdns_text.

(** CAA, SRV and ServiceBinding records kept in their text form: the
    parsers accept every record of their type as it is. *)
#[export] Instance structured : libdns.Structured := {|
  libdns.CAA := libdns.RR;
  libdns.SRV := libdns.RR;
  libdns.ServiceBinding := libdns.RR;
  libdns.CAA_RR := fun r => r;
  libdns.SRV_RR := fun r => r;
  libdns.ServiceBinding_RR := fun r => r;
  libdns.toCAA := fun r => inl r;
  libdns.toSRV := fun r => inl r;
  libdns.toServiceBinding := fun r => inl r
|}.

End libdns_text.

Module jsontext.

Definition quote : ascii := ascii_of_nat 34.

Definition char_is (c : ascii) (n : nat) : bool := Nat.eqb (nat_of_ascii c) n.

(** The text of a document, without escapes in strings. *)
Fixpoint print (v : json.value) : string :=
  match v with
  | json.JString s => String quote (s ++ String quote EmptyString)
  | json.JNumber n => strconv.Itoa n
  | json.JArray elements =>
      "[" ++ (fix go (l : list json.value) : string :=
                match l with
                | [] => EmptyString
                | x :: rest =>
                    print x ++ match rest with [] => EmptyString | _ => "," ++ go rest end
                end) elements ++ "]"
  | json.JObject members =>
      "{" ++ (fix go (l : list (string * json.value)) : string :=
                match l with
                | [] => EmptyString
                | (k, x) :: rest =>
                    String quote (k ++ String quote EmptyString) ++ ":" ++ print x
                    ++ match rest with [] => EmptyString | _ => "," ++ go rest end
                end) members ++ "}"
  end.

Fixpoint skip (s : string) : string :=
  match s with
  | String c rest => if strings.isSpace c then skip rest else s
  | EmptyString => s
  end.

(** The string up to the closing quote, and the text after it. *)
Fixpoint read_string (s : string) (acc : list ascii) : option (string * string) :=
  match s with
  | EmptyString => None
  | String c rest =>
      if char_is c 34 then Some (string_of_list_ascii (rev acc), rest)
      else read_string rest (c :: acc)
  end.

Fixpoint read_digits (s : string) (acc : Z) : Z * string :=
  match s with
  | EmptyString => (acc, s)
  | String c rest =>
      match strconv.digit_of c with
      | Some d => read_digits rest (10 * acc + d)
      | None => (acc, s)
      end
  end.

(** A reader for the documents [print] writes: strings without escapes,
    integers, arrays and objects. *)
Fixpoint parse (fuel : nat) (s : string) : option (json.value * string) :=
  match fuel with
  | O => None
  | S fuel =>
      match skip s with
      | EmptyString => None
      | String c rest =>
          if char_is c 34 then
            match read_string rest [] with
            | Some (str, rest') => Some (json.JString str, rest')
            | None => None
            end
          else if char_is c 91 then
            match skip rest with
            | String c' rest' =>
                if char_is c' 93 then Some (json.JArray [], rest')
                else
                  match elements fuel rest [] with
                  | Some (l, rest'') => Some (json.JArray l, rest'')
                  | None => None
                  end
            | EmptyString => None
            end
          else if char_is c 123 then
            match skip rest with
            | String c' rest' =>
                if char_is c' 125 then Some (json.JObject [], rest')
                else
                  match members fuel rest [] with
                  | Some (l, rest'') => Some (json.JObject l, rest'')
                  | None => None
                  end
            | EmptyString => None
            end
          else if char_is c 45 then
            match rest with
            | String d _ =>
                match strconv.digit_of d with
                | Some _ =>
                    let (n, rest') := read_digits rest 0 in
                    Some (json.JNumber (- n), rest')
                | None => None
                end
            | EmptyString => None
            end
          else
            match strconv.digit_of c with
            | Some _ =>
                let (n, rest') := read_digits (String c rest) 0 in
                Some (json.JNumber n, rest')
            | None => None
            end
      end
  end
with elements (fuel : nat) (s : string) (acc : list json.value)
    : option (list json.value * string) :=
  match fuel with
  | O => None
  | S fuel =>
      match parse fuel s with
      | Some (v, rest) =>
          match skip rest with
          | String c rest' =>
              if char_is c 44 then elements fuel rest' (v :: acc)
              else if char_is c 93 then Some (rev (v :: acc), rest')
              else None
          | EmptyString => None
          end
      | None => None
      end
  end
with members (fuel : nat) (s : string) (acc : list (string * json.value))
    : option (list (string * json.value) * string) :=
  match fuel with
  | O => None
  | S fuel =>
      match skip s with
      | String q rest =>
          if char_is q 34 then
            match read_string rest [] with
            | Some (key, rest1) =>
                match skip rest1 with
                | String c rest2 =>
                    if char_is c 58 then
                      match parse fuel rest2 with
                      | Some (v, rest3) =>
                          match skip rest3 with
                          | String c' rest4 =>
                              if char_is c' 44 then members fuel rest4 ((key, v) :: acc)
                              else if char_is c' 125 then Some (rev ((key, v) :: acc), rest4)
                              else None
                          | EmptyString => None
                          end
                      | None => None
                      end
                    else None
                | EmptyString => None
                end
            | None => None
            end
          else None
      | EmptyString => None
      end
  end.

(** The document a whole text holds. *)
Definition read (raw : string) : json.value + string :=
  match parse (2 * String.length raw + 2) raw with
  | Some (doc, rest) =>
      match skip rest with
      | EmptyString => inl doc
      | _ => inr "invalid character after top-level value"
      end
  | None => inr "unexpected end of JSON input"
  end.

(** A string or integer member; a missing member leaves the zero value. *)
Definition string_member (key : string) (doc : json.value) : string :=
  match json.member key doc with
  | Some (json.JString s) => s
  | _ => EmptyString
  end.

Definition int_member (key : string) (doc : json.value) : Z :=
  match json.member key doc with
  | Some (json.JNumber n) => n
  | _ => 0
  end.

Definition array_member (key : string) (doc : json.value) : list json.value :=
  match json.member key doc with
  | Some (json.JArray l) => l
  | _ => []
  end.

Definition to_record (doc : json.value) : conohaDNSRecord :=
  {| UUID := string_member "uuid" doc;
     Name := string_member "name" doc;
     Type_ := string_member "type" doc;
     Data := string_member "data" doc;
     TTL := int_member "ttl" doc |}.

Definition to_domain (doc : json.value) : domain :=
  {| domain_UUID := string_member "uuid" doc;
     domain_Name := string_member "name" doc |}.

Definition into {A : Type} (f : json.value -> A) (raw : string) : A + string :=
  match read raw with
  | inl doc => inl (f doc)
  | inr msg => inr msg
  end.

#[export] Instance decoder : json.Decoder := {|
  json.Unmarshal_domainListResponse :=
    into (fun doc => {| Domains := map to_domain (array_member "domains" doc) |});
  json.Unmarshal_recordListResponse :=
    into (fun doc => {| Records := map to_record (array_member "records" doc) |});
  json.Unmarshal_conohaDNSRecord := into to_record
|}.

End jsontext.

Module TestServer.

(** The remote side: the password the identity service accepts, the
    hosted domains, the records by domain ID, and a counter for new
    record IDs. *)
Record state : Type := {
  accepted_password : string;
  zones : list domain;
  contents : list (string * conohaDNSRecord);
  counter : Z
}.

Definition identity_origin : string := "https://identity.c3j1.conoha.io".
Definition dns_origin : string := "https://dns-service.c3j1.conoha.io".
Definition issued_token : string := "token-c3j1".

Definition answer (status : Z) (header : http.Header) (text : string) : http.Response :=
  {| http.StatusCode := status;
     http.Response_Header := header;
     http.Response_Body := {| http.content := text; http.read_error := None |} |}.

Definition json_header : http.Header := [("Content-Type", ["application/json"])].

Definition reply (status : Z) (doc : json.value) : http.Response :=
  answer status json_header (jsontext.print doc).

Definition refuse (status : Z) (text : string) : http.Response :=
  answer status [("Content-Type", ["text/plain"])] text.

Definition domain_doc (d : domain) : json.value :=
  json.JObject [("uuid", json.JString (domain_UUID d));
                ("name", json.JString (domain_Name d))].

Definition in_domain (domainID : string) (records : list (string * conohaDNSRecord))
    : list conohaDNSRecord :=
  map snd (filter (fun entry => String.eqb (fst entry) domainID) records).

Definition is_record (domainID recordID : string) (entry : string * conohaDNSRecord) : bool :=
  String.eqb (fst entry) domainID && String.eqb (UUID (snd entry)) recordID.

Definition given_password (body : option json.value) : option string :=
  match body with
  | None => None
  | Some doc =>
      match json.member "auth" doc with
      | Some a =>
          match json.member "identity" a with
          | Some i =>
              match json.member "password" i with
              | Some p =>
                  match json.member "user" p with
                  | Some usr =>
                      match json.member "password" usr with
                      | Some (json.JString s) => Some s
                      | _ => None
                      end
                  | None => None
                  end
              | None => None
              end
          | None => None
          end
      | None => None
      end
  end.

(** POST /v3/auth/tokens. *)
Definition identity_service (req : http.Request) (w : state) : http.Response :=
  match http.Method req, url.path (http.URL req) with
  | "POST", ["v3"; "auth"; "tokens"] =>
      match given_password (http.Request_Body req) with
      | Some pw =>
          if String.eqb pw (accepted_password w)
          then answer 201 (("X-Subject-Token", [issued_token]) :: json_header) "{}"
          else refuse 401 "unauthorized"
      | None => refuse 400 "bad request"
      end
  | _, _ => refuse 404 "not found"
  end.

Definition fresh_id (w : state) : string := "rec-" ++ strconv.Itoa (counter w).

(** The record service. As the real one, it refuses an update that
    carries a [ttl] member with HTTP 400. *)
Definition dns_service (req : http.Request) (w : state) : http.Response * state :=
  let body := http.Request_Body req in
  match http.Method req, url.path (http.URL req) with
  | "GET", ["v1"; "domains"] =>
      (reply 200 (json.JObject [("domains", json.JArray (map domain_doc (zones w)))]), w)
  | "GET", ["v1"; "domains"; domainID; "records"] =>
      (reply 200
         (json.JObject
            [("records",
              json.JArray (map encode_conohaDNSRecord (in_domain domainID (contents w))))]),
       w)
  | "POST", ["v1"; "domains"; domainID; "records"] =>
      match body with
      | Some doc =>
          let created := set_TTL (jsontext.to_record doc) (jsontext.int_member "ttl" doc) in
          let created :=
            {| UUID := fresh_id w; Name := Name created; Type_ := Type_ created;
               Data := Data created; TTL := TTL created |} in
          (reply 200 (encode_conohaDNSRecord created),
           {| accepted_password := accepted_password w;
              zones := zones w;
              contents := (contents w ++ [(domainID, created)])%list;
              counter := counter w + 1 |})
      | None => (refuse 400 "bad request", w)
      end
  | "PUT", ["v1"; "domains"; domainID; "records"; recordID] =>
      match body with
      | Some doc =>
          match json.member "ttl" doc with
          | Some _ => (refuse 400 "ttl is read-only", w)
          | None =>
              if existsb (is_record domainID recordID) (contents w) then
                let change (entry : string * conohaDNSRecord) :=
                  if is_record domainID recordID entry then
                    (fst entry,
                     {| UUID := recordID;
                        Name := jsontext.string_member "name" doc;
                        Type_ := jsontext.string_member "type" doc;
                        Data := jsontext.string_member "data" doc;
                        TTL := TTL (snd entry) |})
                  else entry in
                let contents' := map change (contents w) in
                (reply 200
                   (json.JObject
                      [("uuid", json.JString recordID);
                       ("name", json.JString (jsontext.string_member "name" doc));
                       ("type", json.JString (jsontext.string_member "type" doc));
                       ("data", json.JString (jsontext.string_member "data" doc))]),
                 {| accepted_password := accepted_password w;
                    zones := zones w;
                    contents := contents';
                    counter := counter w |})
              else (refuse 404 "no such record", w)
          end
      | None => (refuse 400 "bad request", w)
      end
  | "DELETE", ["v1"; "domains"; domainID; "records"; recordID] =>
      if existsb (is_record domainID recordID) (contents w) then
        (answer 204 [] EmptyString,
         {| accepted_password := accepted_password w;
            zones := zones w;
            contents :=
              filter (fun entry => negb (is_record domainID recordID entry)) (contents w);
            counter := counter w |})
      else (refuse 404 "no such record", w)
  | _, _ => (refuse 404 "not found", w)
  end.

(** A request to a host other than the two services of region c3j1 does
    not get through. *)
Definition RoundTrip (req : http.Request) (w : state)
    : (http.Response + string) * state :=
  let host := url.origin (http.URL req) in
  if String.eqb host identity_origin then (inl (identity_service req w), w)
  else if String.eqb host dns_origin then
    if String.eqb (http.Get (http.Request_Header req) "X-Auth-Token") issued_token
    then let (resp, w') := dns_service req w in (inl resp, w')
    else (inl (refuse 401 "unauthorized"), w)
  else (inr "dial tcp: no such host", w).

#[export] Instance transport : http.Transport := {|
  http.World := state;
  http.RoundTrip := RoundTrip
|}.

(** [url.Parse] refuses a space in the host. *)
Fixpoint has_space (s : string) : bool :=
  match s with
  | EmptyString => false
  | String c rest => Nat.eqb (nat_of_ascii c) 32 || has_space rest
  end.

#[export] Instance urls : url.API := {|
  url.rejects := fun s =>
    if has_space s then Some "invalid character in host name" else None
|}.

(** *** A zone to run on *)

Definition example_zone : domain :=
  {| domain_UUID := "dom-1"; domain_Name := "example.localhost" |}.

Definition stored (id name type data : string) (ttl : Z) : string * conohaDNSRecord :=
  ("dom-1", {| UUID := id; Name := name; Type_ := type; Data := data; TTL := ttl |}).

Definition world0 : state :=
  {| accepted_password := "secret";
     zones := [example_zone];
     contents :=
       [stored "rec-a" "www.example.localhost" "A" "192.0.2.1" 3600;
        stored "rec-m" "example.localhost" "MX" "10 mail.example.localhost" 3600;
        stored "rec-t1" "dup.example.localhost" "TXT" "first" 300;
        stored "rec-t2" "dup.example.localhost" "TXT" "second" 300];
     counter := 1 |}.

Definition start (w : state) : Net := {| remote := w; sent := [] |}.

Definition provider : Provider :=
  {| APITenantID := "tenant"; APIUserID := "user"; APIPassword := "secret";
     Region := EmptyString |}.

End TestServer.

Module Scripted.

(** A server that answers from a script: each request takes the next
    response, and the connection is refused once the script is used
    up. *)
Definition RoundTrip (req : http.Request) (script : list http.Response)
    : (http.Response + string) * list http.Response :=
  match script with
  | [] => (inr "connection refused", [])
  | resp :: rest => (inl resp, rest)
  end.

#[export] Instance transport : http.Transport := {|
  http.World := list http.Response;
  http.RoundTrip := RoundTrip
|}.

Definition start (script : list http.Response) : Net :=
  {| remote := script; sent := [] |}.

End Scripted.

Module Sample.

#[local] Existing Instance netip_v4.api.
#[local] Existing Instance libdns_text.structured.
#[local] Existing Instance jsontext.decoder.
#[local] Existing Instance TestServer.urls.

Definition hour : time.Duration := 3600 * time.Second.

Definition www : libdns.Record :=
  libdns.RecAddress
    {| libdns.Address_Name := "www.example.localhost";
       libdns.Address_TTL := hour;
       libdns.Address_IP :=
         netip_v4.v4 (netip_v4.byte 192) (netip_v4.byte 0)
                     (netip_v4.byte 2) (netip_v4.byte 1) |}.

(** An address record whose IP was never set: the zero [netip.Addr]. *)
Definition unset_address : libdns.Record :=
  libdns.RecAddress
    {| libdns.Address_Name := "www.example.localhost";
       libdns.Address_TTL := hour;
       libdns.Address_IP := netip_v4.zero |}.

Definition new_txt : libdns.Record :=
  libdns.RecTXT
    {| libdns.TXT_Name := "test.example.localhost";
       libdns.TXT_TTL := 1200 * time.Second;
       libdns.TXT_Text := "testval1" |}.

Definition dup_txt : libdns.Record :=
  libdns.RecTXT
    {| libdns.TXT_Name := "dup.example.localhost";
       libdns.TXT_TTL := hour;
       libdns.TXT_Text := "updated" |}.

Definition gone_txt : libdns.Record :=
  libdns.RecTXT
    {| libdns.TXT_Name := "gone.example.localhost";
       libdns.TXT_TTL := hour;
       libdns.TXT_Text := "nothing" |}.

Definition mx : libdns.Record :=
  libdns.RecMX
    {| libdns.MX_Name := "example.localhost";
       libdns.MX_TTL := hour;
       libdns.MX_Preference := 10;
       libdns.MX_Target := "mail.example.localhost" |}.

(** An MX record whose target was never set. *)
Definition mx_without_target : libdns.Record :=
  libdns.RecMX
    {| libdns.MX_Name := "example.localhost";
       libdns.MX_TTL := hour;
       libdns.MX_Preference := 10;
       libdns.MX_Target := EmptyString |}.

Definition raw (id name type data : string) (ttl : Z) : conohaDNSRecord :=
  {| UUID := id; Name := name; Type_ := type; Data := data; TTL := ttl |}.

Definition raw_mx : conohaDNSRecord :=
  raw "rec-m" "example.localhost" "MX" "10 mail.example.localhost" 3600.

Definition raw_bad : conohaDNSRecord :=
  raw "rec-b" "bad.example.localhost" "A" "not-an-address" 60.

(** The zone of [TestServer.world0] with a malformed address record
    added in the second place. *)
Definition world_bad : TestServer.state :=
  {| TestServer.accepted_password := "secret";
     TestServer.zones := [TestServer.example_zone];
     TestServer.contents :=
       [TestServer.stored "rec-a" "www.example.localhost" "A" "192.0.2.1" 3600;
        ("dom-1", raw_bad);
        TestServer.stored "rec-t1" "dup.example.localhost" "TXT" "first" 300];
     TestServer.counter := 1 |}.

Definition client : dnsClient :=
  {| token := TestServer.issued_token;
     baseURL := {| url.origin := TestServer.dns_origin; url.path := [] |} |}.

(** A client that holds no token: the test server answers it with 401. *)
Definition stranger : dnsClient :=
  {| token := EmptyString;
     baseURL := {| url.origin := TestServer.dns_origin; url.path := [] |} |}.

Definition issuer : identifier :=
  {| identifier_baseURL :=
       {| url.origin := TestServer.identity_origin; url.path := [] |} |}.

Definition created_201 : http.Response :=
  {| http.StatusCode := 201;
     http.Response_Header := [];
     http.Response_Body :=
       {| http.content := "created"; http.read_error := None |} |}.

Section OnTheTestServer.
#[local] Existing Instance TestServer.transport.

Definition zone : string := "example.localhost".

Definition s0 : Net := TestServer.start TestServer.world0.

Definition s_bad : Net := TestServer.start world_bad.

(** The state after the first two steps of an operation: the token
    was issued and the zone resolved. *)
Definition ready (s : Net) : Net :=
  snd (getDomainID client zone (snd (initClient TestServer.provider s))).

(** What the test server lists for the zone, as the client decodes
    it. *)
Definition listing_of (s : Net) : recordListResponse :=
  match fst (getRecords client "dom-1" s) with
  | Ok l => l
  | Err _ => {| Records := [] |}
  end.

Definition listing0 : recordListResponse := Eval vm_compute in listing_of s0.

(** The token request for a password, and the response the server
    gives to a request. *)
Definition token_req (pw : string) : http.Request :=
  match token_request issuer "tenant" "user" pw with
  | Ok req => req
  | Err _ => {| http.Method := "POST"; http.URL := identifier_baseURL issuer;
                http.Request_Header := []; http.Request_Body := None |}
  end.

Definition answer_to (req : http.Request) (s : Net) : http.Response :=
  match fst (http.RoundTrip req (remote s)) with
  | inl resp => resp
  | inr _ => created_201
  end.

Definition listing_bad : recordListResponse := Eval vm_compute in listing_of s_bad.

End OnTheTestServer.

End Sample.

(** ** Further cases on the test server *)

Module Cases.

#[local] Existing Instance netip_v4.api.
#[local] Existing Instance libdns_text.structured.
#[local] Existing Instance jsontext.decoder.
#[local] Existing Instance TestServer.urls.

(** The text record of [Sample.new_txt] with another TTL. *)
Definition new_txt_hour : libdns.Record :=
  libdns.RecTXT
    {| libdns.TXT_Name := "test.example.localhost";
       libdns.TXT_TTL := Sample.hour;
       libdns.TXT_Text := "testval1" |}.

(** The address record of [Sample.www] with another address and TTL. *)
Definition www_moved : libdns.Record :=
  libdns.RecAddress
    {| libdns.Address_Name := "www.example.localhost";
       libdns.Address_TTL := 60 * time.Second;
       libdns.Address_IP :=
         netip_v4.v4 (netip_v4.byte 198) (netip_v4.byte 51)
                     (netip_v4.byte 100) (netip_v4.byte 7) |}.

(** An address record listed with the type of the other family. *)
Definition raw_mistyped : conohaDNSRecord :=
  Sample.raw "rec-a" "www.example.localhost" "AAAA" "192.0.2.1" 3600.

Definition raw_txt : conohaDNSRecord :=
  Sample.raw "rec-t1" "dup.example.localhost" "TXT" "first" 300.

(** A zone whose only record was listed without a UUID. *)
Definition world_anon : TestServer.state :=
  {| TestServer.accepted_password := "secret";
     TestServer.zones := [TestServer.example_zone];
     TestServer.contents :=
       [TestServer.stored EmptyString "anon.example.localhost" "TXT" "nobody" 60];
     TestServer.counter := 1 |}.

(** Credentials the test server refuses, and a region that is no host
    name. *)
Definition intruder : Provider :=
  {| APITenantID := "tenant"; APIUserID := "user"; APIPassword := "guess";
     Region := EmptyString |}.

Definition misplaced : Provider :=
  {| APITenantID := "tenant"; APIUserID := "user"; APIPassword := "secret";
     Region := "c3 j1" |}.

(** A 204 answer whose body cannot be read. *)
Definition broken_204 : http.Response :=
  {| http.StatusCode := 204;
     http.Response_Header := [];
     http.Response_Body :=
       {| http.content := "<html>"; http.read_error := Some "unexpected EOF" |} |}.

Section OnTheTestServer.
#[local] Existing Instance TestServer.transport.

Definition s_anon : Net := TestServer.start world_anon.

Definition domains0 : domainListResponse :=
  Eval vm_compute in
    match fst (getDomains Sample.client Sample.s0) with
    | Ok l => l
    | Err _ => {| Domains := [] |}
    end.

Definition listing_anon : recordListResponse :=
  Eval vm_compute in Sample.listing_of s_anon.

End OnTheTestServer.

End Cases.

(** ** Vocabulary of the specification *)

Section Vocabulary.
Context {ip : netip.API} {st : libdns.Structured}.

(** The variants the provider translates: address, canonical name and
    text. *)
Definition supported_variant (rec : libdns.Record) : bool :=
  match rec with
  | libdns.RecAddress _ | libdns.RecCNAME _ | libdns.RecTXT _ => true
  | _ => false
  end.

(** The time-to-live of a record, as its [RR] method reports it. *)
Definition ttl_of (rec : libdns.Record) : time.Duration :=
  libdns.RR_TTL (libdns.RR_of rec).

(** A duration that is a whole, non-negative number of seconds. *)
Definition whole_seconds (d : time.Duration) : Prop :=
  exists n, 0 <= n /\ d = n * time.Second /\ int64_range d.

(** [fromRaw(toRaw(rec))]. *)
Definition roundtrip (rec : libdns.Record) : Result libdns.Record :=
  match convertToConohaDNSRecord rec with
  | Ok raw => convertToLibdnsRecord raw
  | Err e => Err e
  end.

(** The address of an address record is read back from its own text by
    [netip.ParseAddr]; net/netip does so for every address but the zero
    [Addr], whose text is no address. *)
Definition reparses (rec : libdns.Record) : Prop :=
  match rec with
  | libdns.RecAddress a =>
      netip.ParseAddr (netip.String (libdns.Address_IP a)) = inl (libdns.Address_IP a)
  | _ => True
  end.

(** A raw record that [GetRecords] gets past: it translates, or its type
    is not supported. *)
Definition passes (raw : conohaDNSRecord) : bool :=
  match convertToLibdnsRecord raw with
  | Ok _ => true
  | Err e => error_eq e errRecordNotSupported
  end.

(** The translations of the records of a listing that have one, in the
    order of the listing. *)
Fixpoint translated (records : list conohaDNSRecord) : list libdns.Record :=
  match records with
  | [] => []
  | raw :: rest =>
      match convertToLibdnsRecord raw with
      | Ok rec => rec :: translated rest
      | Err _ => translated rest
      end
  end.

End Vocabulary.

(** The calls of the record-service client. *)
Inductive call : Type :=
| call_getDomains
| call_getRecords (domainID : string)
| call_createRecord (domainID : string) (record : conohaDNSRecord)
| call_updateRecord (domainID recordID : string) (record : conohaDNSRecord)
| call_deleteRecord (domainID recordID : string).

Section Calls.
Context {tr : http.Transport} {dec : json.Decoder} {u : url.API}.

(** A call, with the value it returns dropped. *)
Definition perform (c : dnsClient) (k : call) : M unit :=
  match k with
  | call_getDomains => _ <- getDomains c ;; ret tt
  | call_getRecords domainID => _ <- getRecords c domainID ;; ret tt
  | call_createRecord domainID record => _ <- createRecord c domainID record ;; ret tt
  | call_updateRecord domainID recordID record =>
      _ <- updateRecord c domainID recordID record ;; ret tt
  | call_deleteRecord domainID recordID => deleteRecord c domainID recordID
  end.

Definition accept_json : http.Header := [("Accept", ["application/json"])].

(** A request without a body, and one that carries a JSON document. *)
Definition bare (method : string) (endpoint : url.URL) : http.Request :=
  {| http.Method := method;
     http.URL := endpoint;
     http.Request_Header := accept_json;
     http.Request_Body := None |}.

Definition carrying (method : string) (endpoint : url.URL) (doc : json.value)
    : http.Request :=
  {| http.Method := method;
     http.URL := endpoint;
     http.Request_Header := ("Content-Type", ["application/json"]) :: accept_json;
     http.Request_Body := Some doc |}.

(** The request each call puts on the wire. *)
Definition request_of (c : dnsClient) (k : call) : http.Request :=
  let domains := url.JoinPath (baseURL c) ["v1"; "domains"] in
  let records d := url.JoinPath (baseURL c) ["v1"; "domains"; d; "records"] in
  let record d id := url.JoinPath (baseURL c) ["v1"; "domains"; d; "records"; id] in
  with_token c
    match k with
    | call_getDomains => bare "GET" domains
    | call_getRecords d => bare "GET" (records d)
    | call_createRecord d r => carrying "POST" (records d) (encode_conohaDNSRecord r)
    | call_updateRecord d id r =>
        carrying "PUT" (record d id) (encode_conohaDNSRecord (set_TTL r 0))
    | call_deleteRecord d id => bare "DELETE" (record d id)
    end.

(** The error [dnsClient.do] makes of a response it does not accept. *)
Definition status_error (resp : http.Response) : error :=
  Errorf "got error status: HTTP %d\nResponse body: %s"
    [ArgInt (http.StatusCode resp);
     ArgString (http.content (http.Response_Body resp))].

(** The state after one request was sent and the remote moved to [w]. *)
Definition after (s : Net) (req : http.Request) (w : http.World) : Net :=
  {| remote := w; sent := (sent s ++ [req])%list |}.

(** The number of DELETE requests in a log. *)
Definition deletions (log : list http.Request) : nat :=
  List.length (filter (fun r => String.eqb (http.Method r) "DELETE") log).

(** A record of the listing that has this name and this type. *)
Definition matches (recordName recordType : string) (record : conohaDNSRecord) : Prop :=
  Name record = recordName /\ Type_ record = recordType.

End Calls.

(** ** The test helper *)

Section TestHelper.
Context {ip : netip.API} {st : libdns.Structured}.

(** The first value [convertToConohaDNSRecord] returns: the raw record, or
    the zero struct that the source returns beside every error. *)
Definition converted (rec : libdns.Record) : conohaDNSRecord :=
  match convertToConohaDNSRecord rec with
  | Ok raw => raw
  | Err _ => zero_record
  end.

(** [isSameRecord] of the tests: both records are converted, the errors
    are dropped, and name, type and data are compared; the TTL is not. *)
Definition isSameRecord (a b : libdns.Record) : bool :=
  let rawa := converted a in
  let rawb := converted b in
  String.eqb (Name rawa) (Name rawb)
  && String.eqb (Type_ rawa) (Type_ rawb)
  && String.eqb (Data rawa) (Data rawb).

End TestHelper.

(** The value a JSON document holds under a path of member names. *)
Fixpoint at_path (keys : list string) (doc : json.value) : option json.value :=
  match keys with
  | [] => Some doc
  | key :: rest =>
      match json.member key doc with
      | Some v => at_path rest v
      | None => None
      end
  end.

(** A provider with the fields of [p] and another region. *)
Definition in_region (p : Provider) (region : string) : Provider :=
  {| APITenantID := APITenantID p; APIUserID := APIUserID p;
     APIPassword := APIPassword p; Region := region |}.

(** ** Vocabulary of the traces *)

Section Traces.
Context {tr : http.Transport}.

(** Whatever the state and the outcome, every request [m] sends
    satisfies [P]. *)
Definition sends (P : http.Request -> Prop) {A : Type} (m : M A) : Prop :=
  forall s, exists l, sent (snd (m s)) = (sent s ++ l)%list /\ Forall P l.

(** Every value [m] returns satisfies [Q]. *)
Definition returns {A : Type} (Q : A -> Prop) (m : M A) : Prop :=
  forall s a s', m s = (Ok a, s') -> Q a.

(** The request for a token: a POST to v3/auth/tokens. *)
Definition is_token_request (r : http.Request) : Prop :=
  http.Method r = "POST" /\ url.path (http.URL r) = ["v3"; "auth"; "tokens"].

(** The listing of the domains: a GET of v1/domains. *)
Definition is_domains_request (r : http.Request) : Prop :=
  http.Method r = "GET" /\ url.path (http.URL r) = ["v1"; "domains"].

(** A client whose base URL has no path, as [newDnsClient] makes it. *)
Definition rooted (c : dnsClient) : Prop := url.path (baseURL c) = [].

End Traces.

(** * Verification *)

(** ** Integers and durations *)

Lemma wrap64_small (z : Z) : int64_range z -> wrap64 z = z.
Proof.
  unfold int64_range, wrap64. intros H.
  rewrite Z.mod_small by lia. lia.
Qed.

Lemma ttl_seconds_whole (n : Z) : ttl_seconds (n * time.Second) = n.
Proof.
  unfold ttl_seconds, time.Seconds, time.int_of_float64, time.Second.
  rewrite Z.quot_mul by lia.
  rewrite Z.rem_mul by lia.
  cbn [Qplus Qnum Qden inject_Z].
  change (Z.pos (1 * 1000000000)) with 1000000000.
  replace (n * 1000000000 + 0 * 1) with (n * 1000000000) by lia.
  apply Z.quot_mul. lia.
Qed.

Lemma of_seconds_whole (n : Z) :
  0 <= n -> int64_range (n * time.Second) -> time.of_seconds n = n * time.Second.
Proof.
  intros Hn Hr. unfold time.of_seconds.
  assert (int64_range n) as Hs.
  { unfold int64_range, time.Second in *. lia. }
  rewrite (wrap64_small n Hs). apply wrap64_small. exact Hr.
Qed.

Lemma whole_seconds_roundtrip (d : time.Duration) :
  whole_seconds d -> time.of_seconds (ttl_seconds d) = d.
Proof.
  intros (n & Hn & -> & Hr).
  rewrite ttl_seconds_whole. now apply of_seconds_whole.
Qed.

(** ** The sentinel errors *)

Lemma error_eq_sound (e target : error) : error_eq e target = true -> e = target.
Proof. destruct e, target; simpl; congruence. Qed.

Lemma error_eq_NotSupported (e : error) :
  error_eq e errRecordNotSupported = true <-> e = errRecordNotSupported.
Proof.
  split.
  - apply error_eq_sound.
  - intros ->. reflexivity.
Qed.

Lemma error_eq_NotSupported_false (e : error) :
  e <> errRecordNotSupported -> error_eq e errRecordNotSupported = false.
Proof.
  intros H. destruct (error_eq e errRecordNotSupported) eqn:E; [|reflexivity].
  apply error_eq_NotSupported in E. contradiction.
Qed.

(** ** The record translators *)

Section TranslatorFacts.
Context {ip : netip.API} {st : libdns.Structured}.

(** A record whose [RR] form does not parse is refused before the type
    switch, with the library's error wrapped. *)
Lemma convertToConohaDNSRecord_parse_error (rec : libdns.Record) (err : error) :
  libdns.Parse (libdns.RR_of rec) = Err err ->
  convertToConohaDNSRecord rec = Err (ErrorfWrap "failed to parse record: %w" err).
Proof.
  intros H. unfold convertToConohaDNSRecord. rewrite H. reflexivity.
Qed.




(** The three supported variants resolve to themselves when the address
    is read back from its text. *)
Lemma Parse_RR_of_supported (rec : libdns.Record) :
  supported_variant rec = true ->
  reparses rec ->
  libdns.Parse (libdns.RR_of rec) = Ok rec.
Proof.
  intros Hv Hp. destruct rec; simpl in Hv; try discriminate.
  - destruct a as [name ttl addr]. simpl in Hp.
    unfold libdns.Parse, libdns.toAddress. cbn [libdns.RR_of libdns.RR_Type libdns.RR_Data
      libdns.RR_Name libdns.RR_TTL libdns.Address_IP libdns.Address_Name libdns.Address_TTL].
    rewrite Hp. destruct (netip.Is6 addr); reflexivity.
  - destruct c. reflexivity.
  - destruct t. reflexivity.
Qed.

(** C3, as amended. For an address, canonical-name or text record whose
    TTL is a whole, non-negative number of seconds and, for an address
    record, whose IP is one that net/netip reads back from its own text
    (every address but the zero [Addr]), the translation to a raw record
    succeeds, the raw record carries the name, the data and the number of
    seconds, and translating it back gives the record again: same
    variant, name, data and TTL. *)
Theorem translation_roundtrip (rec : libdns.Record) :
  supported_variant rec = true ->
  whole_seconds (ttl_of rec) ->
  reparses rec ->
  exists raw,
    convertToConohaDNSRecord rec = Ok raw
    /\ Name raw = libdns.RR_Name (libdns.RR_of rec)
    /\ Data raw = libdns.RR_Data (libdns.RR_of rec)
    /\ TTL raw * time.Second = ttl_of rec
    /\ convertToLibdnsRecord raw = Ok rec
    /\ roundtrip rec = Ok rec.
Proof.
  intros Hv Ht Hp.
  pose proof (Parse_RR_of_supported rec Hv Hp) as HP.
  pose proof (whole_seconds_roundtrip _ Ht) as Hback.
  assert (ttl_seconds (ttl_of rec) * time.Second = ttl_of rec) as Hsec.
  { destruct Ht as (n & _ & -> & _). now rewrite ttl_seconds_whole. }
  unfold roundtrip, convertToConohaDNSRecord. rewrite HP.
  destruct rec; simpl in Hv; try discriminate.
  - destruct a as [name ttl addr]. simpl in Hp.
    unfold ttl_of in *. cbn in Hback, Hsec |- *.
    eexists. split; [reflexivity|]. cbn.
    repeat split; try assumption.
    + unfold convertToLibdnsRecord. cbn. rewrite Hback.
      destruct (netip.Is6 addr); cbn; rewrite Hp; reflexivity.
    + unfold convertToLibdnsRecord. cbn. rewrite Hback.
      destruct (netip.Is6 addr); cbn; rewrite Hp; reflexivity.
  - destruct c as [name ttl target]. unfold ttl_of in *. cbn in Hback, Hsec |- *.
    eexists. split; [reflexivity|]. cbn.
    repeat split; try assumption;
      unfold convertToLibdnsRecord; cbn; rewrite Hback; reflexivity.
  - destruct t as [name ttl text]. unfold ttl_of in *. cbn in Hback, Hsec |- *.
    eexists. split; [reflexivity|]. cbn.
    repeat split; try assumption;
      unfold convertToLibdnsRecord; cbn; rewrite Hback; reflexivity.
Qed.

End TranslatorFacts.

(** ** GetRecords *)

Section ListingFacts.
Context {ip : netip.API} {st : libdns.Structured}
        {tr : http.Transport} {dec : json.Decoder} {u : url.API}.

(** The translator has two kinds of error: the sentinel, or the error of
    [netip.ParseAddr]. *)
Lemma convertToLibdnsRecord_errors (raw : conohaDNSRecord) (e : error) :
  convertToLibdnsRecord raw = Err e ->
  e = errRecordNotSupported
  \/ exists msg, netip.ParseAddr (Data raw) = inr msg /\ e = foreign pkg_netip msg.
Proof.
  unfold convertToLibdnsRecord.
  destruct (String.eqb (Type_ raw) "A" || String.eqb (Type_ raw) "AAAA").
  - destruct (netip.ParseAddr (Data raw)) as [addr|msg]; intros H; inversion H.
    right. now exists msg.
  - destruct (String.eqb (Type_ raw) "CNAME"); [discriminate|].
    destruct (String.eqb (Type_ raw) "TXT"); [discriminate|].
    intros H. inversion H. now left.
Qed.

Lemma passes_iff (raw : conohaDNSRecord) :
  passes raw = true <->
  (exists rec, convertToLibdnsRecord raw = Ok rec)
  \/ convertToLibdnsRecord raw = Err errRecordNotSupported.
Proof.
  unfold passes. destruct (convertToLibdnsRecord raw) as [rec|e].
  - split; [intros _; left; now exists rec | reflexivity].
  - rewrite error_eq_NotSupported. split.
    + intros ->. now right.
    + intros [[rec H]|H]; [discriminate | now inversion H].
Qed.

(** The loop on a listing it gets through: the slice grows by the
    translations, in order. *)
Lemma GetRecords_loop_passes (records : list conohaDNSRecord) :
  forall libRecords,
    Forall (fun raw => passes raw = true) records ->
    GetRecords_loop libRecords records = Ok (libRecords ++ translated records)%list.
Proof.
  induction records as [|raw rest IH]; intros acc Hall; simpl.
  - now rewrite app_nil_r.
  - inversion Hall as [|? ? Hraw Hrest]; subst.
    unfold passes in Hraw.
    destruct (convertToLibdnsRecord raw) as [rec|e] eqn:E.
    + rewrite IH by assumption. now rewrite <- app_assoc.
    + rewrite Hraw. now apply IH.
Qed.

(** The loop stops at the first record it does not get past. *)
Lemma GetRecords_loop_stops (pre post : list conohaDNSRecord)
    (raw : conohaDNSRecord) (e : error) :
  forall libRecords,
    Forall (fun r => passes r = true) pre ->
    convertToLibdnsRecord raw = Err e ->
    e <> errRecordNotSupported ->
    GetRecords_loop libRecords (pre ++ raw :: post) = Err e.
Proof.
  induction pre as [|r pre IH]; intros acc Hall Hraw Hne; simpl.
  - rewrite Hraw. now rewrite error_eq_NotSupported_false.
  - inversion Hall as [|? ? Hr Hpre]; subst.
    unfold passes in Hr.
    destruct (convertToLibdnsRecord r) as [rec|e'] eqn:E.
    + now apply IH.
    + rewrite Hr. now apply IH.
Qed.

(** A listing that holds a record the loop does not get past makes the
    loop fail, with the error of such a record. *)
Lemma GetRecords_loop_fails (records : list conohaDNSRecord) (raw : conohaDNSRecord) :
  forall libRecords,
    In raw records ->
    passes raw = false ->
    exists bad e,
      In bad records /\ convertToLibdnsRecord bad = Err e
      /\ e <> errRecordNotSupported
      /\ GetRecords_loop libRecords records = Err e.
Proof.
  induction records as [|r rest IH]; intros acc Hin Hbad; [contradiction|].
  simpl. destruct (convertToLibdnsRecord r) as [rec|e] eqn:E.
  - destruct Hin as [->|Hin].
    + unfold passes in Hbad. rewrite E in Hbad. discriminate.
    + destruct (IH (acc ++ [rec])%list Hin Hbad) as (bad & e & Hb & Hc & Hne & Hl).
      exists bad, e. split; [now right | auto].
  - destruct (error_eq e errRecordNotSupported) eqn:Es.
    + destruct Hin as [->|Hin].
      * unfold passes in Hbad. rewrite E, Es in Hbad. discriminate.
      * destruct (IH acc Hin Hbad) as (bad & e' & Hb & Hc & Hne & Hl).
        exists bad, e'. split; [now right | auto].
    + exists r, e. split; [now left|]. split; [exact E|].
      split; [intros ->; discriminate | reflexivity].
Qed.

(** [GetRecords] once the client, the domain and the listing are there. *)
Lemma GetRecords_run (p : Provider) (zone : string) (s s1 s2 s3 : Net)
    (c : dnsClient) (domainID : string) (listing : recordListResponse) :
  initClient p s = (Ok c, s1) ->
  getDomainID c zone s1 = (Ok domainID, s2) ->
  getRecords c domainID s2 = (Ok listing, s3) ->
  GetRecords p zone s = (GetRecords_loop [] (Records listing), s3).
Proof.
  intros H1 H2 H3. unfold GetRecords, bind, liftR.
  rewrite H1, H2, H3. reflexivity.
Qed.

(** C4. Once the listing is there, [GetRecords] returns the translations
    of its records in order, leaving out the records whose translation
    gives [errRecordNotSupported] and no others: if every record
    translates or gives that error, the result is the list of the
    translations; and at the first record whose translation gives any
    other error, the whole call fails with that error. *)
Theorem GetRecords_translates_and_skips (p : Provider) (zone : string)
    (s s1 s2 s3 : Net) (c : dnsClient) (domainID : string)
    (listing : recordListResponse) :
  initClient p s = (Ok c, s1) ->
  getDomainID c zone s1 = (Ok domainID, s2) ->
  getRecords c domainID s2 = (Ok listing, s3) ->
  ((forall raw, In raw (Records listing) ->
      (exists rec, convertToLibdnsRecord raw = Ok rec)
      \/ convertToLibdnsRecord raw = Err errRecordNotSupported) ->
   GetRecords p zone s = (Ok (translated (Records listing)), s3))
  /\
  (forall pre raw post e,
      Records listing = (pre ++ raw :: post)%list ->
      (forall r, In r pre ->
         (exists rec, convertToLibdnsRecord r = Ok rec)
         \/ convertToLibdnsRecord r = Err errRecordNotSupported) ->
      convertToLibdnsRecord raw = Err e ->
      e <> errRecordNotSupported ->
      GetRecords p zone s = (Err e, s3)).
Proof.
  intros H1 H2 H3.
  rewrite (GetRecords_run p zone s s1 s2 s3 c domainID listing H1 H2 H3).
  split.
  - intros Hall. rewrite GetRecords_loop_passes; [reflexivity|].
    apply Forall_forall. intros raw Hin. apply passes_iff. now apply Hall.
  - intros pre raw post e Hsplit Hpre Hraw Hne. rewrite Hsplit.
    rewrite (GetRecords_loop_stops pre post raw e); auto.
    apply Forall_forall. intros r Hin. apply passes_iff. now apply Hpre.
Qed.

(** C10. A raw record of type A or AAAA whose data [netip.ParseAddr]
    refuses is translated to that parse error, which is not the sentinel
    of unsupported types; so a listing that holds such a record makes
    [GetRecords] fail instead of leaving the record out: the call returns
    a parse error, and it returns the error of this very record when the
    loop gets as far as the record. *)
Theorem malformed_address_fails_listing (raw : conohaDNSRecord) (msg : string) :
  Type_ raw = "A" \/ Type_ raw = "AAAA" ->
  netip.ParseAddr (Data raw) = inr msg ->
  convertToLibdnsRecord raw = Err (foreign pkg_netip msg)
  /\ foreign pkg_netip msg <> errRecordNotSupported
  /\ error_eq (foreign pkg_netip msg) errRecordNotSupported = false
  /\ forall (p : Provider) (zone : string) (s s1 s2 s3 : Net) (c : dnsClient)
            (domainID : string) (listing : recordListResponse),
       initClient p s = (Ok c, s1) ->
       getDomainID c zone s1 = (Ok domainID, s2) ->
       getRecords c domainID s2 = (Ok listing, s3) ->
       In raw (Records listing) ->
       (exists msg', GetRecords p zone s = (Err (foreign pkg_netip msg'), s3))
       /\ (forall pre post,
             Records listing = (pre ++ raw :: post)%list ->
             (forall r, In r pre ->
                (exists rec, convertToLibdnsRecord r = Ok rec)
                \/ convertToLibdnsRecord r = Err errRecordNotSupported) ->
             GetRecords p zone s = (Err (foreign pkg_netip msg), s3)).
Proof.
  intros Hty Hparse.
  assert (convertToLibdnsRecord raw = Err (foreign pkg_netip msg)) as Hconv.
  { unfold convertToLibdnsRecord.
    destruct Hty as [-> | ->]; cbn; rewrite Hparse; reflexivity. }
  split; [exact Hconv|].
  split; [discriminate|].
  split; [reflexivity|].
  intros p zone s s1 s2 s3 c domainID listing H1 H2 H3 Hin.
  rewrite (GetRecords_run p zone s s1 s2 s3 c domainID listing H1 H2 H3).
  split.
  - assert (passes raw = false) as Hbad.
    { unfold passes. now rewrite Hconv. }
    destruct (GetRecords_loop_fails (Records listing) raw [] Hin Hbad)
      as (bad & e & _ & Hc & Hne & Hl).
    destruct (convertToLibdnsRecord_errors bad e Hc) as [->|(msg' & _ & ->)].
    + contradiction.
    + exists msg'. now rewrite Hl.
  - intros pre post Hsplit Hpre. rewrite Hsplit.
    rewrite (GetRecords_loop_stops pre post raw (foreign pkg_netip msg)); auto.
    + apply Forall_forall. intros r Hr. apply passes_iff. now apply Hpre.
    + discriminate.
Qed.

End ListingFacts.

(** ** The clients *)

Section ClientFacts.
Context {tr : http.Transport} {dec : json.Decoder} {u : url.API}.

Lemma HTTPClient_Do_answer (req : http.Request) (s : Net)
    (resp : http.Response) (w : http.World) :
  http.RoundTrip req (remote s) = (inl resp, w) ->
  HTTPClient_Do req s = (Ok resp, after s req w).
Proof. intros H. unfold HTTPClient_Do. rewrite H. reflexivity. Qed.

Lemma HTTPClient_Do_broken (req : http.Request) (s : Net)
    (msg : string) (w : http.World) :
  http.RoundTrip req (remote s) = (inr msg, w) ->
  HTTPClient_Do req s = (Err (foreign pkg_http msg), after s req w).
Proof. intros H. unfold HTTPClient_Do. rewrite H. reflexivity. Qed.

(** Every run of the HTTP client is one of the two. *)
Lemma HTTPClient_Do_cases (req : http.Request) (s : Net) :
  (exists resp w, http.RoundTrip req (remote s) = (inl resp, w)
                  /\ HTTPClient_Do req s = (Ok resp, after s req w))
  \/ (exists msg w, http.RoundTrip req (remote s) = (inr msg, w)
                    /\ HTTPClient_Do req s = (Err (foreign pkg_http msg), after s req w)).
Proof.
  destruct (http.RoundTrip req (remote s)) as [[resp|msg] w] eqn:E.
  - left. exists resp, w. split; [reflexivity|]. now apply HTTPClient_Do_answer.
  - right. exists msg, w. split; [reflexivity|]. now apply HTTPClient_Do_broken.
Qed.

(** *** dnsClient.do *)

Lemma dnsClient_do_refused {A : Type} (c : dnsClient) (req : http.Request)
    (result : option (string -> A + string)) (s : Net)
    (resp : http.Response) (w : http.World) :
  http.RoundTrip (with_token c req) (remote s) = (inl resp, w) ->
  accepted (http.StatusCode resp) = false ->
  dnsClient_do c req result s = (Err (status_error resp), after s (with_token c req) w).
Proof.
  intros H Hs. unfold dnsClient_do, bind.
  rewrite (HTTPClient_Do_answer _ _ _ _ H). rewrite Hs. reflexivity.
Qed.

Lemma dnsClient_do_ok {A : Type} (c : dnsClient) (req : http.Request)
    (result : option (string -> A + string)) (s s' : Net) (out : option A) :
  dnsClient_do c req result s = (Ok out, s') ->
  exists resp w,
    http.RoundTrip (with_token c req) (remote s) = (inl resp, w)
    /\ accepted (http.StatusCode resp) = true
    /\ s' = after s (with_token c req) w.
Proof.
  unfold dnsClient_do, bind.
  destruct (HTTPClient_Do_cases (with_token c req) s)
    as [(resp & w & HR & ->)|(msg & w & HR & ->)]; [|discriminate].
  destruct (accepted (http.StatusCode resp)) eqn:Hs; cbn [negb]; [|discriminate].
  intros H. exists resp, w. split; [exact HR|]. split; [exact Hs|].
  unfold fail, ret in H.
  destruct result as [unmarshal|].
  - destruct (http.read_error (http.Response_Body resp)); [discriminate|].
    destruct (unmarshal _); inversion H; reflexivity.
  - inversion H; reflexivity.
Qed.

(** Whatever comes back, [do] sent exactly one request. *)
Lemma dnsClient_do_sent {A : Type} (c : dnsClient) (req : http.Request)
    (result : option (string -> A + string)) (s : Net) :
  sent (snd (dnsClient_do c req result s)) = (sent s ++ [with_token c req])%list.
Proof.
  unfold dnsClient_do, bind.
  destruct (HTTPClient_Do_cases (with_token c req) s)
    as [(resp & w & HR & ->)|(msg & w & HR & ->)]; [|reflexivity].
  destruct (negb (accepted (http.StatusCode resp))); [reflexivity|].
  destruct result as [unmarshal|]; [|reflexivity].
  destruct (http.read_error (http.Response_Body resp)); [reflexivity|].
  destruct (unmarshal _); reflexivity.
Qed.

(** No error of [do] is, or wraps, the sentinel of a missing record. *)
Lemma dnsClient_do_errors {A : Type} (c : dnsClient) (req : http.Request)
    (result : option (string -> A + string)) (s s' : Net) (e : error) :
  dnsClient_do c req result s = (Err e, s') ->
  errors_Is e errRecordNotFound = false.
Proof.
  unfold dnsClient_do, bind.
  destruct (HTTPClient_Do_cases (with_token c req) s)
    as [(resp & w & HR & ->)|(msg & w & HR & ->)].
  - unfold fail, ret. destruct (negb (accepted (http.StatusCode resp))).
    + intros H. inversion H. reflexivity.
    + destruct result as [unmarshal|]; [|discriminate].
      destruct (http.read_error (http.Response_Body resp)).
      * intros H. inversion H. reflexivity.
      * destruct (unmarshal _); intros H; inversion H. reflexivity.
  - intros H. inversion H. reflexivity.
Qed.

(** A call that only repackages the value [do] wrote. *)
Lemma bind_ret_run {A B : Type} (m : M A) (f : A -> B) (s : Net) :
  (x <- m ;; ret (f x)) s =
  match m s with
  | (Ok a, s') => (Ok (f a), s')
  | (Err e, s') => (Err e, s')
  end.
Proof. unfold bind, ret. destruct (m s) as [[a|e] s']; reflexivity. Qed.

Lemma newJSONRequest_bare (method : string) (endpoint : url.URL) :
  newJSONRequest method endpoint None = Ok (bare method endpoint).
Proof. reflexivity. Qed.

Lemma newJSONRequest_carrying (method : string) (endpoint : url.URL) (p : payload) :
  newJSONRequest method endpoint (Some p) = Ok (carrying method endpoint (encode p)).
Proof. reflexivity. Qed.

(** Each call is one run of [do] on its request. *)
Lemma perform_as_do (c : dnsClient) (k : call) :
  exists (A : Type) (req : http.Request) (result : option (string -> A + string)),
    with_token c req = request_of c k
    /\ forall s,
         perform c k s =
         match dnsClient_do c req result s with
         | (Ok _, s') => (Ok tt, s')
         | (Err e, s') => (Err e, s')
         end.
Proof.
  destruct k as [|d|d r|d id r|d id]; cbn [perform request_of].
  - eexists _, _, (Some json.Unmarshal_domainListResponse).
    split; [reflexivity|]. intros s.
    unfold getDomains. rewrite newJSONRequest_bare.
    unfold bind, liftR, ret.
    destruct (dnsClient_do _ _ _ s) as [[out|e] s']; reflexivity.
  - eexists _, _, (Some json.Unmarshal_recordListResponse).
    split; [reflexivity|]. intros s.
    unfold getRecords. rewrite newJSONRequest_bare.
    unfold bind, liftR, ret.
    destruct (dnsClient_do _ _ _ s) as [[out|e] s']; reflexivity.
  - eexists _, _, (Some json.Unmarshal_conohaDNSRecord).
    split; [reflexivity|]. intros s.
    unfold createRecord. rewrite newJSONRequest_carrying.
    unfold bind, liftR, ret.
    destruct (dnsClient_do _ _ _ s) as [[out|e] s']; reflexivity.
  - eexists _, _, (Some json.Unmarshal_conohaDNSRecord).
    split; [reflexivity|]. intros s.
    unfold updateRecord. rewrite newJSONRequest_carrying.
    unfold bind, liftR, ret.
    destruct (dnsClient_do _ _ _ s) as [[out|e] s']; reflexivity.
  - eexists unit, _, None.
    split; [reflexivity|]. intros s.
    unfold deleteRecord. rewrite newJSONRequest_bare.
    unfold bind, liftR, ret.
    destruct (dnsClient_do _ _ _ s) as [[out|e] s']; reflexivity.
Qed.

End ClientFacts.

Section ClientTheorems.
Context {tr : http.Transport} {dec : json.Decoder} {u : url.API}.

Lemma accepted_iff (status : Z) :
  accepted status = true <-> status = 200 \/ status = 204.
Proof.
  unfold accepted, http.StatusOK, http.StatusNoContent.
  rewrite orb_true_iff, !Z.eqb_eq. reflexivity.
Qed.

Lemma perform_sent (c : dnsClient) (k : call) (s : Net) :
  sent (snd (perform c k s)) = (sent s ++ [request_of c k])%list.
Proof.
  destruct (perform_as_do c k) as (A & req & result & Hreq & Hrun).
  rewrite Hrun, <- Hreq.
  pose proof (dnsClient_do_sent c req result s) as Hs.
  destruct (dnsClient_do c req result s) as [[out|e] s']; exact Hs.
Qed.

(** C8. Whatever call the record-service client makes (listing domains
    or records, creating, updating or deleting a record), and whatever
    response comes back to its request: the call succeeds only if the
    status is 200 or 204, and on any other status, 201 and the other 2xx
    codes included, it returns the error that carries the status code
    and the text of the response body. *)
Theorem record_service_status (c : dnsClient) (k : call) (s : Net)
    (resp : http.Response) (w : http.World) :
  http.RoundTrip (request_of c k) (remote s) = (inl resp, w) ->
  (fst (perform c k s) = Ok tt ->
   http.StatusCode resp = 200 \/ http.StatusCode resp = 204)
  /\ (http.StatusCode resp <> 200 -> http.StatusCode resp <> 204 ->
      perform c k s =
      (Err (Errorf "got error status: HTTP %d\nResponse body: %s"
              [ArgInt (http.StatusCode resp);
               ArgString (http.content (http.Response_Body resp))]),
       after s (request_of c k) w)).
Proof.
  intros HR.
  destruct (perform_as_do c k) as (A & req & result & Hreq & Hrun).
  rewrite <- Hreq in *. rewrite Hrun. split.
  - destruct (dnsClient_do c req result s) as [[out|e] s'] eqn:E; [|discriminate].
    intros _. destruct (dnsClient_do_ok c req result s s' out E)
      as (resp' & w' & HR' & Hacc & _).
    rewrite HR in HR'. inversion HR'; subst. now apply accepted_iff.
  - intros H200 H204.
    rewrite (dnsClient_do_refused c req result s resp w HR); [reflexivity|].
    destruct (accepted (http.StatusCode resp)) eqn:Hacc; [|reflexivity].
    apply accepted_iff in Hacc. destruct Hacc; contradiction.
Qed.

Lemma with_token_Method (c : dnsClient) (req : http.Request) :
  http.Method (with_token c req) = http.Method req.
Proof. unfold with_token. destruct (token c); reflexivity. Qed.

Lemma with_token_Body (c : dnsClient) (req : http.Request) :
  http.Request_Body (with_token c req) = http.Request_Body req.
Proof. unfold with_token. destruct (token c); reflexivity. Qed.

Lemma with_token_URL (c : dnsClient) (req : http.Request) :
  http.URL (with_token c req) = http.URL req.
Proof. unfold with_token. destruct (token c); reflexivity. Qed.

(** The members of an encoded record. *)
Lemma encode_conohaDNSRecord_members (r : conohaDNSRecord) :
  let doc := encode_conohaDNSRecord r in
  json.member "name" doc = Some (json.JString (Name r))
  /\ json.member "type" doc = Some (json.JString (Type_ r))
  /\ json.member "data" doc = Some (json.JString (Data r))
  /\ json.member "ttl" doc = (if TTL r =? 0 then None else Some (json.JNumber (TTL r))).
Proof.
  unfold encode_conohaDNSRecord, json.omitempty_int.
  destruct (UUID r); destruct (TTL r =? 0); cbn; auto.
Qed.

(** C1. [updateRecord] sends one request, a PUT to the record, and the
    document it carries is the record with its TTL set to zero: the
    document has no [ttl] member, whatever TTL the record came with, and
    its [name], [type] and [data] members are those of the record. *)
Theorem updateRecord_strips_TTL (c : dnsClient) (domainID recordID : string)
    (record : conohaDNSRecord) (s : Net) :
  exists req doc,
    sent (snd (updateRecord c domainID recordID record s)) = (sent s ++ [req])%list
    /\ http.Method req = "PUT"
    /\ http.URL req
       = url.JoinPath (baseURL c) ["v1"; "domains"; domainID; "records"; recordID]
    /\ http.Request_Body req = Some doc
    /\ doc = encode_conohaDNSRecord (set_TTL record 0)
    /\ json.member "ttl" doc = None
    /\ json.member "name" doc = Some (json.JString (Name record))
    /\ json.member "type" doc = Some (json.JString (Type_ record))
    /\ json.member "data" doc = Some (json.JString (Data record))
    /\ forall ttl,
         sent (snd (updateRecord c domainID recordID (set_TTL record ttl) s))
         = (sent s ++ [req])%list.
Proof.
  exists (request_of c (call_updateRecord domainID recordID record)).
  exists (encode_conohaDNSRecord (set_TTL record 0)).
  assert (forall r,
    sent (snd (updateRecord c domainID recordID r s))
    = (sent s ++ [request_of c (call_updateRecord domainID recordID r)])%list) as Hsent.
  { intros r.
    pose proof (perform_sent c (call_updateRecord domainID recordID r) s) as H.
    cbn [perform] in H. rewrite bind_ret_run in H.
    destruct (updateRecord c domainID recordID r s) as [[v|e] s']; exact H. }
  destruct (encode_conohaDNSRecord_members (set_TTL record 0)) as (Hn & Ht & Hd & Httl).
  split; [apply Hsent|].
  split; [unfold request_of; now rewrite with_token_Method|].
  split; [unfold request_of; now rewrite with_token_URL|].
  split; [unfold request_of; now rewrite with_token_Body|].
  split; [reflexivity|].
  split; [exact Httl|].
  split; [exact Hn|].
  split; [exact Ht|].
  split; [exact Hd|].
  intros ttl. rewrite Hsent. reflexivity.
Qed.

(** *** getRecordID *)

Lemma getRecordID_run (c : dnsClient) (domainID recordName recordType : string)
    (s s1 : Net) (listing : recordListResponse) :
  getRecords c domainID s = (Ok listing, s1) ->
  getRecordID c domainID recordName recordType s
  = (find_record (Records listing) recordName recordType, s1).
Proof. intros H. unfold getRecordID, bind, liftR. rewrite H. reflexivity. Qed.

Lemma getRecordID_no_listing (c : dnsClient) (domainID recordName recordType : string)
    (s s1 : Net) (e : error) :
  getRecords c domainID s = (Err e, s1) ->
  getRecordID c domainID recordName recordType s = (Err e, s1).
Proof. intros H. unfold getRecordID, bind. rewrite H. reflexivity. Qed.

Lemma matches_eqb (recordName recordType : string) (r : conohaDNSRecord) :
  String.eqb (Name r) recordName && String.eqb (Type_ r) recordType = true
  <-> matches recordName recordType r.
Proof.
  unfold matches. rewrite andb_true_iff, !String.eqb_eq. reflexivity.
Qed.

Lemma find_record_first (pre post : list conohaDNSRecord) (record : conohaDNSRecord)
    (recordName recordType : string) :
  (forall r, In r pre -> ~ matches recordName recordType r) ->
  matches recordName recordType record ->
  find_record (pre ++ record :: post) recordName recordType = Ok (UUID record).
Proof.
  intros Hpre Hm. induction pre as [|r pre IH]; simpl.
  - apply matches_eqb in Hm. now rewrite Hm.
  - destruct (String.eqb (Name r) recordName && String.eqb (Type_ r) recordType) eqn:E.
    + apply matches_eqb in E. exfalso. apply (Hpre r); [now left | exact E].
    + apply IH. intros r' Hin. apply Hpre. now right.
Qed.

Lemma find_record_none (records : list conohaDNSRecord) (recordName recordType : string) :
  (forall r, In r records -> ~ matches recordName recordType r) ->
  find_record records recordName recordType = Err errRecordNotFound.
Proof.
  intros Hall. induction records as [|r rest IH]; simpl; [reflexivity|].
  destruct (String.eqb (Name r) recordName && String.eqb (Type_ r) recordType) eqn:E.
  - apply matches_eqb in E. exfalso. apply (Hall r); [now left | exact E].
  - apply IH. intros r' Hin. apply Hall. now right.
Qed.

(** C6. On the listing the record service returned, [getRecordID] gives
    the UUID of the first record, in the order of the listing, whose name
    and type are both equal to the ones asked for, also when later
    records have the same name and type; and it gives
    [errRecordNotFound] when no record of the listing has them. *)
Theorem getRecordID_first_match (c : dnsClient)
    (domainID recordName recordType : string) (s s1 : Net)
    (listing : recordListResponse) :
  getRecords c domainID s = (Ok listing, s1) ->
  (forall pre record post,
      Records listing = (pre ++ record :: post)%list ->
      (forall r, In r pre -> ~ matches recordName recordType r) ->
      matches recordName recordType record ->
      getRecordID c domainID recordName recordType s = (Ok (UUID record), s1))
  /\ ((forall r, In r (Records listing) -> ~ matches recordName recordType r) ->
      getRecordID c domainID recordName recordType s = (Err errRecordNotFound, s1)).
Proof.
  intros H. rewrite (getRecordID_run _ _ _ _ _ _ _ H). split.
  - intros pre record post Hsplit Hpre Hm. rewrite Hsplit.
    now rewrite find_record_first.
  - intros Hall. now rewrite find_record_none.
Qed.

(** *** getToken *)

Lemma token_request_total (c : identifier) (tenant user pw : string) :
  exists req, token_request c tenant user pw = Ok req.
Proof. eexists. reflexivity. Qed.

(** C7. When the identity service answers the token request, [getToken]
    returns a token exactly when the status is 201 and the
    [x-subject-token] header is not empty, and the token is the value of
    that header; on any other status it returns the error that carries
    the status code; and on status 201 with the header missing or empty
    it returns an error as well. *)
Theorem getToken_needs_201_and_header (c : identifier) (tenant user pw : string)
    (s : Net) (req : http.Request) (resp : http.Response) (w : http.World) :
  token_request c tenant user pw = Ok req ->
  http.RoundTrip req (remote s) = (inl resp, w) ->
  let header := http.Get (http.Response_Header resp) "x-subject-token" in
  (forall tok,
      fst (getToken c tenant user pw s) = Ok tok
      <-> http.StatusCode resp = 201 /\ header = tok /\ tok <> EmptyString)
  /\ (http.StatusCode resp = 201 -> header <> EmptyString ->
      getToken c tenant user pw s = (Ok header, after s req w))
  /\ (http.StatusCode resp <> 201 ->
      getToken c tenant user pw s
      = (Err (Errorf "got invalid status: HTTP %d" [ArgInt (http.StatusCode resp)]),
         after s req w))
  /\ (http.StatusCode resp = 201 -> header = EmptyString ->
      getToken c tenant user pw s
      = (Err (Errorf "x-subject-token header is missing in response" []),
         after s req w)).
Proof.
  intros Hreq HR header.
  assert (getToken c tenant user pw s
          = if negb (http.StatusCode resp =? http.StatusCreated)
            then (Err (Errorf "got invalid status: HTTP %d"
                         [ArgInt (http.StatusCode resp)]), after s req w)
            else match header with
                 | EmptyString =>
                     (Err (Errorf "x-subject-token header is missing in response" []),
                      after s req w)
                 | _ => (Ok header, after s req w)
                 end) as Hrun.
  { unfold getToken, bind, liftR. rewrite Hreq.
    unfold identifier_do, bind. rewrite (HTTPClient_Do_answer _ _ _ _ HR).
    fold header.
    destruct (negb (http.StatusCode resp =? http.StatusCreated)); [reflexivity|].
    destruct header; reflexivity. }
  rewrite Hrun. unfold http.StatusCreated. clearbody header. clear Hrun.
  destruct (http.StatusCode resp =? 201) eqn:Hs; cbn [negb].
  - apply Z.eqb_eq in Hs. destruct header as [|ch rest]; cbn [fst].
    + split.
      { intros tok. split; [discriminate|]. intros (_ & <- & Hne). contradiction. }
      split; [intros _ Hne; contradiction|].
      split; [intros Hne; contradiction|].
      intros _ _. reflexivity.
    + split.
      { intros tok. split.
        - intros Htok. inversion Htok; subst. repeat split; [exact Hs|discriminate].
        - intros (_ & <- & _). reflexivity. }
      split; [intros _ _; reflexivity|].
      split; [intros Hne; contradiction|].
      intros _ Hempty. discriminate.
  - apply Z.eqb_neq in Hs. cbn [fst]. split.
    { intros tok. split; [discriminate|]. intros (H201 & _). contradiction. }
    split; [intros H201; contradiction|].
    split; [intros _; reflexivity|].
    intros H201. contradiction.
Qed.

End ClientTheorems.

(** ** SetRecords and DeleteRecords *)

Section OperationFacts.
Context {ip : netip.API} {st : libdns.Structured}
        {tr : http.Transport} {dec : json.Decoder} {u : url.API}.

Lemma getRecords_errors (c : dnsClient) (domainID : string) (s s' : Net) (e : error) :
  getRecords c domainID s = (Err e, s') ->
  errors_Is e errRecordNotFound = false.
Proof.
  unfold getRecords. rewrite newJSONRequest_bare. unfold bind, liftR, ret.
  destruct (dnsClient_do _ _ _ s) as [[out|e'] s1] eqn:E; [discriminate|].
  intros H. inversion H; subst. exact (dnsClient_do_errors _ _ _ _ _ _ E).
Qed.

Lemma find_record_errors (records : list conohaDNSRecord)
    (recordName recordType : string) (e : error) :
  find_record records recordName recordType = Err e -> e = errRecordNotFound.
Proof.
  induction records as [|r rest IH]; simpl.
  - intros H. now inversion H.
  - destruct (_ && _); [discriminate | exact IH].
Qed.

(** A resolution fails with the sentinel, or with an error of the
    listing request, which neither is nor wraps the sentinel. *)
Lemma getRecordID_errors (c : dnsClient) (domainID recordName recordType : string)
    (s s' : Net) (e : error) :
  getRecordID c domainID recordName recordType s = (Err e, s') ->
  e = errRecordNotFound \/ errors_Is e errRecordNotFound = false.
Proof.
  destruct (getRecords c domainID s) as [[listing|e'] s1] eqn:E.
  - rewrite (getRecordID_run _ _ _ _ _ _ _ E). intros H. inversion H.
    left. eapply find_record_errors. eassumption.
  - rewrite (getRecordID_no_listing _ _ _ _ _ _ _ E). intros H. inversion H; subst.
    right. exact (getRecords_errors _ _ _ _ _ E).
Qed.

Lemma call_sent {A : Type} (m : M A) (c : dnsClient) (k : call) (s : Net) :
  perform c k = (_ <- m ;; ret tt) ->
  sent (snd (m s)) = (sent s ++ [request_of c k])%list.
Proof.
  intros H. pose proof (perform_sent c k s) as Hs.
  rewrite H, bind_ret_run in Hs.
  destruct (m s) as [[v|e] s']; exact Hs.
Qed.

Lemma createRecord_sent (c : dnsClient) (domainID : string)
    (record : conohaDNSRecord) (s : Net) :
  sent (snd (createRecord c domainID record s))
  = (sent s ++ [request_of c (call_createRecord domainID record)])%list.
Proof. now apply call_sent. Qed.

Lemma updateRecord_sent (c : dnsClient) (domainID recordID : string)
    (record : conohaDNSRecord) (s : Net) :
  sent (snd (updateRecord c domainID recordID record s))
  = (sent s ++ [request_of c (call_updateRecord domainID recordID record)])%list.
Proof. now apply call_sent. Qed.

Lemma getRecords_sent (c : dnsClient) (domainID : string) (s : Net) :
  sent (snd (getRecords c domainID s))
  = (sent s ++ [request_of c (call_getRecords domainID)])%list.
Proof. now apply call_sent. Qed.

Lemma deleteRecord_sent (c : dnsClient) (domainID recordID : string) (s : Net) :
  sent (snd (deleteRecord c domainID recordID s))
  = (sent s ++ [request_of c (call_deleteRecord domainID recordID)])%list.
Proof. exact (perform_sent c (call_deleteRecord domainID recordID) s). Qed.

Lemma getRecordID_sent (c : dnsClient) (domainID recordName recordType : string)
    (s : Net) :
  sent (snd (getRecordID c domainID recordName recordType s))
  = (sent s ++ [request_of c (call_getRecords domainID)])%list.
Proof.
  pose proof (getRecords_sent c domainID s) as H.
  unfold getRecordID, bind, liftR.
  destruct (getRecords c domainID s) as [[listing|e] s1]; exact H.
Qed.

(** *** SetRecords *)

Lemma SetRecords_run (p : Provider) (zone : string) (records : list libdns.Record)
    (s s1 s2 : Net) (c : dnsClient) (domainID : string) :
  initClient p s = (Ok c, s1) ->
  getDomainID c zone s1 = (Ok domainID, s2) ->
  SetRecords p zone records s =
  match SetRecords_loop c domainID records s2 with
  | (Ok _, s') => (Ok records, s')
  | (Err e, s') => (Err e, s')
  end.
Proof.
  intros H1 H2. unfold SetRecords, bind, ret. rewrite H1, H2. reflexivity.
Qed.

Lemma SetRecords_returns_input (p : Provider) (zone : string)
    (records rs : list libdns.Record) (s s' : Net) :
  SetRecords p zone records s = (Ok rs, s') -> rs = records.
Proof.
  unfold SetRecords, bind, ret.
  destruct (initClient p s) as [[c|e] s1]; [|discriminate].
  destruct (getDomainID c zone s1) as [[d|e] s2]; [|discriminate].
  destruct (SetRecords_loop c d records s2) as [[[]|e] s3]; [|discriminate].
  intros H. now inversion H.
Qed.

(** One turn of the loop, by the outcome of the resolution. *)
Lemma SetRecords_loop_turn (c : dnsClient) (domainID : string)
    (rec : libdns.Record) (rest : list libdns.Record)
    (converted : conohaDNSRecord) (s : Net) :
  convertToConohaDNSRecord rec = Ok converted ->
  SetRecords_loop c domainID (rec :: rest) s =
  match SetRecords_step c domainID converted s with
  | (Ok _, s') => SetRecords_loop c domainID rest s'
  | (Err e, s') => (Err e, s')
  end.
Proof.
  intros H. cbn [SetRecords_loop]. unfold bind at 1, liftR. rewrite H.
  unfold bind. destruct (SetRecords_step c domainID converted s) as [[[]|e] s'];
    reflexivity.
Qed.

(** The loop on a batch in two parts. *)
Lemma SetRecords_loop_app (c : dnsClient) (domainID : string)
    (pre post : list libdns.Record) :
  forall s,
    SetRecords_loop c domainID (pre ++ post) s =
    match SetRecords_loop c domainID pre s with
    | (Ok _, s1) => SetRecords_loop c domainID post s1
    | (Err e, s1) => (Err e, s1)
    end.
Proof.
  induction pre as [|rec pre IH]; intros s; [reflexivity|].
  cbn [app SetRecords_loop]. unfold bind, liftR.
  destruct (convertToConohaDNSRecord rec) as [converted|e]; [|reflexivity].
  destruct (SetRecords_step c domainID converted s) as [[[]|e] s1]; [|reflexivity].
  apply IH.
Qed.

(** C2. In [SetRecords], for each input record, once the records before
    it in the batch were set and the record itself converts: when the
    resolution of its ID by name and type gives [errRecordNotFound], the
    record is created (the create request is the next one sent) and the
    loop goes on with the records after it, unless the creation fails;
    when the resolution gives an ID, the record with that ID is updated
    (the update request is the next one sent) and the loop goes on, unless
    the update fails; when the resolution gives any other error, the loop
    stops with that error. The call returns what the loop returns: its
    error, or else the input list unchanged. *)
Theorem SetRecords_creates_or_updates (c : dnsClient) (domainID : string)
    (pre rest : list libdns.Record) (rec : libdns.Record)
    (converted : conohaDNSRecord) (s0 s : Net) :
  SetRecords_loop c domainID pre s0 = (Ok tt, s) ->
  convertToConohaDNSRecord rec = Ok converted ->
  (forall s1,
      getRecordID c domainID (Name converted) (Type_ converted) s
      = (Err errRecordNotFound, s1) ->
      exists r s2,
        createRecord c domainID converted s1 = (r, s2)
        /\ sent s2 = (sent s1 ++ [request_of c (call_createRecord domainID converted)])%list
        /\ SetRecords_loop c domainID (pre ++ rec :: rest) s0 =
           match r with
           | Ok _ => SetRecords_loop c domainID rest s2
           | Err e => (Err e, s2)
           end)
  /\ (forall recordID s1,
      getRecordID c domainID (Name converted) (Type_ converted) s
      = (Ok recordID, s1) ->
      exists r s2,
        updateRecord c domainID recordID converted s1 = (r, s2)
        /\ sent s2
           = (sent s1 ++ [request_of c (call_updateRecord domainID recordID converted)])%list
        /\ SetRecords_loop c domainID (pre ++ rec :: rest) s0 =
           match r with
           | Ok _ => SetRecords_loop c domainID rest s2
           | Err e => (Err e, s2)
           end)
  /\ (forall e s1,
      getRecordID c domainID (Name converted) (Type_ converted) s = (Err e, s1) ->
      e <> errRecordNotFound ->
      SetRecords_loop c domainID (pre ++ rec :: rest) s0 = (Err e, s1))
  /\ (forall p zone records sp sp' s',
      initClient p sp = (Ok c, sp') ->
      getDomainID c zone sp' = (Ok domainID, s0) ->
      (forall e, SetRecords_loop c domainID records s0 = (Err e, s') ->
                 SetRecords p zone records sp = (Err e, s'))
      /\ (SetRecords_loop c domainID records s0 = (Ok tt, s') ->
          SetRecords p zone records sp = (Ok records, s')))
  /\ (forall p zone records sp rs s',
      SetRecords p zone records sp = (Ok rs, s') -> rs = records).
Proof.
  intros Hpre Hconv.
  assert (SetRecords_loop c domainID (pre ++ rec :: rest) s0
          = match SetRecords_step c domainID converted s with
            | (Ok _, s') => SetRecords_loop c domainID rest s'
            | (Err e, s') => (Err e, s')
            end) as Hturn.
  { rewrite SetRecords_loop_app, Hpre. now apply SetRecords_loop_turn. }
  rewrite Hturn. clear Hturn.
  split; [|split; [|split; [|split]]].
  - intros s1 Hres.
    destruct (createRecord c domainID converted s1) as [r s2] eqn:Ec.
    exists r, s2. split; [reflexivity|].
    split.
    { pose proof (createRecord_sent c domainID converted s1) as Hs.
      now rewrite Ec in Hs. }
    unfold SetRecords_step. rewrite Hres. cbn [errors_Is error_eq orb].
    rewrite bind_ret_run, Ec. destruct r; reflexivity.
  - intros recordID s1 Hres.
    destruct (updateRecord c domainID recordID converted s1) as [r s2] eqn:Eu.
    exists r, s2. split; [reflexivity|].
    split.
    { pose proof (updateRecord_sent c domainID recordID converted s1) as Hs.
      now rewrite Eu in Hs. }
    unfold SetRecords_step. rewrite Hres.
    rewrite bind_ret_run, Eu. destruct r; reflexivity.
  - intros e s1 Hres Hne.
    unfold SetRecords_step. rewrite Hres.
    destruct (getRecordID_errors _ _ _ _ _ _ _ Hres) as [->|Hno]; [contradiction|].
    now rewrite Hno.
  - intros p zone records sp sp' s' H1 H2.
    rewrite (SetRecords_run p zone records sp sp' s0 c domainID H1 H2).
    split.
    + intros e ->. reflexivity.
    + intros ->. reflexivity.
  - intros p zone records sp rs s'. apply SetRecords_returns_input.
Qed.

(** *** DeleteRecords *)

Lemma DeleteRecords_run (p : Provider) (zone : string) (records : list libdns.Record)
    (s s1 s2 : Net) (c : dnsClient) (domainID : string) :
  initClient p s = (Ok c, s1) ->
  getDomainID c zone s1 = (Ok domainID, s2) ->
  DeleteRecords p zone records s =
  match DeleteRecords_loop c domainID records s2 with
  | (Ok _, s') => (Ok records, s')
  | (Err e, s') => (Err e, s')
  end.
Proof.
  intros H1 H2. unfold DeleteRecords, bind, ret. rewrite H1, H2. reflexivity.
Qed.

(** The loop on a batch in two parts. *)
Lemma DeleteRecords_loop_app (c : dnsClient) (domainID : string)
    (pre post : list libdns.Record) :
  forall s,
    DeleteRecords_loop c domainID (pre ++ post) s =
    match DeleteRecords_loop c domainID pre s with
    | (Ok _, s1) => DeleteRecords_loop c domainID post s1
    | (Err e, s1) => (Err e, s1)
    end.
Proof.
  induction pre as [|rec pre IH]; intros s; [reflexivity|].
  cbn [app DeleteRecords_loop]. unfold bind, liftR.
  destruct (convertToConohaDNSRecord rec) as [converted|e]; [|reflexivity].
  destruct (getRecordID c domainID (Name converted) (Type_ converted) s)
    as [[recordID|e] s1]; [|reflexivity].
  destruct (deleteRecord c domainID recordID s1) as [[[]|e] s2]; [|reflexivity].
  apply IH.
Qed.

Lemma deletions_app (log : list http.Request) (req : http.Request) :
  deletions (log ++ [req]) =
  (deletions log + if String.eqb (http.Method req) "DELETE" then 1 else 0)%nat.
Proof.
  unfold deletions. rewrite filter_app, length_app. cbn [filter].
  destruct (String.eqb (http.Method req) "DELETE"); reflexivity.
Qed.

Lemma request_of_Method (c : dnsClient) (k : call) :
  http.Method (request_of c k) =
  match k with
  | call_getDomains | call_getRecords _ => "GET"
  | call_createRecord _ _ => "POST"
  | call_updateRecord _ _ _ => "PUT"
  | call_deleteRecord _ _ => "DELETE"
  end.
Proof.
  unfold request_of. rewrite with_token_Method. destruct k; reflexivity.
Qed.

(** A batch the loop gets through costs one DELETE request a record. *)
Lemma DeleteRecords_loop_deletions (c : dnsClient) (domainID : string)
    (records : list libdns.Record) :
  forall s s',
    DeleteRecords_loop c domainID records s = (Ok tt, s') ->
    deletions (sent s') = (deletions (sent s) + List.length records)%nat.
Proof.
  induction records as [|rec rest IH]; intros s s'.
  - cbn. intros H. inversion H. now rewrite Nat.add_0_r.
  - cbn [DeleteRecords_loop]. unfold bind, liftR.
    destruct (convertToConohaDNSRecord rec) as [converted|e]; [|discriminate].
    pose proof (getRecordID_sent c domainID (Name converted) (Type_ converted) s) as Hg.
    destruct (getRecordID c domainID (Name converted) (Type_ converted) s)
      as [[recordID|e] s1]; [|discriminate].
    pose proof (deleteRecord_sent c domainID recordID s1) as Hd.
    destruct (deleteRecord c domainID recordID s1) as [[[]|e] s2]; [|discriminate].
    intros H. rewrite (IH _ _ H). cbn [snd] in Hg, Hd.
    rewrite Hd, Hg, !deletions_app, !request_of_Method. cbn. lia.
Qed.

(** C5. In [DeleteRecords], when the records before a batch item were
    deleted and the resolution of that item's ID fails, with
    [errRecordNotFound] or with any other error, the call returns this
    error at once: nothing is done for the items after it, and nothing
    is sent to undo the deletions made before it, one for each earlier
    item; the last request sent is the listing of the failed
    resolution. *)
Theorem DeleteRecords_aborts_without_rollback (c : dnsClient) (domainID : string)
    (pre post : list libdns.Record) (rec : libdns.Record)
    (converted : conohaDNSRecord) (e : error) (s s1 s2 : Net) :
  DeleteRecords_loop c domainID pre s = (Ok tt, s1) ->
  convertToConohaDNSRecord rec = Ok converted ->
  getRecordID c domainID (Name converted) (Type_ converted) s1 = (Err e, s2) ->
  DeleteRecords_loop c domainID (pre ++ rec :: post) s = (Err e, s2)
  /\ sent s2 = (sent s1 ++ [request_of c (call_getRecords domainID)])%list
  /\ deletions (sent s2) = (deletions (sent s) + List.length pre)%nat
  /\ (forall p zone s0 s0',
        initClient p s0 = (Ok c, s0') ->
        getDomainID c zone s0' = (Ok domainID, s) ->
        DeleteRecords p zone (pre ++ rec :: post) s0 = (Err e, s2)).
Proof.
  intros Hpre Hconv Hres.
  assert (DeleteRecords_loop c domainID (pre ++ rec :: post) s = (Err e, s2)) as Hloop.
  { rewrite DeleteRecords_loop_app, Hpre.
    cbn [DeleteRecords_loop]. unfold bind, liftR. now rewrite Hconv, Hres. }
  assert (sent s2 = (sent s1 ++ [request_of c (call_getRecords domainID)])%list) as Hsent.
  { pose proof (getRecordID_sent c domainID (Name converted) (Type_ converted) s1) as H.
    now rewrite Hres in H. }
  split; [exact Hloop|]. split; [exact Hsent|]. split.
  - rewrite Hsent, deletions_app, request_of_Method.
    rewrite (DeleteRecords_loop_deletions _ _ _ _ _ Hpre). cbn. lia.
  - intros p zone s0 s0' H1 H2.
    rewrite (DeleteRecords_run p zone _ s0 s0' s c domainID H1 H2).
    now rewrite Hloop.
Qed.

End OperationFacts.

(** ** The IPv4 part of net/netip

    The concrete [netip_v4] reads every IPv4 address back from its text,
    and refuses the text of the zero [Addr]: the condition [reparses] of
    the round trip holds for exactly the address records whose IP is
    set. *)

Lemma byte_of_octet (c : ascii) : netip_v4.byte (Z.of_nat (nat_of_ascii c)) = c.
Proof. unfold netip_v4.byte. rewrite Nat2Z.id. apply ascii_nat_embedding. Qed.

(** Reading the digits of an octet leaves its value in [val]. *)
Lemma octet_digits (c : ascii) (rest : string) (first after_dot : bool)
    (fields : list Z) :
  netip_v4.parseIPv4Fields (netip_v4.octet c ++ rest) first after_dot 0 0 fields
  = netip_v4.parseIPv4Fields rest false false (Z.of_nat (nat_of_ascii c))
      (Z.of_nat (String.length (netip_v4.octet c))) fields.
Proof. destruct c as [[] [] [] [] [] [] [] []]; reflexivity. Qed.

Lemma octet_nonempty (c : ascii) (rest : string) :
  exists ch tl, netip_v4.octet c ++ rest = String ch tl.
Proof. destruct c as [[] [] [] [] [] [] [] []]; eexists _, _; reflexivity. Qed.

(** Text that starts with an octet and a dot is handed to the IPv4
    parser. *)
Lemma octet_dispatch (c : ascii) (whole rest : string) :
  netip_v4.dispatch whole (netip_v4.octet c ++ "." ++ rest) = netip_v4.parseIPv4 whole.
Proof. destruct c as [[] [] [] [] [] [] [] []]; reflexivity. Qed.

Lemma dot_closes_field (ch : ascii) (tl : string) (val digLen : Z) (fields : list Z) :
  (List.length fields < 3)%nat ->
  netip_v4.parseIPv4Fields ("." ++ String ch tl) false false val digLen fields
  = netip_v4.parseIPv4Fields (String ch tl) false true 0 0 (fields ++ [val])%list.
Proof.
  intros H. cbn.
  destruct (Z.of_nat (List.length fields) =? 3) eqn:E; [|reflexivity].
  apply Z.eqb_eq in E. lia.
Qed.

Lemma ParseAddr_String_v4 (a b c d : ascii) :
  netip_v4.ParseAddr (netip_v4.String_ (netip_v4.v4 a b c d))
  = inl (netip_v4.v4 a b c d).
Proof.
  unfold netip_v4.ParseAddr, netip_v4.String_.
  rewrite octet_dispatch. unfold netip_v4.parseIPv4.
  rewrite octet_digits.
  destruct (octet_nonempty b ("." ++ netip_v4.octet c ++ "." ++ netip_v4.octet d))
    as (ch1 & tl1 & E1).
  rewrite E1, dot_closes_field by (cbn; lia). rewrite <- E1, octet_digits.
  destruct (octet_nonempty c ("." ++ netip_v4.octet d)) as (ch2 & tl2 & E2).
  rewrite E2, dot_closes_field by (cbn; lia). rewrite <- E2, octet_digits.
  destruct (octet_nonempty d EmptyString) as (ch3 & tl3 & E3).
  assert (netip_v4.octet d = netip_v4.octet d ++ EmptyString) as E0.
  { clear. induction (netip_v4.octet d); cbn; congruence. }
  rewrite E0, E3, dot_closes_field by (cbn; lia). rewrite <- E3, octet_digits.
  cbn. now rewrite !byte_of_octet.
Qed.

Lemma ParseAddr_String_zero :
  netip_v4.ParseAddr (netip_v4.String_ netip_v4.zero) = inr "unable to parse IP".
Proof. reflexivity. Qed.

Lemma reparses_v4 (a : libdns.Address (ip := netip_v4.api)) :
  reparses (ip := netip_v4.api) (st := libdns_text.structured) (libdns.RecAddress a)
  <-> libdns.Address_IP a <> netip_v4.zero.
Proof.
  destruct a as [name ttl addr]. cbn [reparses libdns.Address_IP].
  destruct addr as [|a b c d].
  - split; [intros H; cbn in H; discriminate H | intros H; now elim H].
  - split; [discriminate | intros _; apply ParseAddr_String_v4].
Qed.

(** * Further properties of the package *)

(** ** The record-service client *)

Section MoreClientFacts.
Context {tr : http.Transport} {dec : json.Decoder} {u : url.API}.

Lemma getDomainID_run (c : dnsClient) (domainName : string) (s s1 : Net)
    (domainList : domainListResponse) :
  getDomains c s = (Ok domainList, s1) ->
  getDomainID c domainName s = (find_domain (Domains domainList) domainName, s1).
Proof. intros H. unfold getDomainID, bind, liftR. rewrite H. reflexivity. Qed.

Lemma find_domain_first (pre post : list domain) (d : domain) (domainName : string) :
  (forall x, In x pre -> domain_Name x <> domainName) ->
  domain_Name d = domainName ->
  find_domain (pre ++ d :: post) domainName = Ok (domain_UUID d).
Proof.
  intros Hpre Hd. induction pre as [|x pre IH]; simpl.
  - apply String.eqb_eq in Hd. now rewrite Hd.
  - destruct (String.eqb (domain_Name x) domainName) eqn:E.
    + apply String.eqb_eq in E. exfalso. apply (Hpre x); [now left | exact E].
    + apply IH. intros y Hy. apply Hpre. now right.
Qed.

Lemma find_domain_none (domains : list domain) (domainName : string) :
  (forall x, In x domains -> domain_Name x <> domainName) ->
  find_domain domains domainName = Err (Errorf "no such domain: %s" [ArgString domainName]).
Proof.
  intros Hall. induction domains as [|x rest IH]; simpl; [reflexivity|].
  destruct (String.eqb (domain_Name x) domainName) eqn:E.
  - apply String.eqb_eq in E. exfalso. apply (Hall x); [now left | exact E].
  - apply IH. intros y Hy. apply Hall. now right.
Qed.

(** X1. On the domain list the record service returned, [getDomainID]
    gives the UUID of the first domain whose name equals the zone name,
    and when no domain has that name it gives the error that carries the
    name; in neither case is a further request sent. *)
Theorem getDomainID_first_match (c : dnsClient) (domainName : string) (s s1 : Net)
    (domainList : domainListResponse) :
  getDomains c s = (Ok domainList, s1) ->
  (forall pre d post,
      Domains domainList = (pre ++ d :: post)%list ->
      (forall x, In x pre -> domain_Name x <> domainName) ->
      domain_Name d = domainName ->
      getDomainID c domainName s = (Ok (domain_UUID d), s1))
  /\ ((forall x, In x (Domains domainList) -> domain_Name x <> domainName) ->
      getDomainID c domainName s
      = (Err (Errorf "no such domain: %s" [ArgString domainName]), s1)).
Proof.
  intros H. rewrite (getDomainID_run _ _ _ _ _ H). split.
  - intros pre d post Hsplit Hpre Hd. rewrite Hsplit. now rewrite find_domain_first.
  - intros Hall. now rewrite find_domain_none.
Qed.

(** What [do] returns when it was given a struct to decode into and the
    response has an accepted status. *)
Lemma dnsClient_do_decodes {A : Type} (c : dnsClient) (req : http.Request)
    (unmarshal : string -> A + string) (s : Net) (resp : http.Response)
    (w : http.World) :
  http.RoundTrip (with_token c req) (remote s) = (inl resp, w) ->
  accepted (http.StatusCode resp) = true ->
  dnsClient_do c req (Some unmarshal) s =
  (match http.read_error (http.Response_Body resp) with
   | Some msg => Err (foreign pkg_io msg)
   | None =>
       match unmarshal (http.content (http.Response_Body resp)) with
       | inl v => Ok (Some v)
       | inr msg => Err (foreign pkg_json msg)
       end
   end, after s (with_token c req) w).
Proof.
  intros HR Hacc. unfold dnsClient_do, bind.
  rewrite (HTTPClient_Do_answer _ _ _ _ HR), Hacc. cbn [negb].
  destruct (http.read_error (http.Response_Body resp)); [reflexivity|].
  destruct (unmarshal _); reflexivity.
Qed.

Lemma dnsClient_do_no_answer {A : Type} (c : dnsClient) (req : http.Request)
    (result : option (string -> A + string)) (s : Net) (msg : string) (w : http.World) :
  http.RoundTrip (with_token c req) (remote s) = (inr msg, w) ->
  dnsClient_do c req result s = (Err (foreign pkg_http msg), after s (with_token c req) w).
Proof.
  intros HR. unfold dnsClient_do, bind.
  now rewrite (HTTPClient_Do_broken _ _ _ _ HR).
Qed.

(** X2. [getRecords] returns exactly what [json.Unmarshal] makes of the
    response body: with status 200 or 204, a body whose read breaks off
    gives the read error, a body that does not decode gives the decoding
    error, and otherwise the decoded listing is returned; and when no
    response arrives, the transport error is returned. One request is
    sent in every case. *)
Theorem getRecords_outcome (c : dnsClient) (domainID : string) (s : Net) :
  let req := request_of c (call_getRecords domainID) in
  (forall resp w,
      http.RoundTrip req (remote s) = (inl resp, w) ->
      http.StatusCode resp = 200 \/ http.StatusCode resp = 204 ->
      let body := http.Response_Body resp in
      (forall msg, http.read_error body = Some msg ->
                   getRecords c domainID s = (Err (foreign pkg_io msg), after s req w))
      /\ (forall msg, http.read_error body = None ->
                      json.Unmarshal_recordListResponse (http.content body) = inr msg ->
                      getRecords c domainID s = (Err (foreign pkg_json msg), after s req w))
      /\ (forall listing, http.read_error body = None ->
                          json.Unmarshal_recordListResponse (http.content body) = inl listing ->
                          getRecords c domainID s = (Ok listing, after s req w)))
  /\ (forall msg w,
      http.RoundTrip req (remote s) = (inr msg, w) ->
      getRecords c domainID s = (Err (foreign pkg_http msg), after s req w)).
Proof.
  intros req.
  assert (getRecords c domainID s
            = match dnsClient_do c (bare "GET"
                      (url.JoinPath (baseURL c) ["v1"; "domains"; domainID; "records"]))
                    (Some json.Unmarshal_recordListResponse) s with
              | (Ok out, s') => (Ok (written {| Records := [] |} out), s')
              | (Err e, s') => (Err e, s')
              end) as Hrun.
  { unfold getRecords. rewrite newJSONRequest_bare.
    unfold bind, liftR, ret.
    destruct (dnsClient_do _ _ _ s) as [[out|e] s']; reflexivity. }
  split.
  - intros resp w HR Hst body.
    apply accepted_iff in Hst.
    rewrite Hrun, (dnsClient_do_decodes _ _ _ _ _ _ HR Hst). fold body.
    repeat split.
    + intros msg ->. reflexivity.
    + intros msg -> ->. reflexivity.
    + intros listing -> ->. reflexivity.
  - intros msg w HR. rewrite Hrun, (dnsClient_do_no_answer _ _ _ _ _ _ HR). reflexivity.
Qed.

Lemma perform_succeeds_accepted (c : dnsClient) (k : call) (s : Net)
    (resp : http.Response) (w : http.World) :
  http.RoundTrip (request_of c k) (remote s) = (inl resp, w) ->
  fst (perform c k s) = Ok tt ->
  accepted (http.StatusCode resp) = true.
Proof.
  intros HR.
  destruct (perform_as_do c k) as (A & req & result & Hreq & Hrun).
  rewrite <- Hreq in *. rewrite Hrun.
  destruct (dnsClient_do c req result s) as [[out|e] s'] eqn:E; [|discriminate].
  intros _. destruct (dnsClient_do_ok c req result s s' out E)
    as (resp' & w' & HR' & Hacc & _).
  rewrite HR in HR'. now inversion HR'; subst.
Qed.

(** X3. [deleteRecord] looks at the status only: when a response arrives,
    the call succeeds exactly when the status is 200 or 204, whatever the
    body holds and whether or not it can be read. *)
Theorem deleteRecord_status_only (c : dnsClient) (domainID recordID : string)
    (s : Net) (resp : http.Response) (w : http.World) :
  let req := request_of c (call_deleteRecord domainID recordID) in
  http.RoundTrip req (remote s) = (inl resp, w) ->
  (http.StatusCode resp = 200 \/ http.StatusCode resp = 204 ->
   deleteRecord c domainID recordID s = (Ok tt, after s req w))
  /\ (fst (deleteRecord c domainID recordID s) = Ok tt ->
      http.StatusCode resp = 200 \/ http.StatusCode resp = 204).
Proof.
  intros req HR. split.
  - intros Hst. apply accepted_iff in Hst.
    unfold deleteRecord. rewrite newJSONRequest_bare. unfold bind, liftR, ret.
    unfold dnsClient_do, bind.
    change (with_token c (bare "DELETE"
              (url.JoinPath (baseURL c) ["v1"; "domains"; domainID; "records"; recordID])))
      with req.
    rewrite (HTTPClient_Do_answer _ _ _ _ HR), Hst. reflexivity.
  - intros Hok. apply accepted_iff.
    exact (perform_succeeds_accepted c (call_deleteRecord domainID recordID)
             s resp w HR Hok).
Qed.

End MoreClientFacts.

Section RequestFacts.
Context {tr : http.Transport} {dec : json.Decoder} {u : url.API}.

(** X4. Every request the record-service client sends asks for JSON and
    carries the token of the client in the X-Auth-Token header, or no such
    header when the client holds no token. Only the creation and the
    update of a record have a body, the encoded record, and these two
    declare a JSON content type; the other calls declare none. *)
Theorem record_service_headers (c : dnsClient) (k : call) (s : Net) :
  exists req,
    sent (snd (perform c k s)) = (sent s ++ [req])%list
    /\ http.Get (http.Request_Header req) "Accept" = "application/json"
    /\ http.Get (http.Request_Header req) "X-Auth-Token" = token c
    /\ http.lookup "X-Auth-Token" (http.Request_Header req)
       = match token c with
         | EmptyString => None
         | _ => Some [token c]
         end
    /\ http.Request_Body req
       = match k with
         | call_createRecord _ r => Some (encode_conohaDNSRecord r)
         | call_updateRecord _ _ r => Some (encode_conohaDNSRecord (set_TTL r 0))
         | _ => None
         end
    /\ http.Get (http.Request_Header req) "Content-Type"
       = match http.Request_Body req with
         | Some _ => "application/json"
         | None => EmptyString
         end.
Proof.
  exists (request_of c k). split; [apply perform_sent|].
  unfold request_of, with_token.
  destruct (token c) as [|ch tok] eqn:Etok;
    destruct k as [|d|d r|d id r|d id]; cbn; repeat split; reflexivity.
Qed.

Lemma encode_conohaDNSRecord_uuid (r : conohaDNSRecord) :
  json.member "uuid" (encode_conohaDNSRecord r)
  = match UUID r with
    | EmptyString => None
    | _ => Some (json.JString (UUID r))
    end.
Proof.
  unfold encode_conohaDNSRecord, json.omitempty_int.
  destruct (UUID r); destruct (TTL r =? 0); reflexivity.
Qed.

(** X5. [createRecord] sends one request, a POST to the records of the
    domain, whose document carries the record as it is: [name], [type]
    and [data], the [ttl] member with the TTL of the record unless that is
    zero, and the [uuid] member unless the UUID is empty. *)
Theorem createRecord_payload (c : dnsClient) (domainID : string)
    (record : conohaDNSRecord) (s : Net) :
  exists req doc,
    sent (snd (createRecord c domainID record s)) = (sent s ++ [req])%list
    /\ http.Method req = "POST"
    /\ http.URL req = url.JoinPath (baseURL c) ["v1"; "domains"; domainID; "records"]
    /\ http.Request_Body req = Some doc
    /\ json.member "name" doc = Some (json.JString (Name record))
    /\ json.member "type" doc = Some (json.JString (Type_ record))
    /\ json.member "data" doc = Some (json.JString (Data record))
    /\ json.member "ttl" doc
       = (if TTL record =? 0 then None else Some (json.JNumber (TTL record)))
    /\ json.member "uuid" doc
       = match UUID record with
         | EmptyString => None
         | _ => Some (json.JString (UUID record))
         end.
Proof.
  exists (request_of c (call_createRecord domainID record)).
  exists (encode_conohaDNSRecord record).
  destruct (encode_conohaDNSRecord_members record) as (Hn & Ht & Hd & Httl).
  split; [apply createRecord_sent|].
  split; [unfold request_of; now rewrite with_token_Method|].
  split; [unfold request_of; now rewrite with_token_URL|].
  split; [unfold request_of; now rewrite with_token_Body|].
  split; [exact Hn|]. split; [exact Ht|]. split; [exact Hd|].
  split; [exact Httl | apply encode_conohaDNSRecord_uuid].
Qed.

(** X6. [getRecordID] does not look at the UUID it returns: when the first
    record of the listing with the name and type has no UUID, the
    resolution succeeds with the empty ID, and the DELETE that
    [deleteRecord] then sends for it goes to the records of the domain as
    a whole, because [URL.JoinPath] drops the empty element. *)
Theorem empty_UUID_reaches_collection (c : dnsClient)
    (domainID recordName recordType : string) (s s1 : Net)
    (listing : recordListResponse) (pre post : list conohaDNSRecord)
    (record : conohaDNSRecord) :
  getRecords c domainID s = (Ok listing, s1) ->
  Records listing = (pre ++ record :: post)%list ->
  (forall r, In r pre -> ~ matches recordName recordType r) ->
  matches recordName recordType record ->
  UUID record = EmptyString ->
  getRecordID c domainID recordName recordType s = (Ok EmptyString, s1)
  /\ exists req,
       sent (snd (deleteRecord c domainID EmptyString s1)) = (sent s1 ++ [req])%list
       /\ http.Method req = "DELETE"
       /\ http.URL req = url.JoinPath (baseURL c) ["v1"; "domains"; domainID; "records"]
       /\ http.URL req = http.URL (request_of c (call_getRecords domainID)).
Proof.
  intros Hget Hsplit Hpre Hm Hu. split.
  - rewrite (getRecordID_run _ _ _ _ _ _ _ Hget), Hsplit.
    rewrite (find_record_first pre post record _ _ Hpre Hm). now rewrite Hu.
  - exists (request_of c (call_deleteRecord domainID EmptyString)).
    split; [apply deleteRecord_sent|].
    split; [now rewrite request_of_Method|].
    unfold request_of. rewrite !with_token_URL. cbn [bare http.URL].
    unfold url.JoinPath. cbn [filter url.nonempty].
    destruct domainID; split; reflexivity.
Qed.

End RequestFacts.

(** ** The translators and the test helper *)

Section MoreTranslatorFacts.
Context {ip : netip.API} {st : libdns.Structured}.

Lemma of_seconds_exact (n : Z) :
  int64_range (n * time.Second) -> time.of_seconds n = n * time.Second.
Proof.
  intros Hr. unfold time.of_seconds.
  assert (int64_range n) as Hs.
  { unfold int64_range, time.Second in *. lia. }
  rewrite (wrap64_small n Hs). apply wrap64_small. exact Hr.
Qed.

Lemma ttl_seconds_of_seconds (n : Z) :
  int64_range (n * time.Second) -> ttl_seconds (time.of_seconds n) = n.
Proof. intros H. rewrite of_seconds_exact by exact H. apply ttl_seconds_whole. Qed.

(** X7. A raw record goes to a libdns record and back, when its TTL in
    nanoseconds fits a [time.Duration]: a CNAME or TXT record comes back
    with the same name, type, data and TTL and without its UUID; an A or
    AAAA record whose data parses comes back with the data in the text
    form of net/netip and with the type of the address family, A or AAAA,
    whatever type it had. *)
Theorem raw_roundtrip (raw : conohaDNSRecord) :
  int64_range (TTL raw * time.Second) ->
  (Type_ raw = "CNAME" \/ Type_ raw = "TXT" ->
   exists rec,
     convertToLibdnsRecord raw = Ok rec
     /\ convertToConohaDNSRecord rec
        = Ok {| UUID := EmptyString; Name := Name raw; Type_ := Type_ raw;
                Data := Data raw; TTL := TTL raw |})
  /\ (Type_ raw = "A" \/ Type_ raw = "AAAA" ->
      forall addr,
        netip.ParseAddr (Data raw) = inl addr ->
        netip.ParseAddr (netip.String addr) = inl addr ->
        exists rec,
          convertToLibdnsRecord raw = Ok rec
          /\ convertToConohaDNSRecord rec
             = Ok {| UUID := EmptyString; Name := Name raw;
                     Type_ := if netip.Is6 addr then "AAAA" else "A";
                     Data := netip.String addr; TTL := TTL raw |}).
Proof.
  intros Hr. pose proof (ttl_seconds_of_seconds _ Hr) as Hback.
  destruct raw as [uuid name ty data ttl]. cbn [TTL Type_ Name Data] in *.
  split.
  - intros [-> | ->]; eexists; (split; [reflexivity|]);
      unfold convertToConohaDNSRecord; cbn; rewrite Hback; reflexivity.
  - intros Hty addr Hp Hq.
    exists (libdns.RecAddress
              {| libdns.Address_Name := name;
                 libdns.Address_TTL := time.of_seconds ttl;
                 libdns.Address_IP := addr |}).
    split.
    + unfold convertToLibdnsRecord. cbn [TTL Type_ Name Data].
      destruct Hty as [-> | ->]; cbn; rewrite Hp; reflexivity.
    + unfold convertToConohaDNSRecord, libdns.Parse, libdns.toAddress.
      cbn [libdns.RR_of libdns.RR_Type libdns.RR_Data libdns.RR_Name libdns.RR_TTL
           libdns.Address_IP libdns.Address_Name libdns.Address_TTL].
      rewrite Hq. destruct (netip.Is6 addr); cbn; rewrite Hback; reflexivity.
Qed.

Lemma convertToLibdnsRecord_supported (raw : conohaDNSRecord) (rec : libdns.Record) :
  convertToLibdnsRecord raw = Ok rec -> supported_variant rec = true.
Proof.
  unfold convertToLibdnsRecord.
  destruct (String.eqb (Type_ raw) "A" || String.eqb (Type_ raw) "AAAA").
  - destruct (netip.ParseAddr (Data raw)); intros H; inversion H; reflexivity.
  - destruct (String.eqb (Type_ raw) "CNAME"); [intros H; inversion H; reflexivity|].
    destruct (String.eqb (Type_ raw) "TXT"); [intros H; inversion H; reflexivity|].
    discriminate.
Qed.

Lemma GetRecords_loop_supported (records : list conohaDNSRecord) :
  forall libRecords recs,
    Forall (fun rec => supported_variant rec = true) libRecords ->
    GetRecords_loop libRecords records = Ok recs ->
    Forall (fun rec => supported_variant rec = true) recs.
Proof.
  induction records as [|raw rest IH]; intros acc recs Hacc; simpl.
  - intros H. now inversion H; subst.
  - destruct (convertToLibdnsRecord raw) as [rec|e] eqn:E.
    + apply IH. apply Forall_app. split; [exact Hacc|].
      constructor; [|constructor]. exact (convertToLibdnsRecord_supported _ _ E).
    + destruct (error_eq e errRecordNotSupported); [now apply IH | discriminate].
Qed.

(** The fields [isSameRecord] compares. *)
Lemma converted_fields (a a' : libdns.Record) :
  libdns.RR_Name (libdns.RR_of a) = libdns.RR_Name (libdns.RR_of a') ->
  libdns.RR_Type (libdns.RR_of a) = libdns.RR_Type (libdns.RR_of a') ->
  libdns.RR_Data (libdns.RR_of a) = libdns.RR_Data (libdns.RR_of a') ->
  Name (converted a) = Name (converted a')
  /\ Type_ (converted a) = Type_ (converted a')
  /\ Data (converted a) = Data (converted a').
Proof.
  unfold converted, convertToConohaDNSRecord.
  generalize (libdns.RR_of a) (libdns.RR_of a'). clear a a'.
  intros [name ttl ty data] [name' ttl' ty' data']. cbn.
  intros <- <- <-. unfold libdns.Parse. cbn [libdns.RR_Type].
  destruct (String.eqb ty "A" || String.eqb ty "AAAA").
  { unfold libdns.toAddress. cbn [libdns.RR_Data].
    destruct (netip.ParseAddr data); cbn; auto. }
  destruct (String.eqb ty "CAA").
  { destruct (libdns.toCAA _), (libdns.toCAA _); cbn; auto. }
  destruct (String.eqb ty "CNAME"); [cbn; auto|].
  destruct (String.eqb ty "HTTPS" || String.eqb ty "SVCB").
  { destruct (libdns.toServiceBinding _), (libdns.toServiceBinding _); cbn; auto. }
  destruct (String.eqb ty "MX").
  { unfold libdns.toMX. cbn [libdns.RR_Data].
    destruct (strings.Fields data) as [|p [|t [|x l]]]; cbn; auto.
    destruct (strconv.ParseUint p 16); cbn; auto. }
  destruct (String.eqb ty "NS"); [cbn; auto|].
  destruct (String.eqb ty "SRV").
  { destruct (libdns.toSRV _), (libdns.toSRV _); cbn; auto. }
  destruct (String.eqb ty "TXT"); cbn; auto.
Qed.

(** X8. [isSameRecord] does not see the TTL: two records whose [RR] forms
    have the same name, type and data are the same record to it, and it
    gives the same answer for either of them against any third record. It
    is reflexive, symmetric and transitive. *)
Theorem isSameRecord_ignores_TTL (a a' : libdns.Record) :
  libdns.RR_Name (libdns.RR_of a) = libdns.RR_Name (libdns.RR_of a') ->
  libdns.RR_Type (libdns.RR_of a) = libdns.RR_Type (libdns.RR_of a') ->
  libdns.RR_Data (libdns.RR_of a) = libdns.RR_Data (libdns.RR_of a') ->
  isSameRecord a a' = true
  /\ (forall b, isSameRecord a b = isSameRecord a' b)
  /\ (forall b, isSameRecord b a = isSameRecord b a')
  /\ (forall x, isSameRecord x x = true)
  /\ (forall x y, isSameRecord x y = isSameRecord y x)
  /\ (forall x y z, isSameRecord x y = true -> isSameRecord y z = true ->
                    isSameRecord x z = true).
Proof.
  intros Hn Ht Hd.
  destruct (converted_fields a a' Hn Ht Hd) as (En & Et & Ed).
  unfold isSameRecord. cbn zeta.
  split; [rewrite En, Et, Ed, !String.eqb_refl; reflexivity|].
  split; [intros b; now rewrite En, Et, Ed|].
  split; [intros b; now rewrite En, Et, Ed|].
  split; [intros x; now rewrite !String.eqb_refl|].
  split.
  - intros x y.
    rewrite (String.eqb_sym (Name (converted x))), (String.eqb_sym (Type_ (converted x))),
      (String.eqb_sym (Data (converted x))). reflexivity.
  - intros x y z Hxy Hyz.
    apply andb_true_iff in Hxy as [Hxy Hxy3]. apply andb_true_iff in Hxy as [Hxy1 Hxy2].
    apply andb_true_iff in Hyz as [Hyz Hyz3]. apply andb_true_iff in Hyz as [Hyz1 Hyz2].
    apply String.eqb_eq in Hxy1, Hxy2, Hxy3, Hyz1, Hyz2, Hyz3.
    rewrite Hxy1, Hxy2, Hxy3, Hyz1, Hyz2, Hyz3, !String.eqb_refl. reflexivity.
Qed.

(** X9. [isSameRecord] drops the conversion errors: it answers true for
    any two records that [convertToConohaDNSRecord] refuses, whatever they
    hold, and false for a refused record against a converted one that has
    a name. *)
Theorem isSameRecord_of_refused (a b : libdns.Record) (ea : error) :
  convertToConohaDNSRecord a = Err ea ->
  (forall eb, convertToConohaDNSRecord b = Err eb -> isSameRecord a b = true)
  /\ (forall raw, convertToConohaDNSRecord b = Ok raw -> Name raw <> EmptyString ->
                  isSameRecord a b = false).
Proof.
  intros Ha. unfold isSameRecord, converted. rewrite Ha. split.
  - intros eb ->. reflexivity.
  - intros raw -> Hne. cbn.
    destruct (Name raw); [now elim Hne | reflexivity].
Qed.

End MoreTranslatorFacts.

(** ** The requests of the four operations *)

Section TraceFacts.
Context {ip : netip.API} {st : libdns.Structured}
        {tr : http.Transport} {dec : json.Decoder} {u : url.API}.

Lemma sends_ret (P : http.Request -> Prop) {A : Type} (a : A) : sends P (ret a).
Proof. intros s. exists []. split; [now rewrite app_nil_r | constructor]. Qed.

Lemma sends_liftR (P : http.Request -> Prop) {A : Type} (r : Result A) :
  sends P (liftR r).
Proof. intros s. exists []. split; [now rewrite app_nil_r | constructor]. Qed.

Lemma sends_one (P : http.Request -> Prop) {A : Type} (m : M A) (req : http.Request) :
  (forall s, sent (snd (m s)) = (sent s ++ [req])%list) -> P req -> sends P m.
Proof. intros H Hp s. exists [req]. split; [apply H | now constructor]. Qed.

Lemma sends_weaken (P P' : http.Request -> Prop) {A : Type} (m : M A) :
  (forall r, P r -> P' r) -> sends P m -> sends P' m.
Proof.
  intros Himp H s. destruct (H s) as (l & E & F). exists l. split; [exact E|].
  eapply Forall_impl; eauto.
Qed.

(** The requests of [m] and then of what follows it. *)
Lemma sends_bind (P : http.Request -> Prop) {A B : Type} (Q : A -> Prop)
    (m : M A) (k : A -> M B) :
  returns Q m -> sends P m -> (forall a, Q a -> sends P (k a)) -> sends P (bind m k).
Proof.
  intros Hq Hm Hk s. destruct (Hm s) as (l1 & E1 & F1). unfold bind.
  destruct (m s) as [[a|e] s1] eqn:E.
  - destruct (Hk a (Hq s a s1 E) s1) as (l2 & E2 & F2).
    exists (l1 ++ l2)%list. cbn [snd] in E1. rewrite E2, E1, app_assoc.
    split; [reflexivity | now apply Forall_app].
  - exists l1. split; [exact E1 | exact F1].
Qed.

Lemma returns_any {A : Type} (m : M A) : returns (fun _ => True) m.
Proof. intros s a s' _. exact I. Qed.

Lemma getToken_sent (c : identifier) (tenant user pw : string) (req : http.Request)
    (s : Net) :
  token_request c tenant user pw = Ok req ->
  sent (snd (getToken c tenant user pw s)) = (sent s ++ [req])%list.
Proof.
  intros Hreq. unfold getToken, bind, liftR. rewrite Hreq.
  unfold identifier_do, bind.
  destruct (HTTPClient_Do_cases req s) as [(resp & w & _ & ->)|(msg & w & _ & ->)];
    [|reflexivity].
  destruct (negb (http.StatusCode resp =? http.StatusCreated)); [reflexivity|].
  destruct (http.Get (http.Response_Header resp) "x-subject-token"); reflexivity.
Qed.

Lemma newIdentifier_rooted (region : string) (c : identifier) :
  newIdentifier region = Ok c -> url.path (identifier_baseURL c) = [].
Proof.
  unfold newIdentifier, url.Parse.
  destruct (url.rejects _); [discriminate|]. intros H. now inversion H.
Qed.

Lemma newDnsClient_rooted (region tok : string) (c : dnsClient) :
  newDnsClient region tok = Ok c -> rooted c.
Proof.
  unfold newDnsClient, url.Parse, rooted.
  destruct (url.rejects _); [discriminate|]. intros H. now inversion H.
Qed.

Lemma token_request_shape (c : identifier) (tenant user pw : string) (req : http.Request) :
  url.path (identifier_baseURL c) = [] ->
  token_request c tenant user pw = Ok req ->
  is_token_request req.
Proof.
  intros Hroot H. unfold token_request in H. rewrite newJSONRequest_carrying in H.
  injection H as <-. split; [reflexivity|].
  cbn. unfold url.JoinPath. cbn. now rewrite Hroot.
Qed.

Lemma initClient_sends (p : Provider) : sends is_token_request (initClient p).
Proof.
  intros s. unfold initClient, bind, liftR.
  destruct (newIdentifier (Region p)) as [idf|e] eqn:Eid.
  - destruct (token_request_total idf (APITenantID p) (APIUserID p) (APIPassword p))
      as (req & Hreq).
    pose proof (getToken_sent idf _ _ _ req s Hreq) as Hs.
    exists [req]. split.
    + destruct (getToken idf (APITenantID p) (APIUserID p) (APIPassword p) s)
        as [[tok|e] s1]; exact Hs.
    + constructor; [|constructor].
      eapply token_request_shape; eauto using newIdentifier_rooted.
  - exists []. split; [now rewrite app_nil_r | constructor].
Qed.

Lemma initClient_rooted (p : Provider) : returns rooted (initClient p).
Proof.
  intros s c s'. unfold initClient, bind, liftR.
  destruct (newIdentifier (Region p)); [|discriminate].
  destruct (getToken _ _ _ _ s) as [[tok|e] s1]; [|discriminate].
  destruct (newDnsClient (Region p) tok) eqn:E; [|discriminate].
  intros H. inversion H; subst. exact (newDnsClient_rooted _ _ _ E).
Qed.

Lemma getDomains_sent (c : dnsClient) (s : Net) :
  sent (snd (getDomains c s)) = (sent s ++ [request_of c call_getDomains])%list.
Proof. now apply call_sent. Qed.

Lemma getDomainID_sent (c : dnsClient) (domainName : string) (s : Net) :
  sent (snd (getDomainID c domainName s))
  = (sent s ++ [request_of c call_getDomains])%list.
Proof.
  pose proof (getDomains_sent c s) as H. unfold getDomainID, bind, liftR.
  destruct (getDomains c s) as [[l|e] s1]; exact H.
Qed.

Lemma domains_request_shape (c : dnsClient) :
  rooted c -> is_domains_request (request_of c call_getDomains).
Proof.
  intros Hroot. split; [now rewrite request_of_Method|].
  unfold request_of. rewrite with_token_URL. cbn. unfold url.JoinPath. cbn.
  now rewrite Hroot.
Qed.

(** The first two steps of every operation. *)
Lemma prologue_sends (P : http.Request -> Prop) {A : Type} (p : Provider)
    (zone : string) (k : dnsClient -> string -> M A) :
  (forall r, is_token_request r -> P r) ->
  (forall r, is_domains_request r -> P r) ->
  (forall c domainID, rooted c -> sends P (k c domainID)) ->
  sends P (c <- initClient p ;; domainID <- getDomainID c zone ;; k c domainID).
Proof.
  intros Htok Hdom Hk.
  apply (sends_bind _ rooted);
    [apply initClient_rooted | exact (sends_weaken _ _ _ Htok (initClient_sends p)) |].
  intros c Hroot.
  apply (sends_bind _ (fun _ => True)); [apply returns_any | | intros; now apply Hk].
  apply (sends_one _ _ (request_of c call_getDomains)).
  - intros s. apply getDomainID_sent.
  - apply Hdom. now apply domains_request_shape.
Qed.

(** X10. [GetRecords] only reads: whatever the remote answers and however
    the call ends, it sends at most the token request and GET requests. *)
Theorem GetRecords_only_reads (p : Provider) (zone : string) :
  sends (fun r => is_token_request r \/ http.Method r = "GET") (GetRecords p zone).
Proof.
  unfold GetRecords. apply prologue_sends.
  - intros r H. now left.
  - intros r [H _]. now right.
  - intros c domainID _.
    apply (sends_bind _ (fun _ => True)); [apply returns_any | | intros; apply sends_liftR].
    apply (sends_one _ _ (request_of c (call_getRecords domainID))).
    + intros s. apply getRecords_sent.
    + right. now rewrite request_of_Method.
Qed.

Lemma AppendRecords_loop_sends (c : dnsClient) (domainID : string)
    (records : list libdns.Record) :
  sends (fun r => http.Method r = "POST") (AppendRecords_loop c domainID records).
Proof.
  induction records as [|rec rest IH]; cbn [AppendRecords_loop]; [apply sends_ret|].
  apply (sends_bind _ (fun _ => True)); [apply returns_any | apply sends_liftR |].
  intros raw _.
  apply (sends_bind _ (fun _ => True)); [apply returns_any | | intros; exact IH].
  apply (sends_one _ _ (request_of c (call_createRecord domainID raw))).
  - intros s. apply createRecord_sent.
  - now rewrite request_of_Method.
Qed.

(** X11. [AppendRecords] never looks at the records of the zone: whatever
    happens, the requests it sends are the token request, the listing of
    the domains and POST requests; it sends no GET of the records, no PUT
    and no DELETE. *)
Theorem AppendRecords_never_lists (p : Provider) (zone : string)
    (records : list libdns.Record) :
  sends (fun r => is_token_request r \/ is_domains_request r
                  \/ http.Method r = "POST")
        (AppendRecords p zone records).
Proof.
  unfold AppendRecords. apply prologue_sends.
  - intros r H. now left.
  - intros r H. right. now left.
  - intros c domainID _.
    apply (sends_bind _ (fun _ => True)); [apply returns_any | | intros; apply sends_ret].
    eapply sends_weaken; [|apply AppendRecords_loop_sends].
    intros r H. right. now right.
Qed.

Lemma SetRecords_step_sends (c : dnsClient) (domainID : string)
    (converted : conohaDNSRecord) :
  sends (fun r => http.Method r <> "DELETE") (SetRecords_step c domainID converted).
Proof.
  intros s. unfold SetRecords_step.
  pose proof (getRecordID_sent c domainID (Name converted) (Type_ converted) s) as Hg.
  destruct (getRecordID c domainID (Name converted) (Type_ converted) s)
    as [[recordID|e] s1]; cbn [snd] in Hg.
  - rewrite bind_ret_run.
    pose proof (updateRecord_sent c domainID recordID converted s1) as Hu.
    exists [request_of c (call_getRecords domainID);
            request_of c (call_updateRecord domainID recordID converted)].
    split.
    + destruct (updateRecord c domainID recordID converted s1) as [[v|e] s2];
        cbn [snd] in *; rewrite Hu, Hg, <- app_assoc; reflexivity.
    + repeat constructor; rewrite request_of_Method; discriminate.
  - destruct (errors_Is e errRecordNotFound).
    + rewrite bind_ret_run.
      pose proof (createRecord_sent c domainID converted s1) as Hc.
      exists [request_of c (call_getRecords domainID);
              request_of c (call_createRecord domainID converted)].
      split.
      * destruct (createRecord c domainID converted s1) as [[v|e'] s2];
          cbn [snd] in *; rewrite Hc, Hg, <- app_assoc; reflexivity.
      * repeat constructor; rewrite request_of_Method; discriminate.
    + exists [request_of c (call_getRecords domainID)]. split; [exact Hg|].
      repeat constructor; rewrite request_of_Method; discriminate.
Qed.

Lemma SetRecords_loop_sends (c : dnsClient) (domainID : string)
    (records : list libdns.Record) :
  sends (fun r => http.Method r <> "DELETE") (SetRecords_loop c domainID records).
Proof.
  induction records as [|rec rest IH]; cbn [SetRecords_loop]; [apply sends_ret|].
  apply (sends_bind _ (fun _ => True)); [apply returns_any | apply sends_liftR |].
  intros raw _.
  apply (sends_bind _ (fun _ => True)); [apply returns_any | | intros; exact IH].
  apply SetRecords_step_sends.
Qed.

Lemma DeleteRecords_loop_sends (c : dnsClient) (domainID : string)
    (records : list libdns.Record) :
  sends (fun r => http.Method r = "GET" \/ http.Method r = "DELETE")
        (DeleteRecords_loop c domainID records).
Proof.
  induction records as [|rec rest IH]; cbn [DeleteRecords_loop]; [apply sends_ret|].
  apply (sends_bind _ (fun _ => True)); [apply returns_any | apply sends_liftR |].
  intros raw _.
  apply (sends_bind _ (fun _ => True)); [apply returns_any | |].
  - apply (sends_one _ _ (request_of c (call_getRecords domainID))).
    + intros s. apply getRecordID_sent.
    + left. now rewrite request_of_Method.
  - intros recordID _.
    apply (sends_bind _ (fun _ => True)); [apply returns_any | | intros; exact IH].
    apply (sends_one _ _ (request_of c (call_deleteRecord domainID recordID))).
    + intros s. apply deleteRecord_sent.
    + right. now rewrite request_of_Method.
Qed.

(** X12. [SetRecords] never deletes and [DeleteRecords] never writes:
    however the call ends, [SetRecords] sends no DELETE request, and
    [DeleteRecords] sends, beside the token request, GET and DELETE
    requests only. *)
Theorem SetRecords_never_deletes (p : Provider) (zone : string)
    (records : list libdns.Record) :
  sends (fun r => http.Method r <> "DELETE") (SetRecords p zone records)
  /\ sends (fun r => is_token_request r \/ http.Method r = "GET"
                     \/ http.Method r = "DELETE")
           (DeleteRecords p zone records).
Proof.
  split.
  - unfold SetRecords. apply prologue_sends.
    + intros r [H _]. rewrite H. discriminate.
    + intros r [H _]. rewrite H. discriminate.
    + intros c domainID _.
      apply (sends_bind _ (fun _ => True)); [apply returns_any | | intros; apply sends_ret].
      apply SetRecords_loop_sends.
  - unfold DeleteRecords. apply prologue_sends.
    + intros r H. now left.
    + intros r [H _]. right. now left.
    + intros c domainID _.
      apply (sends_bind _ (fun _ => True)); [apply returns_any | | intros; apply sends_ret].
      eapply sends_weaken; [|apply DeleteRecords_loop_sends].
      intros r H. now right.
Qed.


End TraceFacts.

(** ** How the four operations start and stop *)

Section MoreOperationFacts.
Context {ip : netip.API} {st : libdns.Structured}
        {tr : http.Transport} {dec : json.Decoder} {u : url.API}.

Lemma initClient_no_token (p : Provider) (idf : identifier) (s s1 : Net) (e : error) :
  newIdentifier (Region p) = Ok idf ->
  getToken idf (APITenantID p) (APIUserID p) (APIPassword p) s = (Err e, s1) ->
  initClient p s = (Err e, s1).
Proof. intros H1 H2. unfold initClient, bind, liftR. now rewrite H1, H2. Qed.

(** An operation whose client could not be made. *)
Lemma operations_without_client (p : Provider) (zone : string)
    (records : list libdns.Record) (s s1 : Net) (e : error) :
  initClient p s = (Err e, s1) ->
  GetRecords p zone s = (Err e, s1)
  /\ AppendRecords p zone records s = (Err e, s1)
  /\ SetRecords p zone records s = (Err e, s1)
  /\ DeleteRecords p zone records s = (Err e, s1).
Proof.
  intros H. unfold GetRecords, AppendRecords, SetRecords, DeleteRecords, bind.
  rewrite H. auto.
Qed.

(** X14. When the token cannot be obtained, every one of the four
    operations returns the error of [getToken], and the token request is
    the only request that was sent: no domain and no record is asked
    for. *)
Theorem authentication_comes_first (p : Provider) (zone : string)
    (records : list libdns.Record) (idf : identifier) (s s1 : Net) (e : error) :
  newIdentifier (Region p) = Ok idf ->
  getToken idf (APITenantID p) (APIUserID p) (APIPassword p) s = (Err e, s1) ->
  GetRecords p zone s = (Err e, s1)
  /\ AppendRecords p zone records s = (Err e, s1)
  /\ SetRecords p zone records s = (Err e, s1)
  /\ DeleteRecords p zone records s = (Err e, s1)
  /\ exists req, sent s1 = (sent s ++ [req])%list /\ is_token_request req.
Proof.
  intros Hid Htok.
  pose proof (initClient_no_token p idf s s1 e Hid Htok) as Hinit.
  destruct (operations_without_client p zone records s s1 e Hinit) as (Hg & Ha & Hs & Hd).
  repeat (split; [assumption|]).
  destruct (token_request_total idf (APITenantID p) (APIUserID p) (APIPassword p))
    as (req & Hreq).
  exists req. split.
  - pose proof (getToken_sent idf _ _ _ req s Hreq) as Hsent. now rewrite Htok in Hsent.
  - eapply token_request_shape; eauto using newIdentifier_rooted.
Qed.

(** X15. When the zone cannot be resolved (the domain list cannot be
    fetched, or no domain has the name), every one of the four operations
    returns that error, and the listing of the domains is the last request
    that was sent: no record is asked for, created, updated or deleted. *)
Theorem domain_resolution_comes_second (p : Provider) (zone : string)
    (records : list libdns.Record) (c : dnsClient) (s s1 s2 : Net) (e : error) :
  initClient p s = (Ok c, s1) ->
  getDomainID c zone s1 = (Err e, s2) ->
  GetRecords p zone s = (Err e, s2)
  /\ AppendRecords p zone records s = (Err e, s2)
  /\ SetRecords p zone records s = (Err e, s2)
  /\ DeleteRecords p zone records s = (Err e, s2)
  /\ sent s2 = (sent s1 ++ [request_of c call_getDomains])%list.
Proof.
  intros H1 H2.
  unfold GetRecords, AppendRecords, SetRecords, DeleteRecords, bind.
  rewrite H1, H2. repeat (split; [reflexivity|]).
  pose proof (getDomainID_sent c zone s1) as H. now rewrite H2 in H.
Qed.

(** X16. A region for which [url.Parse] refuses the address of the
    identity service makes every one of the four operations fail with the
    error of [url.Parse], before anything is sent. *)
Theorem bad_region_sends_nothing (p : Provider) (zone : string)
    (records : list libdns.Record) (s : Net) (msg : string) :
  url.rejects (identityBaseURL (default_region (Region p))) = Some msg ->
  GetRecords p zone s = (Err (foreign pkg_url msg), s)
  /\ AppendRecords p zone records s = (Err (foreign pkg_url msg), s)
  /\ SetRecords p zone records s = (Err (foreign pkg_url msg), s)
  /\ DeleteRecords p zone records s = (Err (foreign pkg_url msg), s).
Proof.
  intros H. apply operations_without_client.
  unfold initClient, bind, liftR, newIdentifier, url.Parse. now rewrite H.
Qed.

(** X17. With an empty batch, [AppendRecords], [SetRecords] and
    [DeleteRecords] do the same thing: they still obtain a token and
    resolve the zone, return the errors of these two steps, and otherwise
    return the empty list after exactly these two requests. *)
Theorem empty_batch (p : Provider) (zone : string) (s : Net) :
  AppendRecords p zone [] s = SetRecords p zone [] s
  /\ SetRecords p zone [] s = DeleteRecords p zone [] s
  /\ (forall c s1 domainID s2,
        initClient p s = (Ok c, s1) ->
        getDomainID c zone s1 = (Ok domainID, s2) ->
        AppendRecords p zone [] s = (Ok [], s2)
        /\ exists req,
             sent s2 = (sent s ++ [req; request_of c call_getDomains])%list
             /\ is_token_request req).
Proof.
  split; [reflexivity|]. split; [reflexivity|].
  intros c s1 domainID s2 H1 H2. split.
  - unfold AppendRecords, bind, ret. rewrite H1, H2. reflexivity.
  - destruct (initClient_sends p s) as (l & Hl & Fl). rewrite H1 in Hl. cbn [snd] in Hl.
    pose proof (getDomainID_sent c zone s1) as Hd. rewrite H2 in Hd. cbn [snd] in Hd.
    unfold initClient, bind, liftR in H1.
    destruct (newIdentifier (Region p)) as [idf|e] eqn:Eid; [|discriminate].
    destruct (token_request_total idf (APITenantID p) (APIUserID p) (APIPassword p))
      as (req & Hreq).
    pose proof (getToken_sent idf _ _ _ req s Hreq) as Hs.
    destruct (getToken idf (APITenantID p) (APIUserID p) (APIPassword p) s)
      as [[tok|e] s1'] eqn:Et; [|discriminate].
    destruct (newDnsClient (Region p) tok); [|discriminate].
    inversion H1; subst. cbn [snd] in Hs.
    exists req. split.
    + rewrite Hd, Hs, <- app_assoc. reflexivity.
    + eapply token_request_shape; eauto using newIdentifier_rooted.
Qed.

(** *** AppendRecords *)

Lemma AppendRecords_loop_app (c : dnsClient) (domainID : string)
    (pre post : list libdns.Record) :
  forall s,
    AppendRecords_loop c domainID (pre ++ post) s =
    match AppendRecords_loop c domainID pre s with
    | (Ok _, s1) => AppendRecords_loop c domainID post s1
    | (Err e, s1) => (Err e, s1)
    end.
Proof.
  induction pre as [|rec pre IH]; intros s; [reflexivity|].
  cbn [app AppendRecords_loop]. unfold bind, liftR.
  destruct (convertToConohaDNSRecord rec) as [raw|e]; [|reflexivity].
  destruct (createRecord c domainID raw s) as [[v|e] s1]; [|reflexivity].
  apply IH.
Qed.

(** The requests of a batch the loop gets through. *)
Lemma AppendRecords_loop_trace (c : dnsClient) (domainID : string)
    (records : list libdns.Record) :
  forall s s',
    AppendRecords_loop c domainID records s = (Ok tt, s') ->
    sent s'
    = (sent s ++ map (fun rec => request_of c (call_createRecord domainID (converted rec)))
                     records)%list.
Proof.
  induction records as [|rec rest IH]; intros s s'.
  - cbn. intros H. inversion H. now rewrite app_nil_r.
  - cbn [AppendRecords_loop map]. unfold bind, liftR, converted.
    destruct (convertToConohaDNSRecord rec) as [raw|e]; [|discriminate].
    pose proof (createRecord_sent c domainID raw s) as Hc.
    destruct (createRecord c domainID raw s) as [[v|e] s1]; [|discriminate].
    intros H. rewrite (IH _ _ H). cbn [snd] in Hc. rewrite Hc, <- app_assoc.
    reflexivity.
Qed.

(** X18. A call of [AppendRecords] that succeeds has sent, after the
    token request and the listing of the domains, exactly one creation
    request for each input record, in the order of the input and without
    looking for a record of the same name, and it returns the input
    list. *)
Theorem AppendRecords_creates_each (p : Provider) (zone : string)
    (records rs : list libdns.Record) (c : dnsClient) (domainID : string)
    (s s1 s2 s' : Net) :
  initClient p s = (Ok c, s1) ->
  getDomainID c zone s1 = (Ok domainID, s2) ->
  AppendRecords p zone records s = (Ok rs, s') ->
  rs = records
  /\ Forall (fun rec => exists raw, convertToConohaDNSRecord rec = Ok raw
                                    /\ converted rec = raw) records
  /\ sent s'
     = (sent s2 ++ map (fun rec => request_of c (call_createRecord domainID (converted rec)))
                       records)%list.
Proof.
  intros H1 H2. unfold AppendRecords, bind, ret. rewrite H1, H2.
  destruct (AppendRecords_loop c domainID records s2) as [[[]|e] s3] eqn:E; [|discriminate].
  intros H. injection H as Hrs Hs'. subst rs s'. split; [reflexivity|]. split.
  - clear H1 H2. revert s2 E.
    induction records as [|rec rest IH]; intros s2 E; constructor.
    + cbn [AppendRecords_loop] in E. unfold bind, liftR, converted in *.
      destruct (convertToConohaDNSRecord rec) as [raw|e]; [|discriminate].
      now exists raw.
    + cbn [AppendRecords_loop] in E. unfold bind, liftR in E.
      destruct (convertToConohaDNSRecord rec) as [raw|e]; [|discriminate].
      destruct (createRecord c domainID raw s2) as [[v|e] s4]; [|discriminate].
      exact (IH _ E).
  - exact (AppendRecords_loop_trace _ _ _ _ _ E).
Qed.

(** X19. [AppendRecords] stops at the first record that does not convert
    or cannot be created, and returns that error: the records before it
    stay created (one creation request each was sent), a record that does
    not convert costs no request, and nothing is sent for the records
    after it. *)
Theorem AppendRecords_stops_at_failure (c : dnsClient) (domainID : string)
    (pre post : list libdns.Record) (rec : libdns.Record) (s s1 : Net) :
  AppendRecords_loop c domainID pre s = (Ok tt, s1) ->
  sent s1
  = (sent s ++ map (fun r => request_of c (call_createRecord domainID (converted r)))
                   pre)%list
  /\ (forall e, convertToConohaDNSRecord rec = Err e ->
                AppendRecords_loop c domainID (pre ++ rec :: post) s = (Err e, s1))
  /\ (forall raw e s2,
        convertToConohaDNSRecord rec = Ok raw ->
        createRecord c domainID raw s1 = (Err e, s2) ->
        AppendRecords_loop c domainID (pre ++ rec :: post) s = (Err e, s2)
        /\ sent s2 = (sent s1 ++ [request_of c (call_createRecord domainID raw)])%list)
  /\ (forall p zone s0 s0' e s2,
        initClient p s0 = (Ok c, s0') ->
        getDomainID c zone s0' = (Ok domainID, s) ->
        AppendRecords_loop c domainID (pre ++ rec :: post) s = (Err e, s2) ->
        AppendRecords p zone (pre ++ rec :: post) s0 = (Err e, s2)).
Proof.
  intros Hpre. split; [exact (AppendRecords_loop_trace _ _ _ _ _ Hpre)|].
  split; [|split].
  - intros e Hconv. rewrite AppendRecords_loop_app, Hpre.
    cbn [AppendRecords_loop]. unfold bind, liftR. now rewrite Hconv.
  - intros raw e s2 Hconv Hcreate. split.
    + rewrite AppendRecords_loop_app, Hpre.
      cbn [AppendRecords_loop]. unfold bind, liftR. now rewrite Hconv, Hcreate.
    + pose proof (createRecord_sent c domainID raw s1) as H. now rewrite Hcreate in H.
  - intros p zone s0 s0' e s2 H1 H2 Hloop.
    unfold AppendRecords, bind. now rewrite H1, H2, Hloop.
Qed.

(** X20. [GetRecords] returns address, canonical-name and text records
    only: whatever the record service lists, no record of another variant
    is in a list the call returns. *)
Theorem GetRecords_returns_supported (p : Provider) (zone : string) (s s' : Net)
    (recs : list libdns.Record) :
  GetRecords p zone s = (Ok recs, s') ->
  Forall (fun rec => supported_variant rec = true) recs.
Proof.
  unfold GetRecords, bind, liftR.
  destruct (initClient p s) as [[c|e] s1]; [|discriminate].
  destruct (getDomainID c zone s1) as [[d|e] s2]; [|discriminate].
  destruct (getRecords c d s2) as [[listing|e] s3]; [|discriminate].
  intros H. inversion H as [[Hloop Hs]].
  exact (GetRecords_loop_supported _ [] recs (Forall_nil _) Hloop).
Qed.

End MoreOperationFacts.

(** ** The token and the region *)

Section IdentityFacts.
Context {ip : netip.API} {st : libdns.Structured}
        {tr : http.Transport} {dec : json.Decoder} {u : url.API}.

(** X21. [getToken] sends one request whatever the answer: a POST to
    [v3/auth/tokens] under the address of the identity service, declared
    and accepted as JSON and without an X-Auth-Token header, whose
    document names the one method [password], the user ID and the
    password under [auth.identity] and the tenant ID as the project of
    [auth.scope]. *)
Theorem getToken_payload (c : identifier) (tenant user pw : string) (s : Net) :
  exists req doc,
    sent (snd (getToken c tenant user pw s)) = (sent s ++ [req])%list
    /\ http.Method req = "POST"
    /\ http.URL req = url.JoinPath (identifier_baseURL c) ["v3"; "auth"; "tokens"]
    /\ http.Get (http.Request_Header req) "Accept" = "application/json"
    /\ http.Get (http.Request_Header req) "Content-Type" = "application/json"
    /\ http.lookup "X-Auth-Token" (http.Request_Header req) = None
    /\ http.Request_Body req = Some doc
    /\ at_path ["auth"; "identity"; "methods"] doc
       = Some (json.JArray [json.JString "password"])
    /\ at_path ["auth"; "identity"; "password"; "user"; "id"] doc
       = Some (json.JString user)
    /\ at_path ["auth"; "identity"; "password"; "user"; "password"] doc
       = Some (json.JString pw)
    /\ at_path ["auth"; "scope"; "project"; "id"] doc = Some (json.JString tenant).
Proof.
  destruct (token_request_total c tenant user pw) as (req & Hreq).
  pose proof (getToken_sent c tenant user pw req s Hreq) as Hsent.
  unfold token_request in Hreq. rewrite newJSONRequest_carrying in Hreq.
  injection Hreq as <-.
  eexists. eexists. split; [exact Hsent|].
  cbn. repeat split; reflexivity.
Qed.

(** X22. A client that [initClient] returns holds the token the identity
    service issued: the token request was answered with status 201, the
    token of the client is the [x-subject-token] header of that answer
    and is not empty, the base address is the one [url.Parse] gives for
    the record service of the region, and the token request is the one
    request that was sent. Every request of this client therefore carries
    the X-Auth-Token header with that token. *)
Theorem initClient_outcome (p : Provider) (s s1 : Net) (c : dnsClient) :
  initClient p s = (Ok c, s1) ->
  exists idf req resp w,
    newIdentifier (Region p) = Ok idf
    /\ token_request idf (APITenantID p) (APIUserID p) (APIPassword p) = Ok req
    /\ http.RoundTrip req (remote s) = (inl resp, w)
    /\ http.StatusCode resp = 201
    /\ token c = http.Get (http.Response_Header resp) "x-subject-token"
    /\ token c <> EmptyString
    /\ url.Parse (dnsServiceBaseURL (default_region (Region p))) = Ok (baseURL c)
    /\ s1 = after s req w
    /\ forall k, http.lookup "X-Auth-Token" (http.Request_Header (request_of c k))
                 = Some [token c].
Proof.
  unfold initClient, bind, liftR.
  destruct (newIdentifier (Region p)) as [idf|e] eqn:Eid; [|discriminate].
  destruct (token_request_total idf (APITenantID p) (APIUserID p) (APIPassword p))
    as (req & Hreq).
  unfold getToken, bind, liftR. rewrite Hreq. unfold identifier_do, bind.
  destruct (HTTPClient_Do_cases req s) as [(resp & w & HR & ->)|(msg & w & _ & ->)];
    [|discriminate].
  destruct (http.StatusCode resp =? http.StatusCreated) eqn:Est;
    cbn [negb]; [|discriminate].
  destruct (http.Get (http.Response_Header resp) "x-subject-token") as [|ch tok] eqn:Eh;
    [discriminate|].
  unfold ret, newDnsClient.
  destruct (url.Parse (dnsServiceBaseURL (default_region (Region p))))
    as [base|e] eqn:Eu; [|discriminate].
  intros H. injection H as <- <-.
  exists idf, req, resp, w. cbn [token baseURL].
  split; [reflexivity|]. split; [exact Hreq|]. split; [exact HR|].
  split; [now apply Z.eqb_eq in Est|]. split; [now rewrite Eh|].
  split; [discriminate|]. split; [reflexivity|]. split; [reflexivity|].
  intros k. unfold request_of, with_token. cbn [token].
  destruct k; reflexivity.
Qed.

(** X23. The empty region is the region [c3j1]: a provider without a
    region and the same provider with the region [c3j1] run every one of
    the four operations the same way, both for the identity service and
    for the record service. *)
Theorem empty_region_is_c3j1 (p : Provider) (zone : string)
    (records : list libdns.Record) (s : Net) :
  let p0 := in_region p EmptyString in
  let p1 := in_region p "c3j1" in
  initClient p0 s = initClient p1 s
  /\ GetRecords p0 zone s = GetRecords p1 zone s
  /\ AppendRecords p0 zone records s = AppendRecords p1 zone records s
  /\ SetRecords p0 zone records s = SetRecords p1 zone records s
  /\ DeleteRecords p0 zone records s = DeleteRecords p1 zone records s.
Proof.
  intros p0 p1.
  assert (initClient p0 = initClient p1) as Hinit by reflexivity.
  unfold GetRecords, AppendRecords, SetRecords, DeleteRecords.
  rewrite Hinit. repeat split; reflexivity.
Qed.

(** X24. [DeleteRecords] finds the record to delete by name and type
    only: two records that convert to raw records of the same name and
    type, whatever their data and their TTL, take the loop through the
    same requests to the same result. *)
Theorem DeleteRecords_ignores_data (c : dnsClient) (domainID : string)
    (rec rec' : libdns.Record) (rest : list libdns.Record)
    (raw raw' : conohaDNSRecord) (s : Net) :
  convertToConohaDNSRecord rec = Ok raw ->
  convertToConohaDNSRecord rec' = Ok raw' ->
  Name raw = Name raw' ->
  Type_ raw = Type_ raw' ->
  DeleteRecords_loop c domainID (rec :: rest) s
  = DeleteRecords_loop c domainID (rec' :: rest) s.
Proof.
  intros Ha Hb Hn Ht. cbn [DeleteRecords_loop]. unfold bind at 1 3, liftR.
  rewrite Ha, Hb, Hn, Ht. reflexivity.
Qed.

End IdentityFacts.

(** * Runs on the test server

    The theorems above, applied to the sample inputs: the libraries are
    the concrete ones and the remote side is the test server, unless a
    run names the scripted server. *)

#[local] Existing Instance netip_v4.api.
#[local] Existing Instance libdns_text.structured.
#[local] Existing Instance jsontext.decoder.
#[local] Existing Instance TestServer.urls.
#[local] Existing Instance TestServer.transport.

(** The first steps of an operation on the test server, run from the state
    [start]: the token is issued, the zone resolved and the listing
    fetched. *)
Ltac reach_listing start listing H1 H2 H3 :=
  let s1 := fresh "s1" in
  let s2 := fresh "s2" in
  let s3 := fresh "s3" in
  pose (s1 := snd (initClient TestServer.provider start));
  pose (s2 := Sample.ready start);
  pose (s3 := snd (getRecords Sample.client "dom-1" s2));
  assert (initClient TestServer.provider start = (Ok Sample.client, s1)) as H1
    by reflexivity;
  assert (getDomainID Sample.client Sample.zone s1 = (Ok "dom-1", s2)) as H2
    by reflexivity;
  assert (getRecords Sample.client "dom-1" s2 = (Ok listing, s3)) as H3
    by reflexivity.



(** An address record for 192.0.2.1 with a TTL of one hour goes to a raw
    record and back unchanged. *)
Lemma translation_roundtrip_witness :
  supported_variant Sample.www = true
  /\ whole_seconds (ttl_of Sample.www)
  /\ reparses Sample.www
  /\ convertToConohaDNSRecord Sample.www
     = Ok (Sample.raw EmptyString "www.example.localhost" "A" "192.0.2.1" 3600)
  /\ roundtrip Sample.www = Ok Sample.www.
Proof.
  assert (whole_seconds (ttl_of Sample.www)) as Hw.
  { exists 3600. split; [lia|]. split; [reflexivity|].
    unfold int64_range. vm_compute. split; [discriminate | reflexivity]. }
  assert (reparses Sample.www) as Hr by reflexivity.
  split; [reflexivity|]. split; [exact Hw|]. split; [exact Hr|].
  destruct (translation_roundtrip Sample.www eq_refl Hw Hr)
    as (raw & Hraw & _ & _ & _ & _ & Hround).
  split; [reflexivity | exact Hround].
Defined.

(** C3 as stated fails: an address record whose IP is the zero [Addr] is
    of a supported variant and has a TTL of a whole hour, yet its
    translation to a raw record is refused, so the round trip does not
    succeed. *)
Lemma translation_roundtrip_counterexample :
  supported_variant Sample.unset_address = true
  /\ whole_seconds (ttl_of Sample.unset_address)
  /\ libdns.RR_Data (libdns.RR_of Sample.unset_address) = "invalid IP"
  /\ convertToConohaDNSRecord Sample.unset_address
     = Err (ErrorfWrap "failed to parse record: %w"
              (foreign pkg_libdns "invalid IP address: unable to parse IP"))
  /\ (forall rec, roundtrip Sample.unset_address <> Ok rec).
Proof.
  split; [reflexivity|]. split.
  { exists 3600. split; [lia|]. split; [reflexivity|].
    unfold int64_range. vm_compute. split; [discriminate | reflexivity]. }
  split; [reflexivity|].
  assert (convertToConohaDNSRecord Sample.unset_address
          = Err (ErrorfWrap "failed to parse record: %w"
                   (foreign pkg_libdns "invalid IP address: unable to parse IP"))) as H
    by reflexivity.
  split; [exact H|].
  intros rec Hround. unfold roundtrip in Hround. rewrite H in Hround.
  discriminate Hround.
Qed.

(** On the sample zone [GetRecords] returns the address record and the two
    text records and leaves out the MX record; on the zone with the
    malformed address record it fails with the parse error. *)
Lemma GetRecords_translates_and_skips_witness :
  fst (GetRecords TestServer.provider Sample.zone Sample.s0)
  = Ok (translated (Records Sample.listing0))
  /\ List.length (Records Sample.listing0) = 4%nat
  /\ List.length (translated (Records Sample.listing0)) = 3%nat
  /\ fst (GetRecords TestServer.provider Sample.zone Sample.s_bad)
     = Err (foreign pkg_netip "unable to parse IP").
Proof.
  split; [|split; [reflexivity|split; [reflexivity|]]].
  - reach_listing Sample.s0 Sample.listing0 H1 H2 H3.
    destruct (GetRecords_translates_and_skips _ _ _ _ _ _ _ _ _ H1 H2 H3) as [Hall _].
    rewrite Hall; [reflexivity|].
    intros raw Hin. cbn in Hin.
    destruct Hin as [<-|[<-|[<-|[<-|[]]]]].
    + left. eexists. reflexivity.
    + right. reflexivity.
    + left. eexists. reflexivity.
    + left. eexists. reflexivity.
  - reach_listing Sample.s_bad Sample.listing_bad H1 H2 H3.
    destruct (GetRecords_translates_and_skips _ _ _ _ _ _ _ _ _ H1 H2 H3) as [_ Hstop].
    rewrite (Hstop [Sample.raw "rec-a" "www.example.localhost" "A" "192.0.2.1" 3600]
                   Sample.raw_bad
                   [Sample.raw "rec-t1" "dup.example.localhost" "TXT" "first" 300]
                   (foreign pkg_netip "unable to parse IP")).
    + reflexivity.
    + reflexivity.
    + intros r [<-|[]]. left. eexists. reflexivity.
    + reflexivity.
    + discriminate.
Defined.

(** The malformed address record of the sample zone is translated to the
    parse error, and [GetRecords] on that zone fails with it. *)
Lemma malformed_address_fails_listing_witness :
  (Type_ Sample.raw_bad = "A" \/ Type_ Sample.raw_bad = "AAAA")
  /\ netip.ParseAddr (Data Sample.raw_bad) = inr "unable to parse IP"
  /\ convertToLibdnsRecord Sample.raw_bad = Err (foreign pkg_netip "unable to parse IP")
  /\ In Sample.raw_bad (Records Sample.listing_bad)
  /\ fst (GetRecords TestServer.provider Sample.zone Sample.s_bad)
     = Err (foreign pkg_netip "unable to parse IP").
Proof.
  assert (Type_ Sample.raw_bad = "A" \/ Type_ Sample.raw_bad = "AAAA") as Hty
    by (left; reflexivity).
  assert (netip.ParseAddr (Data Sample.raw_bad) = inr "unable to parse IP") as Hp
    by reflexivity.
  assert (In Sample.raw_bad (Records Sample.listing_bad)) as Hin
    by (right; left; reflexivity).
  destruct (malformed_address_fails_listing Sample.raw_bad "unable to parse IP" Hty Hp)
    as (Hconv & _ & _ & Hget).
  split; [exact Hty|]. split; [exact Hp|]. split; [exact Hconv|]. split; [exact Hin|].
  reach_listing Sample.s_bad Sample.listing_bad H1 H2 H3.
  destruct (Hget _ _ _ _ _ _ _ _ _ H1 H2 H3 Hin) as [_ Hthis].
  rewrite (Hthis [Sample.raw "rec-a" "www.example.localhost" "A" "192.0.2.1" 3600]
                 [Sample.raw "rec-t1" "dup.example.localhost" "TXT" "first" 300]).
  - reflexivity.
  - reflexivity.
  - intros r [<-|[]]. left. eexists. reflexivity.
Defined.

(** The sample zone has two text records named dup.example.localhost: the
    resolution gives the ID of the first; and it gives
    [errRecordNotFound] for a name the zone does not have. *)
Lemma getRecordID_first_match_witness :
  fst (getRecords Sample.client "dom-1" Sample.s0) = Ok Sample.listing0
  /\ fst (getRecordID Sample.client "dom-1" "dup.example.localhost" "TXT" Sample.s0)
     = Ok "rec-t1"
  /\ fst (getRecordID Sample.client "dom-1" "gone.example.localhost" "TXT" Sample.s0)
     = Err errRecordNotFound.
Proof.
  pose (s1 := snd (getRecords Sample.client "dom-1" Sample.s0)).
  assert (getRecords Sample.client "dom-1" Sample.s0 = (Ok Sample.listing0, s1)) as H
    by reflexivity.
  split; [now rewrite H|]. split.
  - destruct (getRecordID_first_match Sample.client "dom-1" "dup.example.localhost"
                "TXT" Sample.s0 s1 Sample.listing0 H) as [Hfirst _].
    rewrite (Hfirst
               [Sample.raw "rec-a" "www.example.localhost" "A" "192.0.2.1" 3600;
                Sample.raw_mx]
               (Sample.raw "rec-t1" "dup.example.localhost" "TXT" "first" 300)
               [Sample.raw "rec-t2" "dup.example.localhost" "TXT" "second" 300]).
    + reflexivity.
    + reflexivity.
    + intros r [<-|[<-|[]]]; intros [Hn _]; discriminate Hn.
    + split; reflexivity.
  - destruct (getRecordID_first_match Sample.client "dom-1" "gone.example.localhost"
                "TXT" Sample.s0 s1 Sample.listing0 H) as [_ Hnone].
    rewrite Hnone; [reflexivity|].
    intros r Hin. cbn in Hin.
    destruct Hin as [<-|[<-|[<-|[<-|[]]]]]; intros [Hn _]; discriminate Hn.
Defined.

(** The test server answers the right password with 201 and a token, and
    [getToken] returns that token; it answers a wrong password with 401,
    and [getToken] returns the error carrying 401. *)
Lemma getToken_needs_201_and_header_witness :
  fst (getToken Sample.issuer "tenant" "user" "secret" Sample.s0)
  = Ok TestServer.issued_token
  /\ fst (getToken Sample.issuer "tenant" "user" "guess" Sample.s0)
     = Err (Errorf "got invalid status: HTTP %d" [ArgInt 401]).
Proof.
  split.
  - pose (req := Sample.token_req "secret").
    pose (resp := Sample.answer_to req Sample.s0).
    pose (w := snd (http.RoundTrip req (remote Sample.s0))).
    assert (token_request Sample.issuer "tenant" "user" "secret" = Ok req) as Hreq
      by reflexivity.
    assert (http.RoundTrip req (remote Sample.s0) = (inl resp, w)) as HR by reflexivity.
    destruct (getToken_needs_201_and_header Sample.issuer "tenant" "user" "secret"
                Sample.s0 req resp w Hreq HR) as (_ & Hok & _ & _).
    rewrite Hok; [reflexivity | reflexivity |].
    intros H. vm_compute in H. discriminate H.
  - pose (req := Sample.token_req "guess").
    pose (resp := Sample.answer_to req Sample.s0).
    pose (w := snd (http.RoundTrip req (remote Sample.s0))).
    assert (token_request Sample.issuer "tenant" "user" "guess" = Ok req) as Hreq
      by reflexivity.
    assert (http.RoundTrip req (remote Sample.s0) = (inl resp, w)) as HR by reflexivity.
    destruct (getToken_needs_201_and_header Sample.issuer "tenant" "user" "guess"
                Sample.s0 req resp w Hreq HR) as (_ & _ & Hbad & _).
    rewrite Hbad; [reflexivity|].
    intros H. vm_compute in H. discriminate H.
Defined.

(** A scripted record service that answers the creation of a record with
    201 Created: the call fails with the error carrying 201 and the body. *)
Lemma record_service_status_witness :
  let k := call_createRecord "dom-1" Sample.raw_mx in
  let s := Scripted.start [Sample.created_201] in
  @http.RoundTrip Scripted.transport (request_of Sample.client k) (remote s)
  = (inl Sample.created_201, [])
  /\ perform (tr := Scripted.transport) Sample.client k s
     = (Err (Errorf "got error status: HTTP %d\nResponse body: %s"
               [ArgInt 201; ArgString "created"]),
        after s (request_of Sample.client k) []).
Proof.
  intros k s.
  assert (@http.RoundTrip Scripted.transport (request_of Sample.client k) (remote s)
          = (inl Sample.created_201, [])) as HR by reflexivity.
  split; [exact HR|].
  destruct (record_service_status (tr := Scripted.transport) Sample.client k s
              Sample.created_201 [] HR) as [_ Hbad].
  apply Hbad; discriminate.
Defined.


(** [SetRecords] on the sample zone with a text record the zone does not
    have and one it has twice: the first is created, the second is updated
    in place under the ID of the first match, and the call returns its
    input; a client without a token gets the error of the listing
    request. *)
Lemma SetRecords_creates_or_updates_witness :
  let s := Sample.ready Sample.s0 in
  let created := SetRecords_loop Sample.client "dom-1" [Sample.new_txt] s in
  let updated :=
    SetRecords_loop Sample.client "dom-1" [Sample.new_txt; Sample.dup_txt] s in
  fst created = Ok tt
  /\ In ("dom-1", Sample.raw "rec-1" "test.example.localhost" "TXT" "testval1" 1200)
        (TestServer.contents (remote (snd created)))
  /\ fst updated = Ok tt
  /\ In ("dom-1", Sample.raw "rec-t1" "dup.example.localhost" "TXT" "updated" 300)
        (TestServer.contents (remote (snd updated)))
  /\ List.length (TestServer.contents (remote (snd updated))) = 5%nat
  /\ fst (SetRecords_loop Sample.stranger "dom-1" [Sample.new_txt] s)
     = Err (Errorf "got error status: HTTP %d\nResponse body: %s"
              [ArgInt 401; ArgString "unauthorized"])
  /\ fst (SetRecords TestServer.provider Sample.zone
            [Sample.new_txt; Sample.dup_txt] Sample.s0)
     = Ok [Sample.new_txt; Sample.dup_txt].
Proof.
  intros s created updated.
  pose (new_raw := Sample.raw EmptyString "test.example.localhost" "TXT" "testval1" 1200).
  pose (dup_raw := Sample.raw EmptyString "dup.example.localhost" "TXT" "updated" 3600).
  assert (convertToConohaDNSRecord Sample.new_txt = Ok new_raw) as Hnew by reflexivity.
  assert (convertToConohaDNSRecord Sample.dup_txt = Ok dup_raw) as Hdup by reflexivity.
  assert (SetRecords_loop Sample.client "dom-1" [] s = (Ok tt, s)) as Hnil by reflexivity.
  assert (SetRecords_loop Sample.stranger "dom-1" [] s = (Ok tt, s)) as Hnil'
    by reflexivity.
  split; [|split; [vm_compute; tauto|split; [|split; [vm_compute; tauto|split;
    [reflexivity|split]]]]].
  - destruct (SetRecords_creates_or_updates Sample.client "dom-1" [] []
                Sample.new_txt new_raw s s Hnil Hnew) as (Hcreate & _).
    pose (s1 := snd (getRecordID Sample.client "dom-1" (Name new_raw) (Type_ new_raw) s)).
    assert (getRecordID Sample.client "dom-1" (Name new_raw) (Type_ new_raw) s
            = (Err errRecordNotFound, s1)) as Hres by reflexivity.
    destruct (Hcreate s1 Hres) as (r & s2 & Hc & _ & Hloop).
    assert (isOk (fst (createRecord Sample.client "dom-1" new_raw s1)) = true) as Hok
      by reflexivity.
    unfold created. cbn [app] in Hloop. rewrite Hloop. rewrite Hc in Hok.
    cbn [fst] in Hok. destruct r as [v|e]; [reflexivity | discriminate Hok].
  - pose (sc := snd created).
    assert (SetRecords_loop Sample.client "dom-1" [Sample.new_txt] s = (Ok tt, sc))
      as Hfirst by reflexivity.
    destruct (SetRecords_creates_or_updates Sample.client "dom-1" [Sample.new_txt] []
                Sample.dup_txt dup_raw s sc Hfirst Hdup) as (_ & Hupdate & _).
    pose (s1 := snd (getRecordID Sample.client "dom-1" (Name dup_raw) (Type_ dup_raw) sc)).
    assert (getRecordID Sample.client "dom-1" (Name dup_raw) (Type_ dup_raw) sc
            = (Ok "rec-t1", s1)) as Hres by reflexivity.
    destruct (Hupdate "rec-t1" s1 Hres) as (r & s2 & Hu & _ & Hloop).
    assert (isOk (fst (updateRecord Sample.client "dom-1" "rec-t1" dup_raw s1)) = true)
      as Hok by reflexivity.
    unfold updated. cbn [app] in Hloop. rewrite Hloop. rewrite Hu in Hok.
    cbn [fst] in Hok. destruct r as [v|e]; [reflexivity | discriminate Hok].
  - destruct (SetRecords_creates_or_updates Sample.stranger "dom-1" [] []
                Sample.new_txt new_raw s s Hnil' Hnew) as (_ & _ & Hother & _).
    pose (s1 := snd (getRecordID Sample.stranger "dom-1" (Name new_raw) (Type_ new_raw) s)).
    cbn [app] in Hother.
    rewrite (Hother (Errorf "got error status: HTTP %d\nResponse body: %s"
                       [ArgInt 401; ArgString "unauthorized"]) s1).
    + reflexivity.
    + reflexivity.
    + discriminate.
  - destruct (SetRecords TestServer.provider Sample.zone
                [Sample.new_txt; Sample.dup_txt] Sample.s0) as [[rs|e] s'] eqn:Hrun.
    + destruct (SetRecords_creates_or_updates Sample.client "dom-1" [] []
                  Sample.new_txt new_raw s s Hnil Hnew) as (_ & _ & _ & _ & Hsame).
      rewrite (Hsame _ _ _ _ _ _ Hrun). reflexivity.
    + assert (isOk (fst (SetRecords TestServer.provider Sample.zone
                [Sample.new_txt; Sample.dup_txt] Sample.s0)) = true) as Hok by reflexivity.
      rewrite Hrun in Hok. discriminate Hok.
Defined.

(** [DeleteRecords] on the sample zone with a batch whose second record
    the zone does not have: the call returns [errRecordNotFound], the
    first record is gone from the zone and stays gone, and the third
    record is still there. *)
Lemma DeleteRecords_aborts_without_rollback_witness :
  let s := Sample.ready Sample.s0 in
  let batch := [Sample.www; Sample.gone_txt; Sample.dup_txt] in
  let result := DeleteRecords_loop Sample.client "dom-1" batch s in
  fst result = Err errRecordNotFound
  /\ existsb (TestServer.is_record "dom-1" "rec-a") (TestServer.contents (remote s)) = true
  /\ existsb (TestServer.is_record "dom-1" "rec-a")
       (TestServer.contents (remote (snd result))) = false
  /\ existsb (TestServer.is_record "dom-1" "rec-t1")
       (TestServer.contents (remote (snd result))) = true
  /\ deletions (sent (snd result)) = 1%nat
  /\ fst (DeleteRecords TestServer.provider Sample.zone batch Sample.s0)
     = Err errRecordNotFound.
Proof.
  intros s batch result.
  pose (gone_raw := Sample.raw EmptyString "gone.example.localhost" "TXT" "nothing" 3600).
  pose (s1 := snd (DeleteRecords_loop Sample.client "dom-1" [Sample.www] s)).
  pose (s2 := snd (getRecordID Sample.client "dom-1" (Name gone_raw) (Type_ gone_raw) s1)).
  assert (DeleteRecords_loop Sample.client "dom-1" [Sample.www] s = (Ok tt, s1)) as Hpre
    by reflexivity.
  assert (convertToConohaDNSRecord Sample.gone_txt = Ok gone_raw) as Hconv by reflexivity.
  assert (getRecordID Sample.client "dom-1" (Name gone_raw) (Type_ gone_raw) s1
          = (Err errRecordNotFound, s2)) as Hres by reflexivity.
  destruct (DeleteRecords_aborts_without_rollback Sample.client "dom-1"
              [Sample.www] [Sample.dup_txt] Sample.gone_txt gone_raw errRecordNotFound
              s s1 s2 Hpre Hconv Hres) as (Hloop & _ & Hcount & Hcall).
  change ([Sample.www] ++ Sample.gone_txt :: [Sample.dup_txt])%list with batch in *.
  fold result in Hloop.
  split; [now rewrite Hloop|].
  split; [reflexivity|].
  split; [reflexivity|].
  split; [reflexivity|].
  split; [rewrite Hloop; cbn [snd]; rewrite Hcount; reflexivity|].
  pose (s0' := snd (initClient TestServer.provider Sample.s0)).
  rewrite (Hcall TestServer.provider Sample.zone Sample.s0 s0').
  - reflexivity.
  - reflexivity.
  - reflexivity.
Defined.

(** ** Runs of the further properties *)

(** The test server hosts one domain: its name resolves to its UUID, and
    another name gives the error that carries the name. *)
Lemma getDomainID_first_match_witness :
  fst (getDomainID Sample.client "example.localhost" Sample.s0) = Ok "dom-1"
  /\ fst (getDomainID Sample.client "other.localhost" Sample.s0)
     = Err (Errorf "no such domain: %s" [ArgString "other.localhost"]).
Proof.
  pose (s1 := snd (getDomains Sample.client Sample.s0)).
  assert (getDomains Sample.client Sample.s0 = (Ok Cases.domains0, s1)) as H
    by reflexivity.
  split.
  - destruct (getDomainID_first_match Sample.client "example.localhost"
                Sample.s0 s1 Cases.domains0 H) as [Hfirst _].
    rewrite (Hfirst [] TestServer.example_zone []).
    + reflexivity.
    + reflexivity.
    + intros x [].
    + reflexivity.
  - destruct (getDomainID_first_match Sample.client "other.localhost"
                Sample.s0 s1 Cases.domains0 H) as [_ Hnone].
    rewrite Hnone; [reflexivity|].
    intros x [<-|[]]. discriminate.
Defined.

(** The listing the test server gives is returned as decoded; a server
    that does not answer gives the transport error. *)
Lemma getRecords_outcome_witness :
  fst (getRecords Sample.client "dom-1" Sample.s0) = Ok Sample.listing0
  /\ fst (getRecords (tr := Scripted.transport) Sample.client "dom-1" (Scripted.start []))
     = Err (foreign pkg_http "connection refused").
Proof.
  split.
  - destruct (getRecords_outcome Sample.client "dom-1" Sample.s0) as [Hanswer _].
    pose (req := request_of Sample.client (call_getRecords "dom-1")).
    pose (resp := Sample.answer_to req Sample.s0).
    pose (w := snd (http.RoundTrip req (remote Sample.s0))).
    assert (http.RoundTrip req (remote Sample.s0) = (inl resp, w)) as HR by reflexivity.
    assert (http.StatusCode resp = 200 \/ http.StatusCode resp = 204) as Hst
      by (left; reflexivity).
    destruct (Hanswer resp w HR Hst) as (_ & _ & Hok).
    rewrite (Hok Sample.listing0); reflexivity.
  - destruct (getRecords_outcome (tr := Scripted.transport) Sample.client "dom-1"
                (Scripted.start [])) as [_ Hnone].
    rewrite (Hnone "connection refused" []); reflexivity.
Defined.

(** A 204 answer with a body that cannot be read: the deletion
    succeeds. *)
Lemma deleteRecord_status_only_witness :
  let s := Scripted.start [Cases.broken_204] in
  fst (deleteRecord (tr := Scripted.transport) Sample.client "dom-1" "rec-a" s) = Ok tt.
Proof.
  intros s.
  pose (req := request_of Sample.client (call_deleteRecord "dom-1" "rec-a")).
  assert (@http.RoundTrip Scripted.transport req (remote s) = (inl Cases.broken_204, []))
    as HR by reflexivity.
  destruct (deleteRecord_status_only (tr := Scripted.transport) Sample.client
              "dom-1" "rec-a" s Cases.broken_204 [] HR) as [Hok _].
  rewrite Hok; [reflexivity|]. right. reflexivity.
Defined.

(** A zone whose record was listed without a UUID: the resolution gives
    the empty ID. *)
Lemma empty_UUID_reaches_collection_witness :
  fst (getRecordID Sample.client "dom-1" "anon.example.localhost" "TXT" Cases.s_anon)
  = Ok EmptyString.
Proof.
  pose (s1 := snd (getRecords Sample.client "dom-1" Cases.s_anon)).
  assert (getRecords Sample.client "dom-1" Cases.s_anon = (Ok Cases.listing_anon, s1))
    as H by reflexivity.
  destruct (empty_UUID_reaches_collection Sample.client "dom-1"
              "anon.example.localhost" "TXT" Cases.s_anon s1 Cases.listing_anon
              [] [] (Sample.raw EmptyString "anon.example.localhost" "TXT" "nobody" 60) H)
    as [Hid _].
  - reflexivity.
  - intros r [].
  - split; reflexivity.
  - reflexivity.
  - now rewrite Hid.
Defined.

(** A listed text record comes back as it was, without its UUID; an
    address record listed as AAAA with an IPv4 address comes back as A. *)
Lemma raw_roundtrip_witness :
  (exists rec,
     convertToLibdnsRecord Cases.raw_txt = Ok rec
     /\ convertToConohaDNSRecord rec
        = Ok (Sample.raw EmptyString "dup.example.localhost" "TXT" "first" 300))
  /\ (exists rec,
        convertToLibdnsRecord Cases.raw_mistyped = Ok rec
        /\ convertToConohaDNSRecord rec
           = Ok (Sample.raw EmptyString "www.example.localhost" "A" "192.0.2.1" 3600)).
Proof.
  assert (forall n, 0 <= n <= 3600 -> int64_range (n * time.Second)) as Hr.
  { intros n Hn. unfold int64_range, time.Second. lia. }
  split.
  - destruct (raw_roundtrip Cases.raw_txt) as [Htxt _]; [apply Hr; cbn; lia|].
    destruct Htxt as (rec & Hfrom & Hto); [right; reflexivity|].
    exists rec. split; [exact Hfrom | exact Hto].
  - destruct (raw_roundtrip Cases.raw_mistyped) as [_ Haddr]; [apply Hr; cbn; lia|].
    destruct (Haddr (or_intror eq_refl)
                (netip_v4.v4 (netip_v4.byte 192) (netip_v4.byte 0)
                             (netip_v4.byte 2) (netip_v4.byte 1)))
      as (rec & Hfrom & Hto); [reflexivity | reflexivity |].
    exists rec. split; [exact Hfrom | exact Hto].
Defined.

(** The same text record with two TTLs is one record to the helper. *)
Lemma isSameRecord_ignores_TTL_witness :
  ttl_of Sample.new_txt <> ttl_of Cases.new_txt_hour
  /\ isSameRecord Sample.new_txt Cases.new_txt_hour = true.
Proof.
  split; [discriminate|].
  destruct (isSameRecord_ignores_TTL Sample.new_txt Cases.new_txt_hour
              eq_refl eq_refl eq_refl) as [H _].
  exact H.
Defined.

(** Two MX records of different content are the same to the helper, and an
    MX record is not the same as an address record. *)
Lemma isSameRecord_of_refused_witness :
  isSameRecord Sample.mx Sample.mx_without_target = true
  /\ isSameRecord Sample.mx Sample.www = false.
Proof.
  assert (convertToConohaDNSRecord Sample.mx = Err errRecordNotSupported) as Ha
    by reflexivity.
  split.
  - destruct (isSameRecord_of_refused Sample.mx Sample.mx_without_target _ Ha)
      as [Hboth _].
    apply (Hboth (ErrorfWrap "failed to parse record: %w"
                    (foreign pkg_libdns "malformed MX value"))).
    reflexivity.
  - destruct (isSameRecord_of_refused Sample.mx Sample.www _ Ha) as [_ Hone].
    apply (Hone (Sample.raw EmptyString "www.example.localhost" "A" "192.0.2.1" 3600)).
    + reflexivity.
    + discriminate.
Defined.


(** With the wrong password every operation returns the 401 error of the
    token request. *)
Lemma authentication_comes_first_witness :
  let e := Errorf "got invalid status: HTTP %d" [ArgInt 401] in
  fst (GetRecords Cases.intruder Sample.zone Sample.s0) = Err e
  /\ fst (SetRecords Cases.intruder Sample.zone [Sample.new_txt] Sample.s0) = Err e
  /\ List.length (sent (snd (SetRecords Cases.intruder Sample.zone [Sample.new_txt]
                               Sample.s0))) = 1%nat.
Proof.
  intros e.
  pose (s1 := snd (getToken Sample.issuer "tenant" "user" "guess" Sample.s0)).
  assert (newIdentifier (Region Cases.intruder) = Ok Sample.issuer) as Hid by reflexivity.
  assert (getToken Sample.issuer (APITenantID Cases.intruder) (APIUserID Cases.intruder)
            (APIPassword Cases.intruder) Sample.s0 = (Err e, s1)) as Htok by reflexivity.
  destruct (authentication_comes_first Cases.intruder Sample.zone [Sample.new_txt]
              Sample.issuer Sample.s0 s1 e Hid Htok)
    as (Hg & _ & Hs & _ & req & Hsent & _).
  rewrite Hg, Hs. cbn [fst snd]. rewrite Hsent.
  split; [reflexivity|]. split; reflexivity.
Defined.

(** A zone the account does not host: every operation returns the error
    that names it. *)
Lemma domain_resolution_comes_second_witness :
  let e := Errorf "no such domain: %s" [ArgString "other.localhost"] in
  fst (GetRecords TestServer.provider "other.localhost" Sample.s0) = Err e
  /\ fst (DeleteRecords TestServer.provider "other.localhost" [Sample.www] Sample.s0)
     = Err e.
Proof.
  intros e.
  pose (s1 := snd (initClient TestServer.provider Sample.s0)).
  pose (s2 := snd (getDomainID Sample.client "other.localhost" s1)).
  assert (initClient TestServer.provider Sample.s0 = (Ok Sample.client, s1)) as H1
    by reflexivity.
  assert (getDomainID Sample.client "other.localhost" s1 = (Err e, s2)) as H2
    by reflexivity.
  destruct (domain_resolution_comes_second TestServer.provider "other.localhost"
              [Sample.www] Sample.client Sample.s0 s1 s2 e H1 H2)
    as (Hg & _ & _ & Hd & _).
  rewrite Hg, Hd. split; reflexivity.
Defined.

(** A region with a space in it: nothing is sent. *)
Lemma bad_region_sends_nothing_witness :
  GetRecords Cases.misplaced Sample.zone Sample.s0
  = (Err (foreign pkg_url "invalid character in host name"), Sample.s0).
Proof.
  destruct (bad_region_sends_nothing Cases.misplaced Sample.zone [] Sample.s0
              "invalid character in host name") as (Hg & _).
  - reflexivity.
  - exact Hg.
Defined.

(** The empty batch on the test server: two requests, and the empty
    list. *)
Lemma empty_batch_witness :
  fst (DeleteRecords TestServer.provider Sample.zone [] Sample.s0) = Ok []
  /\ List.length (sent (snd (DeleteRecords TestServer.provider Sample.zone []
                               Sample.s0))) = 2%nat.
Proof.
  pose (s1 := snd (initClient TestServer.provider Sample.s0)).
  pose (s2 := Sample.ready Sample.s0).
  assert (initClient TestServer.provider Sample.s0 = (Ok Sample.client, s1)) as H1
    by reflexivity.
  assert (getDomainID Sample.client Sample.zone s1 = (Ok "dom-1", s2)) as H2
    by reflexivity.
  destruct (empty_batch TestServer.provider Sample.zone Sample.s0) as (Has & Hsd & Hrun).
  destruct (Hrun Sample.client s1 "dom-1" s2 H1 H2) as (Hok & req & Hsent & _).
  rewrite <- Hsd, <- Has, Hok. cbn [fst snd]. rewrite Hsent.
  split; reflexivity.
Defined.

(** Two text records appended on the sample zone: two creations in the
    order of the input, also for the name the zone already has. *)
Lemma AppendRecords_creates_each_witness :
  let run := AppendRecords TestServer.provider Sample.zone
               [Sample.new_txt; Sample.dup_txt] Sample.s0 in
  fst run = Ok [Sample.new_txt; Sample.dup_txt]
  /\ map http.Method (sent (snd run)) = ["POST"; "GET"; "POST"; "POST"]
  /\ List.length (TestServer.contents (remote (snd run))) = 6%nat.
Proof.
  intros run.
  pose (s1 := snd (initClient TestServer.provider Sample.s0)).
  pose (s2 := Sample.ready Sample.s0).
  assert (initClient TestServer.provider Sample.s0 = (Ok Sample.client, s1)) as H1
    by reflexivity.
  assert (getDomainID Sample.client Sample.zone s1 = (Ok "dom-1", s2)) as H2
    by reflexivity.
  assert (run = (Ok [Sample.new_txt; Sample.dup_txt], snd run)) as Hrun by reflexivity.
  destruct (AppendRecords_creates_each TestServer.provider Sample.zone
              [Sample.new_txt; Sample.dup_txt] _ Sample.client "dom-1"
              Sample.s0 s1 s2 (snd run) H1 H2 Hrun) as (_ & _ & Hsent).
  split; [reflexivity|]. split; [rewrite Hsent; reflexivity | reflexivity].
Defined.

(** A batch whose second record is an MX record: the first record is
    created, the call returns the error of unsupported types, and the
    third record is not created. *)
Lemma AppendRecords_stops_at_failure_witness :
  let s := Sample.ready Sample.s0 in
  let run := AppendRecords_loop Sample.client "dom-1"
               [Sample.new_txt; Sample.mx; Sample.dup_txt] s in
  fst run = Err errRecordNotSupported
  /\ List.length (TestServer.contents (remote (snd run))) = 5%nat.
Proof.
  intros s run.
  pose (s1 := snd (AppendRecords_loop Sample.client "dom-1" [Sample.new_txt] s)).
  assert (AppendRecords_loop Sample.client "dom-1" [Sample.new_txt] s = (Ok tt, s1))
    as Hpre by reflexivity.
  destruct (AppendRecords_stops_at_failure Sample.client "dom-1" [Sample.new_txt]
              [Sample.dup_txt] Sample.mx s s1 Hpre) as (_ & Hconv & _).
  assert (run = (Err errRecordNotSupported, s1)) as Hrun.
  { apply (Hconv errRecordNotSupported). reflexivity. }
  rewrite Hrun. split; reflexivity.
Defined.

(** The sample zone lists an MX record; the three records [GetRecords]
    returns for it are of the supported variants. *)
Lemma GetRecords_returns_supported_witness :
  existsb (fun raw => String.eqb (Type_ raw) "MX") (Records Sample.listing0) = true
  /\ Forall (fun rec => supported_variant rec = true)
       (translated (Records Sample.listing0))
  /\ List.length (translated (Records Sample.listing0)) = 3%nat.
Proof.
  split; [reflexivity|]. split; [|reflexivity].
  pose (s' := snd (GetRecords TestServer.provider Sample.zone Sample.s0)).
  assert (GetRecords TestServer.provider Sample.zone Sample.s0
          = (Ok (translated (Records Sample.listing0)), s')) as H by reflexivity.
  exact (GetRecords_returns_supported TestServer.provider Sample.zone Sample.s0 s'
           (translated (Records Sample.listing0)) H).
Defined.

(** On the test server the provider gets a client with the token the
    server issues, after one request. *)
Lemma initClient_outcome_witness :
  fst (initClient TestServer.provider Sample.s0) = Ok Sample.client
  /\ token Sample.client = "token-c3j1"
  /\ http.lookup "X-Auth-Token"
       (http.Request_Header (request_of Sample.client call_getDomains))
     = Some ["token-c3j1"].
Proof.
  pose (s1 := snd (initClient TestServer.provider Sample.s0)).
  assert (initClient TestServer.provider Sample.s0 = (Ok Sample.client, s1)) as H
    by reflexivity.
  destruct (initClient_outcome TestServer.provider Sample.s0 s1 Sample.client H)
    as (idf & req & resp & w & _ & _ & _ & _ & _ & _ & _ & _ & Hall).
  split; [reflexivity|]. split; [reflexivity|].
  exact (Hall call_getDomains).
Defined.

(** The address record of the sample zone is deleted by a record of its
    name with another address. *)
Lemma DeleteRecords_ignores_data_witness :
  let s := Sample.ready Sample.s0 in
  let run := DeleteRecords_loop Sample.client "dom-1" [Cases.www_moved] s in
  run = DeleteRecords_loop Sample.client "dom-1" [Sample.www] s
  /\ fst run = Ok tt
  /\ List.length (TestServer.contents (remote (snd run))) = 3%nat.
Proof.
  intros s run. split; [|split; reflexivity].
  apply (DeleteRecords_ignores_data Sample.client "dom-1" Cases.www_moved Sample.www []
           (Sample.raw EmptyString "www.example.localhost" "A" "198.51.100.7" 60)
           (Sample.raw EmptyString "www.example.localhost" "A" "192.0.2.1" 3600) s);
    reflexivity.
Defined.
